(** * EasyPPTX positioning and grid arithmetic

    A shallow embedding of the positioning code of EasyPPTX, with the
    properties of its arithmetic that the specification states and further
    properties read off the code:
    - [src/easypptx/slide.py]: [Slide.__init__] with [_get_slide_width] and
      [_get_slide_height], the position resolver [Slide._convert_position],
      and [add_text], [add_image], [add_shape], [add_multiple_objects] up
      to their calls of the drawing library;
    - [src/easypptx/grid.py]: [GridCell], [Grid.__init__],
      [Grid._create_cells], [Grid.get_cell], [Grid.merge_cells],
      [Grid.add_to_cell], [Grid.add_grid_to_cell], [Grid.autogrid], and
      [Grid.autogrid_pyplot] once its figures are saved;
    - [src/easypptx/table.py]: [Table.add] up to its call of the drawing
      library.

    Python values are modelled as the interpreter has them:
    - [float] is IEEE 754 binary64: [spec_float] with precision 53 and
      [emax] 1024, every operation rounded to nearest even as [SpecFloat]
      writes it out; the power [n ** 0.5], which Python leaves to the [pow]
      of the C library, is a parameter [libm_pow];
    - [int] is [Z]; [int(text)] refuses more than 4300 digits, the limit
      the interpreter starts with;
    - [str] is [string] (the ASCII fragment of Python's text);
    - a [dict] with text keys, such as [**kwargs], is a [gmap];
    - an exception is a value of [PyError], carried by [Result];
    - a length handed to the drawing library is the [int] that [Inches] of
      python-pptx makes of it, in EMU;
    - the objects mutated in place ([Grid.cells], [GridCell]) are passed and
      returned explicitly, and the state the content functions act on is
      threaded as [World]. *)

From Stdlib Require Import ZArith Lia Bool Ascii String.
From Stdlib Require Import DecimalString DecimalN DecimalPos.
From Corelib Require Import SpecFloat.
From stdpp Require Import base option list list_numbers strings gmap.

Open Scope Z_scope.
Open Scope string_scope.

(** ** Exceptions *)

Inductive PyError : Type :=
| ValueError
| TypeError
| ZeroDivisionError
| OverflowError
| AttributeError
| UnboundLocalError
| IndexError
| OutOfBoundsError
| CellMergeError.

Inductive Result (A : Type) : Type :=
| Ok (a : A)
| Raise (e : PyError).
Arguments Ok {A} a.
Arguments Raise {A} e.

#[global] Instance Result_ret : MRet Result := fun _ a => Ok a.
#[global] Instance Result_bind : MBind Result := fun _ _ f m =>
  match m with
  | Ok a => f a
  | Raise e => Raise e
  end.

Definition is_ok {A} (r : Result A) : bool :=
  match r with Ok _ => true | Raise _ => false end.

(** [try: body except: handler] with a bare [except]. *)
Definition try_except {A} (body : Result A) (handler : Result A) : Result A :=
  match body with
  | Ok a => Ok a
  | Raise _ => handler
  end.

(** ** Text: the [str] methods the code calls *)

Module PyStr.

Definition percent_sign : ascii := "%"%char.

Fixpoint lstrip_if (p : ascii -> bool) (s : string) : string :=
  match s with
  | String a t => if p a then lstrip_if p t else s
  | EmptyString => EmptyString
  end.

Fixpoint rstrip_if (p : ascii -> bool) (s : string) : string :=
  match s with
  | EmptyString => EmptyString
  | String a t =>
      match rstrip_if p t with
      | EmptyString => if p a then EmptyString else String a EmptyString
      | t' => String a t'
      end
  end.

Definition strip_if (p : ascii -> bool) (s : string) : string :=
  rstrip_if p (lstrip_if p s).

(** [s.strip("%")] *)
Definition strip_percent (s : string) : string :=
  strip_if (Ascii.eqb percent_sign) s.

(** [s.endswith("%")] *)
Fixpoint endswith_percent (s : string) : bool :=
  match s with
  | EmptyString => false
  | String a EmptyString => Ascii.eqb a percent_sign
  | String _ t => endswith_percent t
  end.

(** ["%" in s] *)
Fixpoint contains_percent (s : string) : bool :=
  match s with
  | EmptyString => false
  | String a t => Ascii.eqb a percent_sign || contains_percent t
  end.

(** The ASCII characters [float] and [int] skip before and after a
    number: TAB, LF, VT, FF, CR and space. *)
Definition is_space (c : ascii) : bool :=
  let n := Z.of_N (N_of_ascii c) in
  ((9 <=? n)%Z && (n <=? 13)%Z) || (n =? 32)%Z.

Definition strip_space (s : string) : string := strip_if is_space s.

Definition digit_of (c : ascii) : option Z :=
  let n := Z.of_N (N_of_ascii c) in
  if (48 <=? n)%Z && (n <=? 57)%Z then Some (n - 48) else None.

Definition to_lower (c : ascii) : ascii :=
  let n := N_of_ascii c in
  if ((65 <=? n) && (n <=? 90))%N then ascii_of_N (n + 32) else c.

Fixpoint lower (s : string) : string :=
  match s with
  | EmptyString => EmptyString
  | String a t => String (to_lower a) (lower t)
  end.

(** [digit (["_"] digit)*] once its first digit has been read: the value
    read so far, the number of digits, and the text left. *)
Fixpoint digits_tail (s : string) (acc cnt : Z) : Z * Z * string :=
  match s with
  | EmptyString => (acc, cnt, s)
  | String c t =>
      match digit_of c with
      | Some d => digits_tail t (10 * acc + d) (cnt + 1)
      | None =>
          if Ascii.eqb c "_" then
            match t with
            | String c2 t2 =>
                match digit_of c2 with
                | Some d => digits_tail t2 (10 * acc + d) (cnt + 1)
                | None => (acc, cnt, s)
                end
            | EmptyString => (acc, cnt, s)
            end
          else (acc, cnt, s)
      end
  end.

Definition digitpart (s : string) : option (Z * Z * string) :=
  match s with
  | String c t =>
      match digit_of c with
      | Some d => Some (digits_tail t d 1)
      | None => None
      end
  | EmptyString => None
  end.

(** Every character of [s] satisfies [q]. *)
Fixpoint all_chars (q : ascii -> bool) (s : string) : bool :=
  match s with
  | EmptyString => true
  | String a t => q a && all_chars q t
  end.

(** A digit or the decimal point. *)
Definition num_char (c : ascii) : bool :=
  match digit_of c with Some _ => true | None => Ascii.eqb c "." end.

(** The text [rest] does not go on a [digitpart]. *)
Definition stops (rest : string) : Prop :=
  match rest with
  | EmptyString => True
  | String c _ => digit_of c = None /\ Ascii.eqb c "_" = false
  end.

(** An optional sign: [true] for "-". *)
Definition sign (s : string) : bool * string :=
  match s with
  | String "-" t => (true, t)
  | String "+" t => (false, t)
  | _ => (false, s)
  end.

End PyStr.

(** ** Binary64 arithmetic *)

Module Float64.

Definition prec : Z := 53.
Definition emax : Z := 1024.

Definition float : Type := spec_float.

(** Round-to-nearest-even conversion of an integer. *)
Definition of_Z (z : Z) : float := binary_normalize prec emax z 0 false.

(** The binary64 number nearest to [n / d] ([0 <= n], [0 < d]), with the
    sign [neg]: the quotient is taken with enough bits, then rounded once. *)
Definition of_ratio (neg : bool) (n d : Z) : float :=
  let '(q, e, l) := SFdiv_core_binary prec emax n 0 d 0 in
  binary_round_aux prec emax neg q e l.

(** The binary64 number nearest to [m * 10 ^ dexp]: what a decimal
    literal or [float(text)] denotes. *)
Definition of_decimal (neg : bool) (m dexp : Z) : float :=
  if (0 <=? dexp)%Z then of_ratio neg (m * 10 ^ dexp) 1
  else of_ratio neg m (10 ^ (- dexp)).

Definition add : float -> float -> float := SFadd prec emax.
Definition sub : float -> float -> float := SFsub prec emax.
Definition mul : float -> float -> float := SFmul prec emax.
Definition div : float -> float -> float := SFdiv prec emax.
Definition sqrt : float -> float := SFsqrt prec emax.
Definition abs : float -> float := SFabs.
Definition leb : float -> float -> bool := SFleb.
(** [x > y] *)
Definition gtb (x y : float) : bool := SFltb y x.

Definition is_zero (x : float) : bool :=
  match x with S754_zero _ => true | _ => false end.

(** Zero or a finite non-zero number. *)
Definition is_finite (x : float) : bool :=
  match x with S754_zero _ | S754_finite _ _ _ => true | _ => false end.

(** Truncation toward zero of a finite number. *)
Definition trunc (x : float) : option Z :=
  match x with
  | S754_zero _ => Some 0
  | S754_finite s m e => Some (cond_Zopp s (Z.shiftl (Zpos m) e))
  | _ => None
  end.

(** The least integer not below a finite number. *)
Definition ceil (x : float) : option Z :=
  match x with
  | S754_zero _ => Some 0
  | S754_finite s m e =>
      if (0 <=? e)%Z then Some (cond_Zopp s (Zpos m * 2 ^ e))
      else Some (- ((- cond_Zopp s (Zpos m)) / 2 ^ (- e)))
  | _ => None
  end.

(** [n / d] rounded to the nearest integer, ties to even ([0 <= n], [0 < d]). *)
Definition round_half_even (n d : Z) : Z :=
  let q := n / d in
  let r := n mod d in
  match (2 * r ?= d)%Z with
  | Lt => q
  | Eq => if Z.even q then q else q + 1
  | Gt => q + 1
  end.

(** The magnitude [m * 2 ^ e] in hundredths, rounded to nearest, ties to
    even. *)
Definition hundredths (m : positive) (e : Z) : Z :=
  if (0 <=? e)%Z then Zpos m * 2 ^ e * 100
  else round_half_even (Zpos m * 100) (2 ^ (- e)).

Definition f0_01 : float := of_decimal false 1 (-2).
Definition f0_5 : float := of_decimal false 5 (-1).
Definition f1 : float := of_Z 1.
Definition f10 : float := of_Z 10.
Definition f13_333 : float := of_decimal false 13333 (-3).
Definition f100 : float := of_Z 100.
Definition f2 : float := of_Z 2.
(** [16 / 9] *)
Definition ratio_16_9 : float := of_ratio false 16 9.

End Float64.

Export Float64(float).

Declare Scope float64_scope.
Delimit Scope float64_scope with f64.
Infix "+" := Float64.add : float64_scope.
Infix "-" := Float64.sub : float64_scope.
Infix "*" := Float64.mul : float64_scope.

(** ** Python's numeric operators and conversions *)

Module Py.
Import PyStr.

(** [float(z)] for an [int] [z]; also the conversion of the [int] operand
    of a mixed operation. *)
Definition float_of_int (z : Z) : Result float :=
  match Float64.of_Z z with
  | S754_infinity _ => Raise OverflowError
  | f => Ok f
  end.

(** [x / y] for two floats. *)
Definition truediv (x y : float) : Result float :=
  if Float64.is_zero y then Raise ZeroDivisionError
  else Ok (Float64.div x y).

(** [a / b] for two ints: the correctly rounded quotient. *)
Definition truediv_int (a b : Z) : Result float :=
  if (b =? 0)%Z then Raise ZeroDivisionError
  else
    match Float64.of_ratio (xorb (a <? 0)%Z (b <? 0)%Z) (Z.abs a) (Z.abs b) with
    | S754_infinity _ => Raise OverflowError
    | f => Ok f
    end.

(** [x / b] for a float and an int. *)
Definition truediv_float_int (x : float) (b : Z) : Result float :=
  y ← float_of_int b; truediv x y.

(** [a * y] for an int and a float. *)
Definition mul_int_float (a : Z) (y : float) : Result float :=
  x ← float_of_int a; Ok (Float64.mul x y).

(** [x * b] for a float and an int. *)
Definition mul_float_int (x : float) (b : Z) : Result float :=
  y ← float_of_int b; Ok (Float64.mul x y).

(** [a // b] for two ints (the quotient rounded toward minus infinity). *)
Definition floordiv (a b : Z) : Result Z :=
  if (b =? 0)%Z then Raise ZeroDivisionError else Ok (a / b).

(** [int(x)] for a float. *)
Definition int_of_float (x : float) : Result Z :=
  match x with
  | S754_nan => Raise ValueError
  | S754_infinity _ => Raise OverflowError
  | _ => match Float64.trunc x with Some z => Ok z | None => Raise ValueError end
  end.

(** [n ** 0.5] for an int [n] whose result goes to [int()]. Python
    answers [0 ** 0.5] and [1 ** 0.5] itself; for any other [n >= 0] it
    converts [n] to a float and calls the [pow] of the C library, whose
    result the language does not fix: [libm_pow] stands for that function.
    For a negative [n] the power is a complex number, which [int()]
    refuses. *)
Definition pow_half (libm_pow : float -> float -> float) (n : Z)
  : Result float :=
  if (n <? 0)%Z then Raise TypeError
  else if (n =? 0)%Z then Ok (S754_zero false)
  else if (n =? 1)%Z then Ok Float64.f1
  else x ← float_of_int n; Ok (libm_pow x Float64.f0_5).

(** [a % b] for two ints (the remainder has the sign of [b]). *)
Definition mod_int (a b : Z) : Result Z :=
  if (b =? 0)%Z then Raise ZeroDivisionError else Ok (a mod b).

(** [math.sqrt(n)] for an int [n]. *)
Definition math_sqrt (n : Z) : Result float :=
  x ← float_of_int n;
  if (n <? 0)%Z then Raise ValueError else Ok (Float64.sqrt x).

(** [math.ceil(x)] for a float. *)
Definition math_ceil (x : float) : Result Z :=
  match x with
  | S754_nan => Raise ValueError
  | S754_infinity _ => Raise OverflowError
  | _ => match Float64.ceil x with Some z => Ok z | None => Raise ValueError end
  end.

(** [sys.get_int_max_str_digits()] as the interpreter starts. *)
Definition int_max_str_digits : Z := 4300.

(** [int(text)] in base ten:
    blanks, an optional sign, [digit (["_"] digit)*], blanks; a number of
    more than [int_max_str_digits] digits is refused. *)
Definition int_of_str (text : string) : Result Z :=
  let '(neg, s) := sign (strip_space text) in
  match digitpart s with
  | Some (v, digits, EmptyString) =>
      if (int_max_str_digits <? digits)%Z then Raise ValueError
      else Ok (if neg then - v else v)
  | _ => Raise ValueError
  end.

(** The exponent part of a float literal, if the text left is exactly one. *)
Definition exponent (s : string) : option Z :=
  match s with
  | EmptyString => Some 0
  | String c t =>
      if Ascii.eqb (to_lower c) "e" then
        let '(neg, t') := sign t in
        match digitpart t' with
        | Some (v, _, EmptyString) => Some (if neg then - v else v)
        | _ => None
        end
      else None
  end.

(** [[digitpart] "." digitpart | digitpart ["."]] followed by an optional
    exponent: the decimal mantissa and the power of ten. *)
Definition floatnumber (s : string) : option (Z * Z) :=
  match digitpart s with
  | Some (ip, _, String "." r) =>
      match digitpart r with
      | Some (fp, fn, r') =>
          ex ← exponent r'; Some (ip * 10 ^ fn + fp, ex - fn)
      | None => ex ← exponent r; Some (ip, ex)
      end
  | Some (ip, _, r) => ex ← exponent r; Some (ip, ex)
  | None =>
      match s with
      | String "." r =>
          match digitpart r with
          | Some (fp, fn, r') => ex ← exponent r'; Some (fp, ex - fn)
          | None => None
          end
      | _ => None
      end
  end.

(** [float(text)]: blanks, an optional sign, then [inf], [infinity], [nan]
    (in any case) or a decimal number; the value is the nearest binary64
    number. *)
Definition float_of_str (text : string) : Result float :=
  let '(neg, s) := sign (strip_space text) in
  let l := lower s in
  if String.eqb l "inf" || String.eqb l "infinity" then Ok (S754_infinity neg)
  else if String.eqb l "nan" then Ok S754_nan
  else
    match floatnumber s with
    | Some (m, dexp) => Ok (Float64.of_decimal neg m dexp)
    | None => Raise ValueError
    end.

Definition digit_char (d : Z) : ascii := ascii_of_N (Z.to_N (48 + d)).

Definition decimal_of_N (n : N) : string :=
  NilZero.string_of_uint (N.to_uint n).

(** The text of [h] hundredths, [0 <= h]: the integer part, a point and
    two digits. *)
Definition two_decimals (h : Z) : string :=
  decimal_of_N (Z.to_N (h / 100)) ++ "." ++
  String (digit_char (h mod 100 / 10))
    (String (digit_char (h mod 10)) EmptyString).

(** [f"{x:.2f}"] *)
Definition format_2f (x : float) : string :=
  match x with
  | S754_nan => "nan"
  | S754_infinity s => if s then "-inf" else "inf"
  | S754_zero s => if s then "-0.00" else "0.00"
  | S754_finite s m e =>
      (if s then "-" else "") ++ two_decimals (Float64.hundredths m e)
  end.

(** [f"{x:.2f}%"] *)
Definition format_pct (x : float) : string := format_2f x ++ "%".

(** What [float(f"{x:.2f}")] is: [x] rounded to the hundredth, then to
    binary64. *)
Definition reread_2f (x : float) : float :=
  match x with
  | S754_finite s m e => Float64.of_decimal s (Float64.hundredths m e) (-2)
  | _ => x
  end.

End Py.

(** ** slide.py *)

(** [PositionType = Union[float, str]] *)
Inductive PositionType : Type :=
| PosFloat (f : float)
| PosStr (s : string).

(** The [h_align == "center"] test on an optional alignment. *)
Definition is_center (h_align : option string) : bool :=
  match h_align with
  | Some a => String.eqb a "center"
  | None => false
  end.

Module Slide.
Import Py PyStr.
Local Open Scope float64_scope.

(** The part of a [Slide] the positioning code reads: the cached slide
    dimensions, in EMU. *)
Record t : Type := mk {
  _slide_width : Z;
  _slide_height : Z
}.

(** [(percent / 100) * (slide_dimension / 914400)] *)
Definition standard_position (percent : float) (slide_dimension : Z)
  : Result float :=
  p ← truediv_float_int percent 100;
  d ← truediv_int slide_dimension 914400;
  Ok (p * d).

(** The body of the [try] block of [_convert_position]. *)
Definition adjust_for_ratio (self : t) (position_inches : float)
  : Result float :=
  current_ratio ← truediv_int (_slide_width self) (_slide_height self);
  standard_ratio ← truediv_int 16 9;
  if Float64.gtb (Float64.abs (current_ratio - standard_ratio)) Float64.f0_01
  then
    q ← truediv current_ratio standard_ratio;
    let adjustment := (q - Float64.f1) * Float64.f0_5 in
    Ok (position_inches * (Float64.f1 + adjustment))
  else Ok position_inches.

Definition _convert_position (self : t) (value : PositionType)
    (slide_dimension : Z) (is_width : bool) (h_align : option string)
  : Result float :=
  match value with
  | PosStr s =>
      if endswith_percent s then
        percent ← float_of_str (strip_percent s);
        if is_center h_align && is_width then
          position_inches ← standard_position percent slide_dimension;
          try_except
            (adjust_for_ratio self position_inches)
            (standard_position percent slide_dimension)
        else standard_position percent slide_dimension
      else float_of_str s
  | PosFloat f => Ok f
  end.

(** [Inches(inches)] of python-pptx: [int(inches * 914400)], a length in
    EMU. *)
Definition Inches (inches : float) : Result Z :=
  emu ← mul_float_int inches 914400; int_of_float emu.

(** What [add_text], [add_image], [add_shape] and [Table.add] hand to the
    drawing library: the position and size in EMU. *)
Record Geometry : Type := mkGeometry {
  x_emu : Z;
  y_emu : Z;
  width_emu : option Z;
  height_emu : option Z
}.

(** [add_text] up to the call of [shapes.add_textbox]. *)
Definition add_text (self : t) (x y width height : PositionType)
    (align : string) (h_align : option string) : Result Geometry :=
  let slide_width := _slide_width self in
  let slide_height := _slide_height self in
  let h_align :=
    match h_align with
    | None => if String.eqb align "center" then Some "center" else None
    | Some _ => h_align
    end in
  x_inches ← _convert_position self x slide_width true h_align;
  y_inches ← _convert_position self y slide_height false None;
  width_inches ← _convert_position self width slide_width true None;
  height_inches ← _convert_position self height slide_height false None;
  left ← Inches x_inches;
  top ← Inches y_inches;
  w ← Inches width_inches;
  h ← Inches height_inches;
  Ok (mkGeometry left top (Some w) (Some h)).

(** The default alignment of [add_image]:
    [h_align is None and isinstance(x, str) and "%" in x
     and int(x.strip("%")) > 20]. *)
Definition image_h_align (x : PositionType) (h_align : option string)
  : Result (option string) :=
  match h_align, x with
  | None, PosStr s =>
      if contains_percent s then
        n ← int_of_str (strip_percent s);
        if (20 <? n)%Z then Ok (Some "center") else Ok None
      else Ok None
  | _, _ => Ok h_align
  end.

(** [Inches(self._convert_position(value, slide_dimension, is_width))]
    when [value is not None], and [None] otherwise. *)
Definition convert_optional (self : t) (value : option PositionType)
    (slide_dimension : Z) (is_width : bool) : Result (option Z) :=
  match value with
  | Some v =>
      r ← _convert_position self v slide_dimension is_width None;
      e ← Inches r;
      Ok (Some e)
  | None => Ok None
  end.

(** [add_image] up to the call of [shapes.add_picture]: the size is
    brought to EMU as it is converted, the position when the call is
    made. *)
Definition add_image (self : t) (x y : PositionType)
    (width height : option PositionType) (h_align : option string)
  : Result Geometry :=
  let slide_width := _slide_width self in
  let slide_height := _slide_height self in
  h_align ← image_h_align x h_align;
  x_inches ← _convert_position self x slide_width true h_align;
  y_inches ← _convert_position self y slide_height false None;
  width_inches ← convert_optional self width slide_width true;
  height_inches ← convert_optional self height slide_height false;
  left ← Inches x_inches;
  top ← Inches y_inches;
  Ok (mkGeometry left top width_inches height_inches).

(** The default alignment of [add_shape]:
    [h_align is None and isinstance(width, str) and "%" in width
     and int(width.strip("%")) > 50]. *)
Definition shape_h_align (width : PositionType) (h_align : option string)
  : Result (option string) :=
  match h_align, width with
  | None, PosStr s =>
      if contains_percent s then
        n ← int_of_str (strip_percent s);
        if (50 <? n)%Z then Ok (Some "center") else Ok None
      else Ok None
  | _, _ => Ok h_align
  end.

(** [add_shape] up to the call of [shapes.add_shape]. *)
Definition add_shape (self : t) (x y width height : PositionType)
    (h_align : option string) : Result Geometry :=
  let slide_width := _slide_width self in
  let slide_height := _slide_height self in
  h_align ← shape_h_align width h_align;
  x_inches ← _convert_position self x slide_width true h_align;
  y_inches ← _convert_position self y slide_height false None;
  width_inches ← _convert_position self width slide_width true None;
  height_inches ← _convert_position self height slide_height false None;
  left ← Inches x_inches;
  top ← Inches y_inches;
  w ← Inches width_inches;
  h ← Inches height_inches;
  Ok (mkGeometry left top (Some w) (Some h)).

(** The python-pptx presentation and slide as [Slide] reads them: an
    attribute whose access raises [AttributeError] is [None]. *)
Record PPTXPresentation : Type := mkPresentation {
  presentation_slide_width : option Z;
  presentation_slide_height : option Z
}.

(** [presentation] is what [part.package.presentation] reaches. *)
Record PPTXSlide : Type := mkPPTXSlide {
  slide_width : option Z;
  slide_height : option Z;
  presentation : option PPTXPresentation
}.

Definition _get_slide_width (pptx_slide : PPTXSlide) : Z :=
  match slide_width pptx_slide with
  | Some w => w
  | None =>
      match presentation pptx_slide with
      | Some p =>
          match presentation_slide_width p with
          | Some w => w
          | None => 9144000
          end
      | None => 9144000
      end
  end.

Definition _get_slide_height (pptx_slide : PPTXSlide) : Z :=
  match slide_height pptx_slide with
  | Some h => h
  | None =>
      match presentation pptx_slide with
      | Some p =>
          match presentation_slide_height p with
          | Some h => h
          | None => 6858000
          end
      | None => 6858000
      end
  end.

(** A [Slide] object: the python-pptx slide it wraps and the dimensions
    that [__init__] caches. *)
Record Object : Type := mkObject {
  pptx_slide : PPTXSlide;
  cached : t
}.

(** [Slide.__init__] *)
Definition init (pptx_slide : PPTXSlide) : Object :=
  mkObject pptx_slide
    (mk (_get_slide_width pptx_slide) (_get_slide_height pptx_slide)).

End Slide.

(** ** grid.py *)

(** A keyword argument value. *)
Inductive PyVal : Type :=
| VNone
| VBool (b : bool)
| VInt (z : Z)
| VFloat (f : float)
| VStr (s : string).

(** [**kwargs] *)
Definition Kwargs : Type := gmap string PyVal.

(** [l[i]] on a list, with Python's negative indices. *)
Definition py_index {A} (l : list A) (i : Z) : Result A :=
  let n := Z.of_nat (length l) in
  let j := if (i <? 0)%Z then n + i else i in
  if (j <? 0)%Z then Raise IndexError
  else match l !! Z.to_nat j with
       | Some a => Ok a
       | None => Raise IndexError
       end.

(** [range(a, b)] *)
Definition range (a b : Z) : list Z := seqZ a (b - a).

(** A [for] loop whose body only raises or goes on. *)
Fixpoint for_each {A} (body : A -> Result unit) (l : list A) : Result unit :=
  match l with
  | [] => Ok tt
  | a :: rest => _ ← body a; for_each body rest
  end.

Module GridCell.
Section WithContent.
Context {Content : Type}.

Record t : Type := mk {
  row : Z;
  col : Z;
  x : string;
  y : string;
  width : string;
  height : string;
  content : option Content;
  span_rows : Z;
  span_cols : Z;
  is_spanned : bool
}.

(** [GridCell.__init__] *)
Definition init (row col : Z) (x y width height : string) : t :=
  mk row col x y width height None 1 1 false.

Definition set_content (v : Content) (c : t) : t :=
  mk (row c) (col c) (x c) (y c) (width c) (height c) (Some v)
     (span_rows c) (span_cols c) (is_spanned c).

Definition set_is_spanned (b : bool) (c : t) : t :=
  mk (row c) (col c) (x c) (y c) (width c) (height c) (content c)
     (span_rows c) (span_cols c) b.

(** The four assignments [merge_cells] makes on the first cell. *)
Definition set_span (w h : string) (sr sc : Z) (c : t) : t :=
  mk (row c) (col c) (x c) (y c) w h (content c) sr sc (is_spanned c).

End WithContent.
Arguments t : clear implicits.
End GridCell.

Module Grid.
Section WithContent.
Import Py PyStr.
Local Open Scope float64_scope.

(** [Parent] is the slide a grid draws on, [Content] what a drawing call
    returns, [World] the state the drawing calls act on. *)
Context {Parent Content World : Type}.

Abbreviation Cell := (GridCell.t Content).

Record t : Type := mk {
  parent : Parent;
  x : PositionType;
  y : PositionType;
  width : PositionType;
  height : PositionType;
  rows : Z;
  cols : Z;
  padding : float;
  h_align : option string;
  cells : list (list Cell)
}.

Definition set_cells (cs : list (list Cell)) (g : t) : t :=
  mk (parent g) (x g) (y g) (width g) (height g) (rows g) (cols g)
     (padding g) (h_align g) cs.

(** A function called with keyword arguments, and one called with none. *)
Definition ContentFunc : Type := Kwargs -> World -> Content * World.
Definition Thunk : Type := World -> Content * World.

(** [cells[row][col] = f(cells[row][col])], in place. *)
Definition update_cell (f : Cell -> Cell) (row col : Z)
    (cs : list (list Cell)) : list (list Cell) :=
  alter (alter f (Z.to_nat col)) (Z.to_nat row) cs.

(** The geometry of the cell at [(row, col)], as [_create_cells] formats it. *)
Definition make_cell (cell_width_percent cell_height_percent
    effective_cell_width effective_cell_height
    half_padding_width half_padding_height : float) (row col : Z)
  : Result Cell :=
  cx ← mul_int_float col cell_width_percent;
  let x_percent := cx + half_padding_width in
  cy ← mul_int_float row cell_height_percent;
  let y_percent := cy + half_padding_height in
  let x_str := format_pct x_percent in
  let y_str := format_pct y_percent in
  let width_str := format_pct effective_cell_width in
  let height_str := format_pct effective_cell_height in
  Ok (GridCell.init row col x_str y_str width_str height_str).

Definition _create_cells (rows cols : Z) (padding : float)
  : Result (list (list Cell)) :=
  padding_factor ← truediv padding Float64.f100;
  cell_width_percent ← truediv_float_int Float64.f100 cols;
  cell_height_percent ← truediv_float_int Float64.f100 rows;
  let effective_cell_width := cell_width_percent * (Float64.f1 - padding_factor) in
  let effective_cell_height := cell_height_percent * (Float64.f1 - padding_factor) in
  half_padding_width ← truediv_float_int (cell_width_percent * padding_factor) 2;
  half_padding_height ← truediv_float_int (cell_height_percent * padding_factor) 2;
  mapM (fun row =>
          mapM (make_cell cell_width_percent cell_height_percent
                  effective_cell_width effective_cell_height
                  half_padding_width half_padding_height row)
               (range 0 cols))
       (range 0 rows).

(** [Grid.__init__] *)
Definition init (parent : Parent) (x y width height : PositionType)
    (rows cols : Z) (padding : float) (h_align : option string) : Result t :=
  cs ← _create_cells rows cols padding;
  Ok (mk parent x y width height rows cols padding h_align cs).

Definition default_padding : float := Float64.of_Z 5.

Definition out_of_bounds (self : t) (row col : Z) : bool :=
  (row <? 0)%Z || (rows self <=? row)%Z || (col <? 0)%Z || (cols self <=? col)%Z.

(** [self.cells[row][col]] *)
Definition cell_at (cs : list (list Cell)) (row col : Z) : Result Cell :=
  r ← py_index cs row; py_index r col.

Definition get_cell (self : t) (row col : Z) : Result Cell :=
  if out_of_bounds self row col then Raise OutOfBoundsError
  else cell_at (cells self) row col.

(** [float(text.strip("%"))] *)
Definition percent_of (text : string) : Result float :=
  float_of_str (strip_percent text).

(** The first pair of loops of [merge_cells]. *)
Definition check_not_spanned (cs : list (list Cell))
    (start_row start_col end_row end_col : Z) : Result unit :=
  for_each (fun row =>
    for_each (fun col =>
      cell ← cell_at cs row col;
      if GridCell.is_spanned cell then Raise CellMergeError else Ok tt)
      (range start_col (end_col + 1)))
    (range start_row (end_row + 1)).

(** The last pair of loops of [merge_cells]. *)
Definition mark_spanned (cs : list (list Cell))
    (start_row start_col end_row end_col : Z) : list (list Cell) :=
  foldl (fun cs row =>
    foldl (fun cs col =>
      if negb (row =? start_row)%Z || negb (col =? start_col)%Z
      then update_cell (GridCell.set_is_spanned true) row col cs
      else cs)
      cs (range start_col (end_col + 1)))
    cs (range start_row (end_row + 1)).

(** [merge_cells]: the grid after the call and the cell returned. *)
Definition merge_cells (self : t) (start_row start_col end_row end_col : Z)
  : Result (t * Cell) :=
  if out_of_bounds self start_row start_col
     || out_of_bounds self end_row end_col
  then Raise OutOfBoundsError
  else if (end_row <? start_row)%Z || (end_col <? start_col)%Z
  then Raise CellMergeError
  else
    _ ← check_not_spanned (cells self) start_row start_col end_row end_col;
    first_cell ← cell_at (cells self) start_row start_col;
    last_cell ← cell_at (cells self) end_row end_col;
    first_x ← percent_of (GridCell.x first_cell);
    first_y ← percent_of (GridCell.y first_cell);
    last_x ← percent_of (GridCell.x last_cell);
    last_y ← percent_of (GridCell.y last_cell);
    last_width ← percent_of (GridCell.width last_cell);
    last_height ← percent_of (GridCell.height last_cell);
    let new_width := (last_x + last_width) - first_x in
    let new_height := (last_y + last_height) - first_y in
    let merged :=
      GridCell.set_span (format_pct new_width) (format_pct new_height)
        (end_row - start_row + 1) (end_col - start_col + 1) in
    let cs := update_cell merged start_row start_col (cells self) in
    let cs := mark_spanned cs start_row start_col end_row end_col in
    Ok (set_cells cs self, merged first_cell).

(** The grid's own [x] or [y] as a percentage: [float(v.strip("%"))] for a
    percent text, [float(v) * scale] for anything else. *)
Definition origin_percent (v : PositionType) (scale : float) : Result float :=
  match v with
  | PosStr s =>
      if endswith_percent s then percent_of s
      else f ← float_of_str s; Ok (f * scale)
  | PosFloat f => Ok (f * scale)
  end.

(** [float(v.strip("%"))]: [strip] is a method of [str] only. *)
Definition size_percent (v : PositionType) : Result float :=
  match v with
  | PosStr s => percent_of s
  | PosFloat _ => Raise AttributeError
  end.

(** The absolute percentages [add_to_cell] computes for a cell:
    x, y, width and height. *)
Definition cell_geometry (self : t) (cell : Cell)
  : Result (float * float * float * float) :=
  grid_x_percent ← origin_percent (x self) Float64.f10;
  grid_y_percent ← origin_percent (y self) Float64.f13_333;
  cell_x_percent ← percent_of (GridCell.x cell);
  cell_y_percent ← percent_of (GridCell.y cell);
  gw ← size_percent (width self);
  dx ← truediv_float_int (cell_x_percent * gw) 100;
  let abs_x_percent := grid_x_percent + dx in
  gh ← size_percent (height self);
  dy ← truediv_float_int (cell_y_percent * gh) 100;
  let abs_y_percent := grid_y_percent + dy in
  cell_width_percent ← percent_of (GridCell.width cell);
  cell_height_percent ← percent_of (GridCell.height cell);
  gw ← size_percent (width self);
  abs_width_percent ← truediv_float_int (cell_width_percent * gw) 100;
  gh ← size_percent (height self);
  abs_height_percent ← truediv_float_int (cell_height_percent * gh) 100;
  Ok (abs_x_percent, abs_y_percent, abs_width_percent, abs_height_percent).

(** [bool(h_align)] *)
Definition truthy (a : option string) : bool :=
  match a with
  | Some EmptyString | None => false
  | Some _ => true
  end.

Definition with_h_align (self : t) (kwargs : Kwargs) : Kwargs :=
  match kwargs !! "h_align", h_align self with
  | None, Some a => if truthy (Some a) then <["h_align" := VStr a]> kwargs else kwargs
  | _, _ => kwargs
  end.

(** [add_to_cell]: the grid after the call, the content returned and the
    state the content function leaves. *)
Definition add_to_cell (self : t) (row col : Z) (content_func : ContentFunc)
    (kwargs : Kwargs) (w : World) : Result (t * Content * World) :=
  cell ← get_cell self row col;
  if GridCell.is_spanned cell then Raise CellMergeError
  else
    '(ax, ay, aw, ah) ← cell_geometry self cell;
    let kwargs := <["x" := VStr (format_pct ax)]> kwargs in
    let kwargs := <["y" := VStr (format_pct ay)]> kwargs in
    let kwargs := <["width" := VStr (format_pct aw)]> kwargs in
    let kwargs := <["height" := VStr (format_pct ah)]> kwargs in
    let kwargs := with_h_align self kwargs in
    let '(content, w) := content_func kwargs w in
    let cs := update_cell (GridCell.set_content content) row col (cells self) in
    Ok (set_cells cs self, content, w).

(** [parent.add_text(text=title, x=x, y=title_y, width=width,
    height=title_height, font_size=24, font_bold=True, align="center",
    h_align=h_align)]: the call by which [autogrid] draws its title. *)
Variable parent_add_text :
  Parent -> string -> PositionType -> PositionType -> PositionType ->
  PositionType -> option string -> World -> Result (Content * World).

(** The [pow] of the C library, which [num_items ** 0.5] calls. *)
Variable libm_pow : float -> float -> float.

(** The rows and columns [autogrid] settles on for [num_items] items. *)
Definition auto_dimensions (num_items : Z) (rows cols : option Z)
  : Result (Z * Z) :=
  match rows, cols with
  | None, None =>
      r ← pow_half libm_pow num_items;
      k ← int_of_float r;
      let cols := Z.max 1 k in
      rows ← floordiv (num_items + cols - 1) cols;
      Ok (rows, cols)
  | None, Some cols =>
      rows ← floordiv (num_items + cols - 1) cols;
      Ok (rows, cols)
  | Some rows, None =>
      cols ← floordiv (num_items + rows - 1) rows;
      Ok (rows, cols)
  | Some rows, Some cols => Ok (rows, cols)
  end.

Definition is_percent_text (v : PositionType) : option string :=
  match v with
  | PosStr s => if endswith_percent s then Some s else None
  | PosFloat _ => None
  end.

(** [float(str(title_height).strip("%"))]: a float is printed and read
    back unchanged. *)
Definition title_height_percent (title_height : PositionType) : Result float :=
  match title_height with
  | PosStr s => percent_of s
  | PosFloat f => Ok f
  end.

(** The [if title:] block before the grid is created:
    [adjusted_y], [adjusted_height] and [title_y] when it was bound. *)
Definition title_band (title : option string) (y height title_height : PositionType)
  : Result (PositionType * PositionType * option PositionType) :=
  if truthy title then
    match is_percent_text y with
    | Some ys =>
        y_percent ← percent_of ys;
        thp ← title_height_percent title_height;
        let title_y := PosStr (format_pct y_percent) in
        let adjusted_y := PosStr (format_pct (y_percent + thp)) in
        match is_percent_text height with
        | Some hs =>
            height_percent ← percent_of hs;
            Ok (adjusted_y, PosStr (format_pct (height_percent - thp)), Some title_y)
        | None => Ok (adjusted_y, height, Some title_y)
        end
    | None => Ok (y, height, None)
    end
  else Ok (y, height, None).

(** The placement loop of [autogrid]. *)
Fixpoint place (grid : t) (content_funcs : list Thunk)
    (row_idx col_idx rows cols : Z) (w : World) : Result (t * World) :=
  match content_funcs with
  | [] => Ok (grid, w)
  | func :: rest =>
      let position_agnostic_wrapper : ContentFunc := fun _ => func in
      '(grid, _, w) ← add_to_cell grid row_idx col_idx position_agnostic_wrapper ∅ w;
      let col_idx := (col_idx + 1)%Z in
      let '(row_idx, col_idx) :=
        if (cols <=? col_idx)%Z then ((row_idx + 1)%Z, 0%Z) else (row_idx, col_idx) in
      if (rows <=? row_idx)%Z then Ok (grid, w)
      else place grid rest row_idx col_idx rows cols w
  end.

Definition autogrid (parent : Parent) (content_funcs : list Thunk)
    (rows cols : option Z) (x y width height : PositionType)
    (padding : float) (h_align : option string)
    (title : option string) (title_height : PositionType) (w : World)
  : Result (t * World) :=
  let num_items := Z.of_nat (length content_funcs) in
  if (num_items =? 0)%Z then
    grid ← init parent x y width height 1 1 default_padding (Some "center");
    Ok (grid, w)
  else
    '(rows, cols) ← auto_dimensions num_items rows cols;
    '(adjusted_y, adjusted_height, title_y) ← title_band title y height title_height;
    grid ← init parent x adjusted_y width adjusted_height rows cols padding h_align;
    w ← (if truthy title then
           match title, title_y with
           | Some text, Some ty =>
               '(_, w) ← parent_add_text parent text x ty width title_height h_align w;
               Ok w
           | _, _ => Raise UnboundLocalError
           end
         else Ok w);
    place grid content_funcs 0 0 rows cols w.

(** How a grid is seen as the content of a cell: [add_grid_to_cell] stores
    the nested grid itself. *)
Variable of_grid : t -> Content.

(** [h_align if h_align is not None else self.h_align] *)
Definition nested_h_align (self : t) (given : option string) : option string :=
  match given with
  | Some a => Some a
  | None => h_align self
  end.

(** [add_grid_to_cell]: the grid after the call and the nested grid
    returned. *)
Definition add_grid_to_cell (self : t) (row col rows cols : Z)
    (padding : float) (h_align : option string) : Result (t * t) :=
  cell ← get_cell self row col;
  if GridCell.is_spanned cell then Raise CellMergeError
  else
    '(ax, ay, aw, ah) ← cell_geometry self cell;
    nested_grid ← init (parent self)
      (PosStr (format_pct ax)) (PosStr (format_pct ay))
      (PosStr (format_pct aw)) (PosStr (format_pct ah))
      rows cols padding (nested_h_align self h_align);
    let cs := update_cell (GridCell.set_content (of_grid nested_grid)) row col
                (cells self) in
    Ok (set_cells cs self, nested_grid).

(** [parent.add_image(image_path=path, x=..., y=..., width=..., height=...)]:
    the call by which [autogrid_pyplot] draws a figure. *)
Variable parent_add_image :
  Parent -> string -> PyVal -> PyVal -> PyVal -> PyVal -> World -> Content * World.

(** [kwargs.get(key, default)] *)
Definition kwargs_get (kwargs : Kwargs) (key : string) (dflt : PyVal) : PyVal :=
  default dflt (kwargs !! key).

(** The closure [add_image_func] that [create_content_func(path)] returns. *)
Definition add_image_func (parent : Parent) (path : string) : ContentFunc :=
  fun kwargs =>
    parent_add_image parent path
      (kwargs_get kwargs "x" (VStr "10%"))
      (kwargs_get kwargs "y" (VStr "10%"))
      (kwargs_get kwargs "width" (VStr "80%"))
      (kwargs_get kwargs "height" (VStr "80%")).

(** [autogrid_pyplot] once every figure is saved: [paths] are the temporary
    files, one for each figure, in order. [autogrid] calls a content
    function with no argument, so that [add_image_func] gets no keyword.
    The removal of the files afterwards, which changes neither the result
    nor the exception, is left out. *)
Definition autogrid_pyplot (parent : Parent) (paths : list string)
    (rows cols : option Z) (x y width height : PositionType)
    (padding : float) (h_align : option string)
    (title : option string) (title_height : PositionType) (w : World)
  : Result (t * World) :=
  let content_funcs := map (add_image_func parent) paths in
  autogrid parent (map (fun func : ContentFunc => func ∅) content_funcs)
    rows cols x y width height padding h_align title title_height w.

End WithContent.
Arguments t : clear implicits.
Arguments ContentFunc : clear implicits.
Arguments Thunk : clear implicits.
End Grid.

(** ** slide.py: [add_multiple_objects] *)

Module SlideLayout.
Import Py PyStr Slide.
Local Open Scope float64_scope.

(** What a drawing call is asked for: the kind of object and its geometry. *)
Inductive Kind : Type := Text | Image | Shape.

Record Drawn : Type := mkDrawn {
  kind : Kind;
  geometry : Geometry
}.

(** [d.get(key, default)] *)
Definition get (d : Kwargs) (key : string) (dflt : PyVal) : PyVal :=
  default dflt (d !! key).

(** The text a value is compared with; a value that is no text equals none. *)
Definition text_of (v : PyVal) : option string :=
  match v with VStr s => Some s | _ => None end.

(** [cols] and [rows] for [num_objects] objects. *)
Definition layout_dimensions (layout : string) (num_objects : Z)
  : Result (Z * Z) :=
  if String.eqb layout "horizontal" then Ok (num_objects, 1)
  else if String.eqb layout "vertical" then Ok (1, num_objects)
  else
    r ← math_sqrt num_objects;
    cols ← math_ceil r;
    q ← truediv_int num_objects cols;
    rows ← math_ceil q;
    Ok (cols, rows).

(** [container + (index * cell) + (cell * padding / 2)] *)
Definition object_origin (container cell padding : float) (index : Z)
  : Result float :=
  offset ← mul_int_float index cell;
  half ← truediv_float_int (cell * padding) 2;
  Ok ((container + offset) + half).

(** The [if]/[elif] chain on [obj_type]: the value [obj] is bound to after
    it, [obj] being [previous] before it. Of the keywords read for a text
    only [align] reaches the geometry; an [align] that is no text is, like
    the empty text, different from ["center"]. *)
Definition draw (self : Slide.t) (obj_data : Kwargs)
    (obj_x obj_y obj_width obj_height : float) (previous : option Drawn)
  : Result Drawn :=
  let obj_type := text_of (get obj_data "type" (VStr "text")) in
  if bool_decide (obj_type = Some "text") then
    let align := get obj_data "align" (VStr "center") in
    g ← add_text self (PosFloat obj_x) (PosFloat obj_y)
          (PosFloat obj_width) (PosFloat obj_height)
          (default "" (text_of align)) None;
    Ok (mkDrawn Text g)
  else if bool_decide (obj_type = Some "image") then
    g ← add_image self (PosFloat obj_x) (PosFloat obj_y)
          (Some (PosFloat obj_width)) (Some (PosFloat obj_height)) None;
    Ok (mkDrawn Image g)
  else if bool_decide (obj_type = Some "shape") then
    g ← add_shape self (PosFloat obj_x) (PosFloat obj_y)
          (PosFloat obj_width) (PosFloat obj_height) None;
    Ok (mkDrawn Shape g)
  else
    match previous with
    | Some obj => Ok obj
    | None => Raise UnboundLocalError
    end.

Section Loop.
Variable self : Slide.t.
Variables container_x container_y cell_width cell_height : float.
Variables obj_width obj_height padding : float.
Variable cols : Z.

(** The [for] loop over [enumerate(objects_data)], from index [i] on. *)
Fixpoint place_objects (objects_data : list Kwargs) (i : Z)
    (obj : option Drawn) (created_objects : list Drawn)
  : Result (list Drawn) :=
  match objects_data with
  | [] => Ok created_objects
  | obj_data :: rest =>
      col ← mod_int i cols;
      row ← floordiv i cols;
      obj_x ← object_origin container_x cell_width padding col;
      obj_y ← object_origin container_y cell_height padding row;
      o ← draw self obj_data obj_x obj_y obj_width obj_height obj;
      place_objects rest (i + 1) (Some o) (created_objects ++ [o])
  end.

End Loop.

(** [add_multiple_objects]: the objects created, in order. *)
Definition add_multiple_objects (self : Slide.t) (objects_data : list Kwargs)
    (layout : string) (padding_percent : float)
    (start_x start_y width height : PositionType) : Result (list Drawn) :=
  let slide_width := _slide_width self in
  let slide_height := _slide_height self in
  container_x ← _convert_position self start_x slide_width true None;
  container_y ← _convert_position self start_y slide_height true None;
  container_width ← _convert_position self width slide_width true None;
  container_height ← _convert_position self height slide_height true None;
  padding ← truediv padding_percent Float64.f100;
  let num_objects := Z.of_nat (length objects_data) in
  '(cols, rows) ← layout_dimensions layout num_objects;
  cell_width ← truediv_float_int container_width cols;
  cell_height ← truediv_float_int container_height rows;
  let obj_width := cell_width * (Float64.f1 - padding) in
  let obj_height := cell_height * (Float64.f1 - padding) in
  place_objects self container_x container_y cell_width cell_height
    obj_width obj_height padding cols objects_data 0 None [].

End SlideLayout.

(** ** table.py *)

Module Table.
Import Py PyStr Slide.
Local Open Scope float64_scope.

Record t : Type := mk {
  slide : Slide.Object
}.

(** [Table.add] up to the call of [shapes.add_table]: the numbers of rows
    and columns and the geometry handed over, in EMU. *)
Definition add {A} (self : t) (data : list (list A)) (x y : PositionType)
    (width height : option PositionType) : Result (Z * Z * Geometry) :=
  match data with
  | [] => Raise ValueError
  | first :: _ =>
      let rows := Z.of_nat (length data) in
      let cols := Z.of_nat (length first) in
      _ ← for_each (fun row : list A =>
             if negb (Z.of_nat (length row) =? cols)%Z then Raise ValueError
             else Ok tt) data;
      let slide_width := _get_slide_width (pptx_slide (slide self)) in
      let slide_height := _get_slide_height (pptx_slide (slide self)) in
      x_inches ← _convert_position (cached (slide self)) x slide_width true None;
      y_inches ← _convert_position (cached (slide self)) y slide_height true None;
      width_inches ←
        match width with
        | None => mul_int_float cols Float64.f2
        | Some v => _convert_position (cached (slide self)) v slide_width true None
        end;
      height_inches ←
        match height with
        | None => mul_int_float rows Float64.f0_5
        | Some v => _convert_position (cached (slide self)) v slide_height true None
        end;
      left ← Inches x_inches;
      top ← Inches y_inches;
      w ← Inches width_inches;
      h ← Inches height_inches;
      Ok (rows, cols, mkGeometry left top (Some w) (Some h))
  end.

End Table.

(** ** Vocabulary of the statements *)

(** The formulas of the specification's grid construction, evaluated in
    binary64 in the order the code evaluates them. *)
Module GridSpec.
Import Float64.
Local Open Scope float64_scope.

(** [100 / n] *)
Definition cell_pct (n : Z) : float := div f100 (of_Z n).

(** [p / 100] *)
Definition padding_factor (p : float) : float := div p f100.

(** [(100 / n) * (1 - p / 100)] *)
Definition effective_pct (n : Z) (p : float) : float :=
  cell_pct n * (f1 - padding_factor p).

(** [(100 / n) * (p / 100) / 2] *)
Definition half_pad_pct (n : Z) (p : float) : float :=
  div (cell_pct n * padding_factor p) (of_Z 2).

(** [i * (100 / n) + (100 / n) * (p / 100) / 2] *)
Definition origin_pct (i n : Z) (p : float) : float :=
  of_Z i * cell_pct n + half_pad_pct n p.

(** The cell [_create_cells] builds at [(row, col)]. *)
Definition fresh_cell {Content} (rows cols : Z) (p : float) (row col : Z)
  : GridCell.t Content :=
  GridCell.init row col
    (Py.format_pct (origin_pct col cols p))
    (Py.format_pct (origin_pct row rows p))
    (Py.format_pct (effective_pct cols p))
    (Py.format_pct (effective_pct rows p)).

(** [r] is a binary64 number less than one unit in the last place away
    from the square root of [n]: with [r = m * 2 ^ e],
    [(m - 1) * 2 ^ e < sqrt n < (m + 1) * 2 ^ e]. *)
Definition near_sqrt (n : Z) (r : float) : Prop :=
  match r with
  | S754_finite false m e =>
      bounded prec emax m e = true /\
      (Zpos m - 1) ^ 2 * 4 ^ Z.max 0 e < n * 4 ^ Z.max 0 (- e)
        < (Zpos m + 1) ^ 2 * 4 ^ Z.max 0 e
  | _ => False
  end.

(** The width (or height) [merge_cells] gives to the first cell when it
    merges the cells [first] to [last] of a freshly built row (or column)
    of [n] cells: the texts are read back, then
    [(last_x + last_width) - first_x]. *)
Definition merged_extent (n : Z) (p : float) (first last : Z) : float :=
  (Py.reread_2f (origin_pct last n p) + Py.reread_2f (effective_pct n p))
  - Py.reread_2f (origin_pct first n p).

End GridSpec.

Module Layout.
Section WithContent.
Context {Parent Content World : Type}.

Abbreviation Cell := (GridCell.t Content).
Abbreviation Grid := (Grid.t Parent Content).

(** The cell stored at row [r], column [c] of a table, when there is one. *)
Definition lookup2 (cs : list (list Cell)) (r c : Z) : option Cell :=
  row ← cs !! Z.to_nat r; row !! Z.to_nat c.

Definition with_content (o : option Content) (c : Cell) : Cell :=
  match o with
  | Some v => GridCell.set_content v c
  | None => c
  end.

(** The content functions called one after the other: what they return,
    and the state they leave. *)
Fixpoint run_thunks (fs : list (Grid.Thunk Content World)) (w : World)
  : list Content * World :=
  match fs with
  | [] => ([], w)
  | f :: rest =>
      let '(v, w) := f w in
      let '(vs, w) := run_thunks rest w in
      (v :: vs, w)
  end.

(** The hundredths a stored percentage denotes: its text read exactly. *)
Definition hundredths_of (text : string) : option Z :=
  '(m, dexp) ← Py.floatnumber (PyStr.strip_percent text);
  if (dexp =? -2)%Z then Some m else None.

(** The widths stored in the cells of a row, added up, in hundredths. *)
Definition row_width_hundredths (row : list Cell) : option Z :=
  foldr (fun c acc =>
           h ← hundredths_of (GridCell.width c); a ← acc; Some (h + a))
        (Some 0) row.

(** The four texts of a cell are percentages that [float] reads. *)
Definition cell_readable (c : Cell) : Prop :=
  is_ok (Grid.percent_of (GridCell.x c)) = true /\
  is_ok (Grid.percent_of (GridCell.y c)) = true /\
  is_ok (Grid.percent_of (GridCell.width c)) = true /\
  is_ok (Grid.percent_of (GridCell.height c)) = true.

(** The grid's own position and size are values [add_to_cell] can use. *)
Definition geometry_readable (x y width height : PositionType) : Prop :=
  is_ok (Grid.origin_percent x Float64.f10) = true /\
  is_ok (Grid.origin_percent y Float64.f13_333) = true /\
  is_ok (Grid.size_percent width) = true /\
  is_ok (Grid.size_percent height) = true.

(** A table of [rows] by [cols] cells as [_create_cells] leaves it. *)
Definition fresh_table (cs : list (list Cell)) (rows cols : Z) (p : float) : Prop :=
  forall r c, 0 <= r < rows -> 0 <= c < cols ->
    lookup2 cs r c = Some (GridSpec.fresh_cell rows cols p r c).

(** The table of [g] is [cs0] with the contents [vs] stored row by row. *)
Definition placed (g : Grid) (cs0 : list (list Cell)) (vs : list Content) : Prop :=
  forall r c, 0 <= r < Grid.rows g -> 0 <= c < Grid.cols g ->
    lookup2 (Grid.cells g) r c =
    with_content (vs !! Z.to_nat (r * Grid.cols g + c)) <$> lookup2 cs0 r c.

(** The drawing call a figure of [autogrid_pyplot] comes down to, with
    [parent.add_image] as [add_image]. *)
Definition draw_figure
    (add_image : Parent -> string -> PyVal -> PyVal -> PyVal -> PyVal ->
                 World -> Content * World)
    (parent : Parent) (path : string) : Grid.Thunk Content World :=
  add_image parent path (VStr "10%") (VStr "10%") (VStr "80%") (VStr "80%").

End WithContent.
End Layout.

(** The layout of [add_multiple_objects], item by item. *)
Module SlideLayoutSpec.
Import Float64 SlideLayout.
Local Open Scope float64_scope.

(** The kind of object [obj_data] asks for, when it is one the loop knows. *)
Definition kind_of (obj_data : Kwargs) : option Kind :=
  let obj_type := text_of (get obj_data "type" (VStr "text")) in
  if bool_decide (obj_type = Some "text") then Some Text
  else if bool_decide (obj_type = Some "image") then Some Image
  else if bool_decide (obj_type = Some "shape") then Some Shape
  else None.

(** [container + index * cell + cell * padding / 2] in binary64. *)
Definition cell_origin (container cell padding : float) (index : Z) : float :=
  (container + of_Z index * cell) + div (cell * padding) f2.

(** A position and a size in inches, brought to EMU. *)
Definition emu_geometry (x y width height : float) : Result Slide.Geometry :=
  left ← Slide.Inches x;
  top ← Slide.Inches y;
  w ← Slide.Inches width;
  h ← Slide.Inches height;
  Ok (Slide.mkGeometry left top (Some w) (Some h)).

(** The object drawn for the item of index [i] in a layout of [cols]
    columns whose cells are [cell_width] by [cell_height], when its
    position and size can be brought to EMU. *)
Definition object_at (cx cy cell_width cell_height padding : float) (cols : Z)
    (k : Kind) (i : Z) : Result Drawn :=
  g ← emu_geometry
        (cell_origin cx cell_width padding (i mod cols))
        (cell_origin cy cell_height padding (i / cols))
        (cell_width * (f1 - padding))
        (cell_height * (f1 - padding));
  Ok (mkDrawn k g).

End SlideLayoutSpec.

(** Concrete inputs of the scenarios. *)
Module Scenario.

(** [Grid(parent, rows=rows, cols=cols, padding=p)]: a grid over the whole
    container, with the default position, size and alignment. *)
Definition grid (rows cols : Z) (p : float) : Result (Grid.t unit unit) :=
  Grid.init tt (PosStr "0%") (PosStr "0%") (PosStr "100%") (PosStr "100%")
    rows cols p (Some "center").

(** A content function that returns [n] and records that it ran. *)
Definition thunk (n : nat) : Grid.Thunk nat (list nat) :=
  fun w => (n, (w ++ [n])%list).

(** A parent whose [add_text] draws nothing. *)
Definition add_nothing :
  unit -> string -> PositionType -> PositionType -> PositionType ->
  PositionType -> option string -> list nat -> Result (nat * list nat) :=
  fun _ _ _ _ _ _ _ w => Ok (0%nat, w).

(** What a cell holds in the scenarios with nested grids: a drawing, or the
    nested grid itself. *)
#[warnings="-register-all"] Inductive Held : Type :=
| Drawing (n : nat)
| Nested (g : Grid.t unit Held).

(** A content function that draws [n] whatever the keywords are, and
    records the text it is given for [x]. *)
Definition draw_at (n : nat) : Grid.ContentFunc Held (list (option PyVal)) :=
  fun kwargs w => (Drawing n, (w ++ [kwargs !! "x"])%list).

(** A parent whose [add_image] records the path and the four position
    arguments of each call. *)
Definition add_image_log :
  unit -> string -> PyVal -> PyVal -> PyVal -> PyVal ->
  list (string * list PyVal) -> nat * list (string * list PyVal) :=
  fun _ path x y width height w =>
    (length w, (w ++ [(path, [x; y; width; height])])%list).

(** The [add_text] of that parent: it draws nothing. *)
Definition add_text_silent :
  unit -> string -> PositionType -> PositionType -> PositionType ->
  PositionType -> option string -> list (string * list PyVal) ->
  Result (nat * list (string * list PyVal)) :=
  fun _ _ _ _ _ _ _ w => Ok (0%nat, w).

(** A parent whose [add_text] records that the title was drawn. *)
Definition add_title_log :
  unit -> string -> PositionType -> PositionType -> PositionType ->
  PositionType -> option string -> list nat -> Result (nat * list nat) :=
  fun _ _ _ _ _ _ _ w => Ok (0%nat, (w ++ [0%nat])%list).

(** A C library whose [pow(x, 0.5)] is the correctly rounded square
    root; the code asks for no other power. *)
Definition sqrt_pow : float -> float -> float :=
  fun x _ => Float64.sqrt x.

(** A slide of 16:9, 13.333 by 7.5 inches, and the slide of 4:3 that
    python-pptx creates by default. *)
Definition widescreen : Slide.t := Slide.mk 12192000 6858000.
Definition standard : Slide.t := Slide.mk 9144000 6858000.

(** A python-pptx object that exposes no dimension at all. *)
Definition bare_slide : Slide.PPTXSlide := Slide.mkPPTXSlide None None None.

End Scenario.

(** * Properties *)

(** ** Binary64 facts: rounding never yields NaN, comparisons are total *)

Section Binary64Facts.
Import Float64.

Lemma iter_pos_invariant {A} (P : A -> Prop) (f : A -> A) :
  (forall a, P a -> P (f a)) ->
  forall p a, P a -> P (SpecFloat.iter_pos f p a).
Proof.
  intros Hf. induction p as [p IH|p IH|]; intros a Ha; simpl; auto.
Qed.

Lemma shr_1_nonneg mrs : 0 <= shr_m mrs -> 0 <= shr_m (shr_1 mrs).
Proof.
  destruct mrs as [m r s]. simpl.
  destruct m as [|[p|p|]|[p|p|]]; simpl; lia.
Qed.

Lemma shr_record_of_loc_m m l : shr_m (shr_record_of_loc m l) = m.
Proof. destruct l as [|[]]; reflexivity. Qed.

Lemma shr_fexp_nonneg m e l :
  0 <= m -> 0 <= shr_m (fst (shr_fexp prec emax m e l)).
Proof.
  intros Hm. unfold shr_fexp, shr.
  destruct (fexp prec emax (Zdigits2 m + e) - e) as [|n|n]; simpl;
    rewrite ?shr_record_of_loc_m; auto.
  apply (iter_pos_invariant (fun r => 0 <= shr_m r)).
  - apply shr_1_nonneg.
  - now rewrite shr_record_of_loc_m.
Qed.

Lemma round_nearest_even_nonneg m l : 0 <= m -> 0 <= round_nearest_even m l.
Proof.
  intros Hm. destruct l as [|[]]; simpl; try lia.
  destruct (Z.even m); lia.
Qed.

Lemma binary_round_aux_not_nan s m e l :
  0 <= m -> binary_round_aux prec emax s m e l <> S754_nan.
Proof.
  intros Hm. unfold binary_round_aux.
  pose proof (shr_fexp_nonneg m e l Hm) as H1.
  destruct (shr_fexp prec emax m e l) as [mrs' e']. simpl in H1.
  pose proof (shr_fexp_nonneg _ e' loc_Exact
                (round_nearest_even_nonneg _ (loc_of_shr_record mrs') H1)) as H2.
  destruct (shr_fexp prec emax _ e' loc_Exact) as [mrs'' e'']. simpl in H2.
  destruct (shr_m mrs'') as [|p|p]; try discriminate; try lia.
  destruct (e'' <=? emax - prec)%Z; discriminate.
Qed.

Lemma binary_normalize_not_nan m e :
  binary_normalize prec emax m e false <> S754_nan.
Proof.
  destruct m as [|p|p]; simpl; try discriminate;
    unfold binary_round;
    destruct (shl_align _ _ _) as [mz ez];
    apply binary_round_aux_not_nan; lia.
Qed.

Lemma of_ratio_not_nan s n d : 0 <= n -> 0 < d -> of_ratio s n d <> S754_nan.
Proof.
  intros Hn Hd. unfold of_ratio, SFdiv_core_binary.
  set (m' := match _ with Z0 => n | Zpos _ => Z.shiftl n _ | Zneg _ => 0 end).
  assert (0 <= m') as Hm'.
  { subst m'. destruct (_ - _ - _) as [|p|p]; try lia.
    apply Z.shiftl_nonneg; lia. }
  pose proof (Z_div_mod m' d ltac:(lia)) as Hdm.
  destruct (Z.div_eucl m' d) as [q r].
  apply binary_round_aux_not_nan.
  destruct Hdm as [Heq Hr]. nia.
Qed.

(** Subtracting a finite number from a finite number or a zero gives a
    number. *)
Lemma sub_finite_not_nan x sy my ey :
  is_finite x = true -> sub x (S754_finite sy my ey) <> S754_nan.
Proof.
  destruct x as [sx|sx| |sx mx ex]; try discriminate; intros _;
    unfold sub; simpl; try discriminate.
  apply binary_normalize_not_nan.
Qed.

Lemma abs_not_nan x : x <> S754_nan -> abs x <> S754_nan.
Proof. destruct x; simpl; congruence. Qed.

(** On numbers, [x > y] is the negation of [x <= y]. *)
Lemma gtb_negb_leb x y :
  x <> S754_nan -> y <> S754_nan -> gtb x y = negb (leb x y).
Proof.
  unfold gtb, leb, SFltb, SFleb.
  destruct x as [sx|sx| |sx mx ex], y as [sy|sy| |sy my ey];
    try congruence; intros _ _; simpl;
    try (destruct sx; reflexivity); try (destruct sy; reflexivity);
    try (destruct sx, sy; reflexivity).
  destruct sx, sy; try reflexivity;
    rewrite (Z.compare_antisym ey ex);
    destruct (ey ?= ex)%Z; simpl; try reflexivity;
    change (Pos.compare_cont Eq my mx) with (Pos.compare_cont (CompOpp Eq) my mx);
    rewrite <- (Pos.compare_cont_antisym mx my Eq);
    destruct (Pos.compare_cont Eq mx my); reflexivity.
Qed.

End Binary64Facts.

(** ** The position resolver *)

Section Resolver.
Import Py PyStr Slide Float64.
Local Open Scope float64_scope.

Lemma float_of_int_100 : float_of_int 100 = Ok f100.
Proof. reflexivity. Qed.

Lemma truediv_float_int_100 x : truediv_float_int x 100 = Ok (div x f100).
Proof. reflexivity. Qed.

Lemma standard_position_eq percent slide_dimension :
  standard_position percent slide_dimension =
  d ← truediv_int slide_dimension 914400; Ok (div percent f100 * d).
Proof. reflexivity. Qed.

Lemma truediv_int_finite a b r :
  truediv_int a b = Ok r -> is_finite r = true.
Proof.
  unfold truediv_int. destruct (b =? 0)%Z eqn:Hb; try discriminate.
  apply Z.eqb_neq in Hb.
  pose proof (of_ratio_not_nan (xorb (a <? 0)%Z (b <? 0)%Z) (Z.abs a) (Z.abs b)
                ltac:(lia) ltac:(lia)) as Hn.
  destruct (of_ratio _ _ _) as [s|s| |s m e]; try discriminate; try congruence;
    intros [= <-]; reflexivity.
Qed.

Lemma truediv_int_16_9 : truediv_int 16 9 = Ok ratio_16_9.
Proof. reflexivity. Qed.

(** The [try] block, once the ambient ratio is known. *)
Lemma adjust_for_ratio_eq self position_inches ratio :
  truediv_int (_slide_width self) (_slide_height self) = Ok ratio ->
  adjust_for_ratio self position_inches =
  Ok (if leb (abs (ratio - ratio_16_9)) f0_01 then position_inches
      else position_inches * (f1 + (div ratio ratio_16_9 - f1) * f0_5)).
Proof.
  intros Hr. unfold adjust_for_ratio. rewrite Hr. cbn [mbind Result_bind].
  rewrite truediv_int_16_9. cbn [mbind Result_bind].
  rewrite gtb_negb_leb.
  - destruct (leb _ _); reflexivity.
  - apply abs_not_nan. apply sub_finite_not_nan.
    eapply truediv_int_finite; eassumption.
  - discriminate.
Qed.

(** Whatever the ambient dimensions, the [try] block either returns or
    the handler runs: the centred conversion raises only where the
    standard one does. *)
Lemma centred_ok_iff_standard self percent slide_dimension :
  is_ok (position_inches ← standard_position percent slide_dimension;
         try_except (adjust_for_ratio self position_inches)
                    (standard_position percent slide_dimension)) =
  is_ok (standard_position percent slide_dimension).
Proof.
  destruct (standard_position percent slide_dimension) as [b|e] eqn:Hb;
    cbn [mbind Result_bind]; [|reflexivity].
  destruct (adjust_for_ratio self b); reflexivity.
Qed.

End Resolver.

Section ResolverProperties.
Import Py PyStr Slide Float64.
Local Open Scope float64_scope.

(** C1, as amended. A percentage text resolved without centring (any
    alignment on the vertical axis, any alignment other than ["center"] on
    the horizontal one) gives exactly
    [(percent / 100) * (slide_dimension / 914400)] in binary64: the
    reference size is in EMU and the result in inches. It raises only when
    [slide_dimension / 914400] does. *)
Theorem C1_percent_in_inches (self : Slide.t) (text : string) (percent : float)
    (slide_dimension : Z) (is_width : bool) (h_align : option string) :
  endswith_percent text = true ->
  float_of_str (strip_percent text) = Ok percent ->
  is_center h_align && is_width = false ->
  _convert_position self (PosStr text) slide_dimension is_width h_align =
  d ← truediv_int slide_dimension 914400; Ok (div percent f100 * d).
Proof.
  intros Hend Hparse Hmode. unfold _convert_position.
  rewrite Hend, Hparse. cbn [mbind Result_bind]. rewrite Hmode.
  apply standard_position_eq.
Qed.

Lemma C1_percent_in_inches_witness :
  endswith_percent "50%" = true /\
  float_of_str (strip_percent "50%") = Ok (of_Z 50) /\
  is_center None && false = false /\
  _convert_position (Slide.mk 9144000 6858000) (PosStr "50%") 6858000 false None =
  d ← truediv_int 6858000 914400; Ok (div (of_Z 50) f100 * d).
Proof.
  split; [reflexivity|]. split; [reflexivity|]. split; [reflexivity|].
  apply (C1_percent_in_inches (Slide.mk 9144000 6858000) "50%" (of_Z 50)
           6858000 false None); reflexivity.
Defined.

(** C1 as stated fails: for ["50%"] of a reference size of 9144000 the
    resolver returns 5.0, and [50 / 100 * 9144000] is 4572000.0. *)
Lemma C1_counterexample :
  _convert_position (Slide.mk 9144000 6858000) (PosStr "50%") 9144000 true None
    = Ok (of_Z 5) /\
  div (of_Z 50) f100 * of_Z 9144000 = of_Z 4572000 /\
  of_Z 5 <> of_Z 4572000.
Proof.
  split; [reflexivity|]. split; [reflexivity|]. discriminate.
Qed.

(** C2. A percentage text resolved with alignment ["center"] on the
    horizontal axis, on a slide whose ratio [width / height] is defined:
    when [|ratio - 16/9| <= 0.01] the result is the uncorrected base (what
    the resolver returns without an alignment), otherwise it is
    [base * (1 + (ratio / (16/9) - 1) * 0.5)]. *)
Theorem C2_center_correction (self : Slide.t) (text : string) (percent : float)
    (slide_dimension : Z) (base ratio : float) :
  endswith_percent text = true ->
  float_of_str (strip_percent text) = Ok percent ->
  _convert_position self (PosStr text) slide_dimension true None = Ok base ->
  truediv_int (_slide_width self) (_slide_height self) = Ok ratio ->
  _convert_position self (PosStr text) slide_dimension true (Some "center") =
  Ok (if leb (abs (ratio - ratio_16_9)) f0_01 then base
      else base * (f1 + (div ratio ratio_16_9 - f1) * f0_5)).
Proof.
  intros Hend Hparse Hbase Hratio. unfold _convert_position in *.
  rewrite Hend, Hparse in *. cbn [mbind Result_bind] in *.
  cbn [is_center andb] in Hbase.
  change (is_center (Some "center") && true) with true. cbv iota.
  rewrite Hbase. cbn [mbind Result_bind].
  rewrite (adjust_for_ratio_eq self base ratio Hratio). reflexivity.
Qed.

Lemma C2_center_correction_witness :
  (endswith_percent "50%" = true /\
   float_of_str (strip_percent "50%") = Ok (of_Z 50)) /\
  (_convert_position (Slide.mk 9144000 5143500) (PosStr "50%") 9144000 true None
     = Ok (of_Z 5) /\
   truediv_int 9144000 5143500 = Ok ratio_16_9) /\
  _convert_position (Slide.mk 9144000 5143500) (PosStr "50%") 9144000 true
    (Some "center") =
  Ok (if leb (abs (ratio_16_9 - ratio_16_9)) f0_01 then of_Z 5
      else of_Z 5 * (f1 + (div ratio_16_9 ratio_16_9 - f1) * f0_5)).
Proof.
  split; [split; reflexivity|]. split; [split; reflexivity|].
  apply (C2_center_correction (Slide.mk 9144000 5143500) "50%" (of_Z 50)
           9144000 (of_Z 5) ratio_16_9); reflexivity.
Defined.

(** C7, as amended. With the slide height zero or negative the centred
    horizontal conversion raises only where the uncorrected one does; with
    height zero it is the uncorrected result; with a negative height the
    ratio is defined and the correction of C2 is applied to it. *)
Theorem C7_degenerate_height (self : Slide.t) (text : string) (percent : float)
    (slide_dimension : Z) :
  endswith_percent text = true ->
  float_of_str (strip_percent text) = Ok percent ->
  (_slide_height self <= 0)%Z ->
  is_ok (_convert_position self (PosStr text) slide_dimension true (Some "center"))
    = is_ok (_convert_position self (PosStr text) slide_dimension true None)
  /\ (_slide_height self = 0 ->
      _convert_position self (PosStr text) slide_dimension true (Some "center")
      = _convert_position self (PosStr text) slide_dimension true None)
  /\ (forall base ratio,
      _convert_position self (PosStr text) slide_dimension true None = Ok base ->
      truediv_int (_slide_width self) (_slide_height self) = Ok ratio ->
      _convert_position self (PosStr text) slide_dimension true (Some "center") =
      Ok (if leb (abs (ratio - ratio_16_9)) f0_01 then base
          else base * (f1 + (div ratio ratio_16_9 - f1) * f0_5))).
Proof.
  intros Hend Hparse Hh. unfold _convert_position.
  rewrite Hend, Hparse. cbn [mbind Result_bind].
  change (is_center (Some "center") && true) with true.
  change (is_center None && true) with false. cbv iota.
  split; [apply centred_ok_iff_standard|]. split.
  - intros H0.
    destruct (standard_position percent slide_dimension) as [b|e] eqn:Hb;
      cbn [mbind Result_bind]; [|reflexivity].
    unfold adjust_for_ratio, truediv_int. rewrite H0. reflexivity.
  - intros base ratio Hbase Hratio. rewrite Hbase. cbn [mbind Result_bind].
    rewrite (adjust_for_ratio_eq self base ratio Hratio). reflexivity.
Qed.

Lemma C7_degenerate_height_witness :
  (endswith_percent "50%" = true /\
   float_of_str (strip_percent "50%") = Ok (of_Z 50) /\
   (_slide_height (Slide.mk 9144000 0) <= 0)%Z) /\
  _convert_position (Slide.mk 9144000 0) (PosStr "50%") 9144000 true (Some "center")
  = _convert_position (Slide.mk 9144000 0) (PosStr "50%") 9144000 true None.
Proof.
  split; [repeat split; (reflexivity || discriminate)|].
  apply (C7_degenerate_height (Slide.mk 9144000 0) "50%" (of_Z 50) 9144000);
    reflexivity || discriminate.
Defined.

(** C7 as stated fails for a negative height: on a slide 9144000 wide and
    -6858000 high, ["50%"] of 9144000 centred is 0.625, not the uncorrected
    5.0; nothing is raised. *)
Lemma C7_counterexample :
  _convert_position (Slide.mk 9144000 (-6858000)) (PosStr "50%") 9144000 true
    (Some "center") = Ok (of_decimal false 625 (-3)) /\
  _convert_position (Slide.mk 9144000 (-6858000)) (PosStr "50%") 9144000 true None
    = Ok (of_Z 5) /\
  of_decimal false 625 (-3) <> of_Z 5.
Proof.
  split; [reflexivity|]. split; [reflexivity|]. discriminate.
Qed.

(** C9. [add_image] with [h_align] unset and [x = "25.5%"] raises
    [ValueError] from [int("25.5")] in the default-alignment test, before
    any position is converted, whatever the slide and the other arguments;
    [add_text] accepts the same [x]. *)
Theorem C9_add_image_fractional_percent :
  (forall (self : Slide.t) (y : PositionType) (width height : option PositionType),
      add_image self (PosStr "25.5%") y width height None = Raise ValueError) /\
  image_h_align (PosStr "25.5%") None = Raise ValueError /\
  int_of_str (strip_percent "25.5%") = Raise ValueError /\
  float_of_str (strip_percent "25.5%") = Ok (of_decimal false 255 (-1)) /\
  is_ok (add_text (Slide.mk 9144000 6858000) (PosStr "25.5%") (PosStr "5%")
           (PosFloat (of_Z 8)) (PosFloat (of_Z 1)) "left" None) = true.
Proof.
  repeat split; reflexivity.
Qed.

End ResolverProperties.

(** ** Binary64 facts: integers below [2 ^ 53] are represented exactly *)

Section Binary64Integers.
Import Float64.

Lemma digits_bounds p :
  2 ^ (Zpos (digits2_pos p) - 1) <= Zpos p < 2 ^ Zpos (digits2_pos p).
Proof.
  induction p as [p IH|p IH|]; simpl digits2_pos.
  - rewrite Pos2Z.inj_succ.
    replace (Z.succ (Zpos (digits2_pos p)) - 1) with (Z.succ (Zpos (digits2_pos p) - 1)) by lia.
    rewrite !Z.pow_succ_r by lia. lia.
  - rewrite Pos2Z.inj_succ.
    replace (Z.succ (Zpos (digits2_pos p)) - 1) with (Z.succ (Zpos (digits2_pos p) - 1)) by lia.
    rewrite !Z.pow_succ_r by lia. lia.
  - simpl. lia.
Qed.

Lemma digits_unique p k :
  2 ^ (k - 1) <= Zpos p < 2 ^ k -> Zpos (digits2_pos p) = k.
Proof.
  intros [Hlo Hhi].
  pose proof (digits_bounds p) as [Dlo Dhi].
  set (d := Zpos (digits2_pos p)) in *.
  assert (0 < k) as Hk.
  { destruct (Z_lt_le_dec 0 k) as [|Hk0]; [assumption|].
    exfalso. destruct (Z.eq_dec k 0) as [->|]; [simpl in Hhi; lia|].
    rewrite (Z.pow_neg_r 2 k) in Hhi by lia. lia. }
  destruct (Z_lt_le_dec d k) as [Hlt|Hge].
  - assert (2 ^ d <= 2 ^ (k - 1)) by (apply Z.pow_le_mono_r; lia). lia.
  - destruct (Z_lt_le_dec k d) as [Hlt|Hle]; [|lia].
    assert (2 ^ k <= 2 ^ (d - 1)) by (apply Z.pow_le_mono_r; lia). lia.
Qed.

Lemma iter_xO_pow p k : Zpos (Pos.iter xO p k) = Zpos p * 2 ^ Zpos k.
Proof.
  induction k as [|k IH] using Pos.peano_ind.
  - simpl. lia.
  - rewrite Pos.iter_succ, Pos2Z.inj_xO, IH, Pos2Z.inj_succ, Z.pow_succ_r by lia.
    lia.
Qed.

Lemma loc_of_shr_record_of_loc m l :
  loc_of_shr_record (shr_record_of_loc m l) = l.
Proof. destruct l as [|[]]; reflexivity. Qed.

(** A mantissa of exactly 53 bits is only rounded, not shifted. *)
Lemma binary_round_aux_canonical s m e l m' :
  Zpos (digits2_pos m) = 53 ->
  -1074 <= e <= 971 ->
  round_nearest_even (Zpos m) l = Zpos m' ->
  Zpos (digits2_pos m') = 53 ->
  binary_round_aux prec emax s (Zpos m) e l = S754_finite s m' e.
Proof.
  intros Hd He Hr Hd'.
  unfold binary_round_aux, shr_fexp, Zdigits2.
  rewrite Hd.
  assert (fexp prec emax (53 + e) - e = 0) as ->.
  { unfold fexp, SpecFloat.emin, prec, emax. lia. }
  cbn [shr]. rewrite shr_record_of_loc_m, loc_of_shr_record_of_loc, Hr.
  rewrite Hd'.
  assert (fexp prec emax (53 + e) - e = 0) as ->.
  { unfold fexp, SpecFloat.emin, prec, emax. lia. }
  cbn [shr shr_record_of_loc shr_m].
  assert ((e <=? emax - prec)%Z = true) as ->.
  { apply Z.leb_le. unfold prec, emax. lia. }
  reflexivity.
Qed.

(** The representation of a positive integer below [2 ^ 53]: its bits
    shifted left to fill the mantissa. *)
Lemma of_Z_small p :
  Zpos p < 2 ^ 53 ->
  exists m, of_Z (Zpos p) = S754_finite false m (Zpos (digits2_pos p) - 53) /\
            Zpos m = Zpos p * 2 ^ (53 - Zpos (digits2_pos p)) /\
            Zpos (digits2_pos m) = 53.
Proof.
  intros Hp. pose proof (digits_bounds p) as [Dlo Dhi].
  set (d := Zpos (digits2_pos p)) in *.
  assert (1 <= d <= 53) as Hd.
  { split; [subst d; lia|].
    destruct (Z_lt_le_dec 53 d) as [Hgt|]; [|lia].
    assert (2 ^ 53 <= 2 ^ (d - 1)) by (apply Z.pow_le_mono_r; lia). lia. }
  unfold of_Z, binary_normalize, binary_round.
  fold d.
  assert (fexp prec emax (d + 0) = d - 53) as ->.
  { unfold fexp, SpecFloat.emin, prec, emax. lia. }
  unfold shl_align.
  assert (exists m, (match d - 53 - 0 with
                     | Zneg k => (Pos.iter xO p k, d - 53)
                     | _ => (p, 0)
                     end) = (m, d - 53) /\
                    Zpos m = Zpos p * 2 ^ (53 - d)) as (m & -> & Hm).
  { destruct (d - 53 - 0) as [|k|k] eqn:Hk; try lia.
    - exists p. split; [f_equal; lia|].
      replace (53 - d) with 0 by lia. lia.
    - exists (Pos.iter xO p k). split; [reflexivity|].
      rewrite iter_xO_pow. f_equal. f_equal. lia. }
  assert (Zpos (digits2_pos m) = 53) as Hdm.
  { apply digits_unique. rewrite Hm. split.
    - replace (53 - 1) with ((d - 1) + (53 - d)) by lia.
      rewrite Z.pow_add_r by lia. apply Z.mul_le_mono_nonneg_r; lia.
    - replace 53 with (d + (53 - d)) at 2 by lia.
      rewrite Z.pow_add_r by lia. apply Z.mul_lt_mono_pos_r; lia. }
  exists m. split; [|split; assumption].
  apply binary_round_aux_canonical; try assumption; try reflexivity. lia.
Qed.

Lemma float_of_int_small z :
  0 <= z < 2 ^ 53 -> Py.float_of_int z = Ok (of_Z z) /\ is_finite (of_Z z) = true.
Proof.
  intros Hz. destruct z as [|p|p]; try lia.
  - split; reflexivity.
  - destruct (of_Z_small p ltac:(lia)) as (m & Hm & _).
    unfold Py.float_of_int. rewrite Hm. split; reflexivity.
Qed.

Lemma of_Z_pos_nonzero z : 0 < z < 2 ^ 53 -> is_zero (of_Z z) = false.
Proof.
  intros Hz. destruct z as [|p|p]; try lia.
  destruct (of_Z_small p ltac:(lia)) as (m & Hm & _).
  rewrite Hm. reflexivity.
Qed.

End Binary64Integers.

(** ** Binary64 facts: the square root of an integer, correctly rounded
    or within one unit in the last place *)

Section Binary64Sqrt.
Import Float64.

Lemma sqrt_scaled_bounds n T :
  0 <= n -> 0 < T ->
  Z.sqrt n * T <= Z.sqrt (n * (T * T)) < (Z.sqrt n + 1) * T.
Proof.
  intros Hn HT.
  pose proof (Z.sqrt_spec n Hn) as Hk. cbv zeta in Hk.
  pose proof (Z.sqrt_nonneg n) as Hk0.
  set (k := Z.sqrt n) in *.
  assert (0 <= n * (T * T)) as Hm by nia.
  pose proof (Z.sqrt_spec _ Hm) as Hq. cbv zeta in Hq.
  pose proof (Z.sqrt_nonneg (n * (T * T))) as Hq0.
  set (q := Z.sqrt (n * (T * T))) in *.
  split.
  - destruct (Z_lt_le_dec q (k * T)) as [Hlt|]; [|assumption]. exfalso.
    assert (Z.succ q * Z.succ q <= (k * T) * (k * T)) by nia.
    nia.
  - destruct (Z_lt_le_dec q ((k + 1) * T)) as [|Hge]; [assumption|]. exfalso.
    assert (((k + 1) * T) * ((k + 1) * T) <= q * q) by nia.
    assert (n + 1 <= (k + 1) * (k + 1)) by lia.
    nia.
Qed.

Lemma sqrt_round_up_no_carry n T q r :
  0 <= n -> 0 < T -> Z.sqrt n + 1 < T ->
  n * (T * T) = q * q + r -> q < r ->
  q < (Z.sqrt n + 1) * T ->
  q + 1 < (Z.sqrt n + 1) * T.
Proof.
  intros Hn HT HkT Hqr Hgt Hq.
  pose proof (Z.sqrt_spec n Hn) as Hk. cbv zeta in Hk.
  pose proof (Z.sqrt_nonneg n) as Hk0.
  set (k := Z.sqrt n) in *.
  destruct (Z_lt_le_dec (q + 1) ((k + 1) * T)) as [|Hge]; [assumption|]. exfalso.
  assert (q = (k + 1) * T - 1) as Hqe by lia.
  assert (n + 1 <= (k + 1) * (k + 1)) as Hn1 by lia.
  assert ((n + 1) * (T * T) <= ((k + 1) * T) * ((k + 1) * T)) as H2 by nia.
  set (K := (k + 1) * T) in *.
  assert (K * K - K < n * (T * T)) as H3.
  { rewrite Hqr. subst q. nia. }
  assert (T * T < K) by nia.
  subst K. nia.
Qed.

Lemma sqrt_of_small p :
  Zpos p < 2 ^ 52 ->
  exists m e, sqrt (of_Z (Zpos p)) = S754_finite false m e /\
              e < 0 /\ bounded prec emax m e = true /\
              (Zpos m - 1) * (Zpos m - 1) < Zpos p * (2 ^ (- e) * 2 ^ (- e))
                < (Zpos m + 1) * (Zpos m + 1).
Proof.
  intros Hp.
  destruct (of_Z_small p ltac:(lia)) as (m & -> & Hm & Hdm).
  pose proof (digits_bounds p) as [Dlo Dhi].
  set (d := Zpos (digits2_pos p)) in *.
  assert (1 <= d <= 52) as Hd.
  { split; [subst d; lia|].
    destruct (Z_lt_le_dec 52 d) as [Hgt|]; [|lia].
    assert (2 ^ 52 <= 2 ^ (d - 1)) by (apply Z.pow_le_mono_r; lia). lia. }
  set (j := (d + 1) / 2).
  assert (d <= 2 * j <= d + 1) as Hj by (subst j; Z.div_mod_to_equations; lia).
  set (t := 53 - j).
  unfold sqrt, SFsqrt, SFsqrt_core_binary, Zdigits2. rewrite Hdm.
  assert (Z.min (fexp prec emax (Z.div2 (53 + (d - 53) + 1))) (Z.div2 (d - 53)) = - t) as ->.
  { rewrite !Z.div2_div. unfold fexp, SpecFloat.emin, prec, emax.
    replace (53 + (d - 53) + 1) with (d + 1) by lia. fold j.
    Z.div_mod_to_equations. lia. }
  set (s := d - 53 - 2 * - t).
  assert (0 < s) as Hs by lia.
  assert (match s with
          | 0 => Zpos m
          | Zpos _ => Z.shiftl (Zpos m) s
          | Zneg _ => 0
          end = Zpos p * (2 ^ t * 2 ^ t)) as ->.
  { destruct s as [|s'|s'] eqn:Es; try lia.
    rewrite Z.shiftl_mul_pow2 by lia. rewrite Hm.
    rewrite <- Z.mul_assoc, <- !Z.pow_add_r by lia. f_equal. f_equal. lia. }
  set (T := 2 ^ t).
  assert (0 < T) as HT by (apply Z.pow_pos_nonneg; lia).
  pose proof (Z.sqrtrem_spec (Zpos p * (T * T)) ltac:(nia)) as Hspec.
  pose proof (Z.sqrtrem_sqrt (Zpos p * (T * T))) as Hfst.
  destruct (Z.sqrtrem (Zpos p * (T * T))) as [q r]. simpl in Hfst.
  destruct Hspec as [Hqr Hr].
  pose proof (sqrt_scaled_bounds (Zpos p) T ltac:(lia) HT) as [Hlo Hhi].
  rewrite <- Hfst in Hlo, Hhi.
  set (k := Z.sqrt (Zpos p)) in *.
  assert (1 <= k) as Hk1.
  { subst k. apply Z.sqrt_le_square; lia. }
  assert (k + 1 <= 2 ^ j) as Hkj.
  { assert (k < 2 ^ j); [|lia]. subst k. apply Z.sqrt_lt_square; try lia.
    rewrite <- Z.pow_add_r by lia.
    assert (2 ^ d <= 2 ^ (j + j)) by (apply Z.pow_le_mono_r; lia). lia. }
  assert (2 ^ j * T = 2 ^ 53) as HjT.
  { subst T. rewrite <- Z.pow_add_r by lia. f_equal. lia. }
  assert (2 ^ j < T) as HjltT.
  { subst T. apply Z.pow_lt_mono_r; lia. }
  assert (2 ^ 52 <= k * T) as Hlo'.
  { assert (2 ^ (j - 1) <= k) as Hkl.
    { subst k. apply Z.sqrt_le_square; try lia.
      rewrite <- Z.pow_add_r by lia.
      assert (2 ^ (j - 1 + (j - 1)) <= 2 ^ (d - 1)) by (apply Z.pow_le_mono_r; lia). lia. }
    replace (2 ^ 52) with (2 ^ (j - 1) * T).
    - apply Z.mul_le_mono_nonneg_r; lia.
    - subst T. rewrite <- Z.pow_add_r by lia. f_equal. lia. }
  assert (2 ^ 52 <= q) as Hq52 by lia.
  assert ((k + 1) * T <= 2 ^ 53) as HkT.
  { rewrite <- HjT. apply Z.mul_le_mono_nonneg_r; lia. }
  set (l := if (r =? 0)%Z then loc_Exact
            else loc_Inexact (if (r <=? q)%Z then Lt else Gt)).
  assert (exists m', round_nearest_even q l = Zpos m' /\
                     k * T <= Zpos m' < (k + 1) * T /\
                     (Zpos m' - 1) * (Zpos m' - 1) < Zpos p * (T * T)
                       < (Zpos m' + 1) * (Zpos m' + 1))
    as (m' & Hm' & Hbm' & Hnear).
  { subst l. destruct (r =? 0)%Z eqn:Er; [|destruct (r <=? q)%Z eqn:Erq]; simpl.
    - exists (Z.to_pos q). rewrite Z2Pos.id by lia. split; [reflexivity|].
      split; [lia|]. rewrite Hqr. nia.
    - exists (Z.to_pos q). rewrite Z2Pos.id by lia. split; [reflexivity|].
      split; [lia|]. apply Z.leb_le in Erq. rewrite Hqr. nia.
    - apply Z.leb_gt in Erq.
      exists (Z.to_pos (q + 1)). rewrite Z2Pos.id by lia. split; [reflexivity|].
      split; [|rewrite Hqr; nia].
      split; [lia|].
      subst k. apply (sqrt_round_up_no_carry (Zpos p) T q r); try lia. }
  destruct q as [|qp|qp]; try lia.
  assert (Zpos (digits2_pos m') = 53) as Hdm'.
  { apply digits_unique. change (53 - 1) with 52.
    split; [eapply Z.le_trans; [|apply Hbm']
           | eapply Z.lt_le_trans; [apply Hbm'|exact HkT]].
    exact Hlo'. }
  exists m', (- t). split; [|split; [|split]].
  - apply binary_round_aux_canonical; try assumption; try lia.
    + apply digits_unique. change (53 - 1) with 52.
      split; [exact Hq52 | eapply Z.lt_le_trans; eassumption].
  - lia.
  - unfold bounded, canonical_mantissa, fexp, SpecFloat.emin, prec, emax.
    rewrite Hdm'. apply andb_true_intro. split; [apply Z.eqb_eq|apply Z.leb_le]; lia.
  - rewrite Z.opp_involutive. fold T. exact Hnear.
Qed.

(** The correctly rounded square root of [n] is within one unit in the
    last place of the square root. *)
Lemma sqrt_near_sqrt n :
  1 <= n < 2 ^ 52 -> GridSpec.near_sqrt n (sqrt (of_Z n)).
Proof.
  intros Hn. destruct n as [|p|p]; try lia.
  destruct (sqrt_of_small p ltac:(lia)) as (m & e & -> & He & Hb & Hnear).
  unfold GridSpec.near_sqrt. split; [exact Hb|].
  rewrite (Z.max_l 0 e), (Z.max_r 0 (- e)) by lia.
  change (4 ^ 0) with 1. rewrite !Z.mul_1_r, !Z.pow_2_r.
  replace (4 ^ (- e)) with (2 ^ (- e) * 2 ^ (- e)); [exact Hnear|].
  change 4 with (2 ^ 2). rewrite <- Z.pow_mul_r, <- Z.pow_add_r by lia.
  f_equal. lia.
Qed.


(** For 2921 the correctly rounded square root is
    [7606337204991739 * 2 ^ -47]. The binary64 number just below it, which
    is [2921 ** 0.5] where [pow] is one unit in the last place low, is
    within that unit of the square root as well. *)
Lemma near_sqrt_2921 :
  sqrt (of_Z 2921) = S754_finite false 7606337204991739 (-47) /\
  GridSpec.near_sqrt 2921 (S754_finite false 7606337204991738 (-47)).
Proof.
  split; [vm_compute; reflexivity|]. split; [reflexivity|split; reflexivity].
Qed.

(** A binary64 number within one unit in the last place of the square
    root of [n], [1 <= n < 2 ^ 51], truncates to the integer square root. *)
Lemma near_sqrt_trunc n r :
  1 <= n < 2 ^ 51 -> GridSpec.near_sqrt n r ->
  Py.int_of_float r = Ok (Z.sqrt n).
Proof.
  intros Hn Hr. destruct r as [| | |[] m e]; try contradiction.
  destruct Hr as (Hb & Hlo & Hhi). rewrite !Z.pow_2_r in Hlo, Hhi.
  unfold bounded in Hb. apply andb_prop in Hb as [Hcan _].
  unfold canonical_mantissa in Hcan. apply Z.eqb_eq in Hcan.
  unfold fexp, SpecFloat.emin, prec, emax in Hcan.
  unfold Py.int_of_float, trunc, cond_Zopp.
  pose proof (digits_bounds m) as [Dlo Dhi].
  set (d := Zpos (digits2_pos m)) in *.
  set (M := Zpos m) in *.
  assert (1 <= d) as Hd1 by (subst d; lia).
  assert (1 <= M) as HM1 by (subst M; lia).
  clearbody d M.
  assert (e < 0) as He.
  { destruct (Z_lt_le_dec e 0) as [|Hge]; [assumption|exfalso].
    rewrite (Z.max_r 0 e) in Hlo by lia. rewrite (Z.max_l 0 (- e)) in Hlo by lia.
    assert (d = 53) as Hd53 by lia. rewrite Hd53 in Dlo.
    change (2 ^ (53 - 1)) with 4503599627370496 in Dlo.
    assert (0 < 4 ^ e) as H4 by (apply Z.pow_pos_nonneg; lia).
    change (2 ^ 51) with 2251799813685248 in Hn.
    change (4 ^ 0) with 1 in Hlo.
    assert (M - 1 <= (M - 1) * (M - 1)) by (clear - Dlo; nia).
    set (P := 4 ^ e) in *. set (X := (M - 1) * (M - 1)) in *.
    clearbody P X. nia. }
  rewrite (Z.max_l 0 e) in Hlo, Hhi by lia.
  rewrite (Z.max_r 0 (- e)) in Hlo, Hhi by lia.
  change (4 ^ 0) with 1 in Hlo, Hhi. rewrite Z.mul_1_r in Hlo, Hhi.
  set (s := - e) in *.
  assert (4 ^ s = 2 ^ s * 2 ^ s) as H4s.
  { change 4 with (2 ^ 2). rewrite <- Z.pow_mul_r, <- Z.pow_add_r by lia.
    f_equal. lia. }
  rewrite H4s in Hlo, Hhi.
  set (T := 2 ^ s) in *.
  assert (d = 53) as Hd53.
  { destruct (Z.eq_dec d 53) as [|Hne]; [assumption|exfalso].
    assert (e = -1074) as He' by lia. assert (d <= 53) by lia.
    assert (2 ^ d <= 2 ^ 53) by (apply Z.pow_le_mono_r; lia).
    assert (2 ^ 54 <= T) by (subst T s; apply Z.pow_le_mono_r; lia).
    change (2 ^ 53) with 9007199254740992 in *.
    change (2 ^ 54) with 18014398509481984 in *. nia. }
  rewrite Hd53 in Dlo, Dhi.
  change (2 ^ (53 - 1)) with 4503599627370496 in Dlo.
  change (2 ^ 53) with 9007199254740992 in Dhi.
  change (2 ^ 51) with 2251799813685248 in Hn.
  assert (2 ^ 27 <= T) as HT.
  { destruct (Z_lt_le_dec s 27) as [Hlt|Hge].
    - exfalso. assert (T <= 2 ^ 26) by (subst T; apply Z.pow_le_mono_r; lia).
      assert (0 < T) by (subst T; apply Z.pow_pos_nonneg; lia).
      change (2 ^ 26) with 67108864 in *. nia.
    - subst T. apply Z.pow_le_mono_r; lia. }
  change (2 ^ 27) with 134217728 in HT.
  pose proof (Z.sqrt_spec n ltac:(lia)) as Hk. cbv zeta in Hk.
  pose proof (Z.sqrt_nonneg n) as Hk0.
  set (k := Z.sqrt n) in *.
  assert (k < 67108864) as Hk26 by nia.
  rewrite Z.shiftl_div_pow2 by lia. fold s T.
  f_equal. symmetry. apply Z.div_unique with (r := M - k * T); [|lia].
  left. split.
  - destruct (Z_lt_le_dec M (k * T)) as [Hlt|]; [exfalso|lia].
    assert ((M + 1) * (M + 1) <= (k * T) * (k * T)) by nia.
    nia.
  - destruct (Z_lt_le_dec M ((k + 1) * T)) as [|Hge]; [lia|exfalso].
    assert (((k + 1) * T - 1) * ((k + 1) * T - 1) <= (M - 1) * (M - 1)) by nia.
    assert (n * (T * T) <= ((k + 1) * (k + 1) - 1) * (T * T)) by nia.
    nia.
Qed.

(** [int(n ** 0.5)] is the integer square root for [1 <= n < 2 ^ 51],
    whenever the C library's [pow(n, 0.5)] is within one unit in the last
    place of the square root. *)
Lemma int_pow_half libm_pow n :
  1 <= n < 2 ^ 51 ->
  (n <> 1 -> GridSpec.near_sqrt n (libm_pow (of_Z n) f0_5)) ->
  (r ← Py.pow_half libm_pow n; Py.int_of_float r) = Ok (Z.sqrt n).
Proof.
  intros Hn Hpow. unfold Py.pow_half.
  assert ((n <? 0)%Z = false) as -> by lia.
  assert ((n =? 0)%Z = false) as -> by lia.
  destruct (Z.eqb_spec n 1) as [->|Hne]; [reflexivity|].
  destruct (float_of_int_small n) as [-> _].
  { split; [lia|]. eapply Z.lt_trans; [apply Hn|reflexivity]. }
  cbn [mbind Result_bind]. apply near_sqrt_trunc; auto.
Qed.

End Binary64Sqrt.

(** ** Text facts: a stored percentage reads back as its hundredths *)

Section TextFacts.
Import PyStr Py.

Lemma digits_tail_stops rest acc cnt :
  stops rest -> digits_tail rest acc cnt = (acc, cnt, rest).
Proof.
  destruct rest as [|c t]; [reflexivity|]. intros [Hd Hu]. simpl.
  rewrite Hd, Hu. reflexivity.
Qed.

Lemma app_String c (s r : string) : (String c s ++ r)%string = String c (s ++ r)%string.
Proof. reflexivity. Qed.

Lemma digits_tail_digit c t d acc cnt :
  digit_of c = Some d ->
  digits_tail (String c t) acc cnt = digits_tail t (10 * acc + d) (cnt + 1).
Proof. intros H. simpl. rewrite H. reflexivity. Qed.

Lemma digits_tail_uint_acc d : forall acc cnt rest,
  stops rest ->
  digits_tail (NilEmpty.string_of_uint d ++ rest) (Zpos acc) cnt =
  (Zpos (Pos.of_uint_acc d acc), cnt + Z.of_nat (Decimal.nb_digits d), rest).
Proof.
  induction d; intros acc cnt rest Hrest;
    cbn [NilEmpty.string_of_uint Pos.of_uint_acc Decimal.nb_digits];
    try (rewrite app_String;
         erewrite digits_tail_digit by reflexivity;
         match goal with
         | |- digits_tail _ ?a _ = (Z.pos (Pos.of_uint_acc _ ?q), _, _) =>
             replace a with (Z.pos q) by (cbn; lia)
         end;
         rewrite IHd by assumption;
         f_equal; f_equal; lia).
  change (("" ++ rest)%string) with rest.
  rewrite digits_tail_stops by assumption. f_equal. f_equal. lia.
Qed.

Lemma digits_tail_uint d : forall cnt rest,
  stops rest ->
  digits_tail (NilEmpty.string_of_uint d ++ rest) 0 cnt =
  (Z.of_N (Pos.of_uint d), cnt + Z.of_nat (Decimal.nb_digits d), rest).
Proof.
  induction d; intros cnt rest Hrest;
    cbn [NilEmpty.string_of_uint Pos.of_uint Decimal.nb_digits];
    try (rewrite app_String;
         erewrite digits_tail_digit by reflexivity;
         first [ match goal with
                 | |- digits_tail _ ?a _ = (Z.of_N (N.pos (Pos.of_uint_acc _ ?q)), _, _) =>
                     replace a with (Z.pos q) by (cbn; lia)
                 end;
                 rewrite digits_tail_uint_acc by assumption
               | match goal with
                 | |- digits_tail _ ?a _ = _ => replace a with 0 by (cbn; lia)
                 end;
                 rewrite IHd by assumption ];
         f_equal; f_equal; lia).
  change (("" ++ rest)%string) with rest.
  rewrite digits_tail_stops by assumption. f_equal. f_equal. lia.
Qed.

Lemma digitpart_decimal_of_N n rest :
  stops rest ->
  exists k, digitpart (decimal_of_N n ++ rest) = Some (Z.of_N n, k, rest).
Proof.
  intros Hrest. unfold decimal_of_N.
  assert (N.to_uint n <> Decimal.Nil) as Hnn.
  { destruct n; simpl; [discriminate|apply Unsigned.to_uint_nonnil]. }
  pose proof (DecimalN.Unsigned.of_to n) as Hof. unfold N.of_uint in Hof.
  pose proof (digits_tail_uint (N.to_uint n) 0 rest Hrest) as Ht.
  rewrite Hof in Ht.
  destruct (N.to_uint n) as [|d|d|d|d|d|d|d|d|d|d]; try congruence;
    eexists; cbn [NilZero.string_of_uint NilEmpty.string_of_uint] in *;
    rewrite app_String in *; unfold digitpart;
    erewrite digits_tail_digit in Ht by reflexivity;
    (change (digit_of _) with (Some 0) || change (digit_of _) with (Some 1)
     || change (digit_of _) with (Some 2) || change (digit_of _) with (Some 3)
     || change (digit_of _) with (Some 4) || change (digit_of _) with (Some 5)
     || change (digit_of _) with (Some 6) || change (digit_of _) with (Some 7)
     || change (digit_of _) with (Some 8) || change (digit_of _) with (Some 9));
    cbv iota; f_equal; exact Ht.
Qed.


Lemma num_char_facts c :
  num_char c = true ->
  is_space c = false /\ Ascii.eqb percent_sign c = false.
Proof.
  destruct c as [[] [] [] [] [] [] [] []]; vm_compute; intros H;
    try discriminate H; split; reflexivity.
Qed.

Lemma all_chars_app q s r :
  all_chars q (s ++ r) = all_chars q s && all_chars q r.
Proof.
  induction s as [|a s IH]; simpl; [reflexivity|].
  rewrite IH. apply andb_assoc.
Qed.

Lemma all_chars_uint d : all_chars num_char (NilEmpty.string_of_uint d) = true.
Proof. induction d; simpl; try rewrite IHd; reflexivity. Qed.

Lemma all_chars_decimal_of_N n : all_chars num_char (decimal_of_N n) = true.
Proof.
  unfold decimal_of_N, NilZero.string_of_uint.
  destruct (N.to_uint n); try apply all_chars_uint. reflexivity.
Qed.

Lemma digit_of_digit_char d : 0 <= d <= 9 -> digit_of (digit_char d) = Some d.
Proof.
  intros H.
  assert (d = 0 \/ d = 1 \/ d = 2 \/ d = 3 \/ d = 4 \/ d = 5 \/ d = 6 \/ d = 7
          \/ d = 8 \/ d = 9) as Hd by lia.
  repeat (destruct Hd as [->|Hd]; [reflexivity|]). subst. reflexivity.
Qed.

Lemma num_char_digit_char d : 0 <= d <= 9 -> num_char (digit_char d) = true.
Proof. intros H. unfold num_char. now rewrite digit_of_digit_char. Qed.

Lemma rstrip_if_all p s :
  all_chars (fun c => negb (p c)) s = true -> rstrip_if p s = s.
Proof.
  induction s as [|a s IH]; simpl; [reflexivity|].
  intros [Ha Hs]%andb_true_iff. rewrite (IH Hs).
  apply negb_true_iff in Ha. rewrite Ha. destruct s; reflexivity.
Qed.

Lemma lstrip_if_head p a s : p a = false -> lstrip_if p (String a s) = String a s.
Proof. intros H. simpl. now rewrite H. Qed.

Lemma rstrip_percent_app s :
  all_chars (fun c => negb (Ascii.eqb percent_sign c)) s = true ->
  rstrip_if (Ascii.eqb percent_sign) (s ++ "%") = s.
Proof.
  induction s as [|a s IH]; [reflexivity|].
  simpl. intros [Ha Hs]%andb_true_iff. rewrite (IH Hs).
  apply negb_true_iff in Ha. rewrite Ha. destruct s; reflexivity.
Qed.

Lemma all_chars_impl (q q' : ascii -> bool) s :
  (forall c, q c = true -> q' c = true) ->
  all_chars q s = true -> all_chars q' s = true.
Proof.
  intros Hq. induction s as [|a s IH]; simpl; [reflexivity|].
  intros [Ha Hs]%andb_true_iff. rewrite (Hq _ Ha), (IH Hs). reflexivity.
Qed.


Lemma all_chars_two_decimals h : 0 <= h -> all_chars num_char (two_decimals h) = true.
Proof.
  intros Hh. unfold two_decimals.
  rewrite !all_chars_app, all_chars_decimal_of_N. simpl.
  rewrite !num_char_digit_char by (Z.div_mod_to_equations; lia). reflexivity.
Qed.

Lemma two_decimals_head h :
  exists a t, two_decimals h = String a t /\ digit_of a <> None.
Proof.
  unfold two_decimals, decimal_of_N.
  assert (N.to_uint (Z.to_N (h / 100)) <> Decimal.Nil) as Hnn.
  { destruct (Z.to_N (h / 100)); simpl; [discriminate|apply Unsigned.to_uint_nonnil]. }
  destruct (N.to_uint (Z.to_N (h / 100))); try congruence;
    cbn [NilZero.string_of_uint NilEmpty.string_of_uint]; rewrite app_String;
    eexists _, _; (split; [reflexivity|discriminate]).
Qed.

Lemma floatnumber_two_decimals h :
  0 <= h -> floatnumber (two_decimals h) = Some (h, -2).
Proof.
  intros Hh. unfold floatnumber, two_decimals.
  destruct (digitpart_decimal_of_N (Z.to_N (h / 100))
              ("." ++ String (digit_char (h mod 100 / 10))
                        (String (digit_char (h mod 10)) EmptyString)))
    as [k Hk]; [split; reflexivity|].
  rewrite Hk. change ("." ++ ?r)%string with (String "." r). cbv iota beta.
  unfold digitpart at 1.
  rewrite digit_of_digit_char by (Z.div_mod_to_equations; lia).
  erewrite digits_tail_digit
    by (apply digit_of_digit_char; Z.div_mod_to_equations; lia).
  cbn [digits_tail exponent]. simpl mbind.
  assert (Z.of_N (Z.to_N (h / 100)) * 10 ^ (1 + 1) +
          (10 * (h mod 100 / 10) + h mod 10) = h) as ->; [|reflexivity].
  rewrite Z2N.id by (Z.div_mod_to_equations; lia).
  change (10 ^ (1 + 1)) with 100. Z.div_mod_to_equations. lia.
Qed.

Lemma digit_head_facts a t :
  digit_of a <> None ->
  sign (String a t) = (false, String a t) /\
  String.eqb (lower (String a t)) "inf" = false /\
  String.eqb (lower (String a t)) "infinity" = false /\
  String.eqb (lower (String a t)) "nan" = false /\
  num_char a = true.
Proof.
  destruct a as [[] [] [] [] [] [] [] []]; vm_compute; intros H;
    try (exfalso; apply H; reflexivity); repeat split; reflexivity.
Qed.

Lemma hundredths_nonneg m e : 0 <= Float64.hundredths m e.
Proof.
  unfold Float64.hundredths, Float64.round_half_even.
  destruct (0 <=? e)%Z eqn:He.
  - apply Z.leb_le in He. assert (0 < 2 ^ e) by (apply Z.pow_pos_nonneg; lia). nia.
  - apply Z.leb_gt in He.
    assert (0 < 2 ^ (- e)) by (apply Z.pow_pos_nonneg; lia).
    assert (0 <= Zpos m * 100 / 2 ^ (- e)) by (apply Z.div_pos; lia).
    destruct (_ ?= _)%Z; [destruct (Z.even _)| |]; lia.
Qed.

Lemma strip_space_two_decimals (neg : bool) h :
  0 <= h ->
  strip_space ((if neg then "-" else "") ++ two_decimals h)
  = (if neg then "-" else "") ++ two_decimals h.
Proof.
  intros Hh. pose proof (all_chars_two_decimals h Hh) as Hall.
  assert (all_chars (fun c => negb (is_space c)) (two_decimals h) = true) as Hns.
  { eapply all_chars_impl; [|exact Hall].
    intros c Hc. apply num_char_facts in Hc as [-> _]. reflexivity. }
  destruct (two_decimals_head h) as (a & t & Ht & Ha).
  unfold strip_space, strip_if. destruct neg.
  - change ("-" ++ two_decimals h)%string with (String "-" (two_decimals h)).
    rewrite lstrip_if_head by reflexivity.
    apply rstrip_if_all. simpl. exact Hns.
  - change ("" ++ two_decimals h)%string with (two_decimals h).
    rewrite Ht in *. rewrite lstrip_if_head.
    + apply rstrip_if_all. exact Hns.
    + apply digit_head_facts with (t := t) in Ha as (_ & _ & _ & _ & Hn).
      now apply num_char_facts in Hn as [-> _].
Qed.

Lemma float_of_str_two_decimals (neg : bool) h :
  0 <= h ->
  float_of_str ((if neg then "-" else "") ++ two_decimals h)
  = Ok (Float64.of_decimal neg h (-2)).
Proof.
  intros Hh. unfold float_of_str.
  rewrite strip_space_two_decimals by assumption.
  pose proof (floatnumber_two_decimals h Hh) as Hf.
  destruct (two_decimals_head h) as (a & t & Ht & Ha).
  destruct (digit_head_facts a t Ha) as (Hs & H1 & H2 & H3 & _).
  assert (sign ((if neg then "-" else "") ++ two_decimals h) = (neg, two_decimals h)) as ->.
  { destruct neg; [reflexivity|].
    change ("" ++ two_decimals h)%string with (two_decimals h). rewrite Ht. exact Hs. }
  rewrite Ht in *. rewrite H1, H2, H3, Hf. reflexivity.
Qed.

Lemma strip_percent_format_pct x : strip_percent (format_pct x) = format_2f x.
Proof.
  unfold strip_percent, strip_if, format_pct.
  destruct x as [s|s| |s m e]; try (destruct s; reflexivity); try reflexivity.
  unfold format_2f.
  pose proof (hundredths_nonneg m e) as Hh.
  set (h := Float64.hundredths m e) in *.
  pose proof (all_chars_two_decimals h Hh) as Hall.
  assert (all_chars (fun c => negb (Ascii.eqb percent_sign c)) (two_decimals h) = true) as Hnp.
  { eapply all_chars_impl; [|exact Hall].
    intros c Hc. apply num_char_facts in Hc as [_ ->]. reflexivity. }
  destruct (two_decimals_head h) as (a & t & Ht & Ha).
  destruct s.
  - change (("-" ++ two_decimals h) ++ "%")%string
      with (String "-" (two_decimals h ++ "%")).
    rewrite lstrip_if_head by reflexivity.
    change (String "-" (two_decimals h ++ "%"))
      with ((String "-" (two_decimals h)) ++ "%")%string.
    apply rstrip_percent_app. simpl. exact Hnp.
  - change (("" ++ two_decimals h) ++ "%")%string with (two_decimals h ++ "%")%string.
    rewrite Ht in *. rewrite app_String, lstrip_if_head.
    + rewrite <- app_String. apply rstrip_percent_app. exact Hnp.
    + apply digit_head_facts with (t := t) in Ha as (_ & _ & _ & _ & Hn).
      now apply num_char_facts in Hn as [_ ->].
Qed.

(** Reading a stored percentage back: [float(f"{x:.2f}%".strip("%"))]. *)
Lemma float_of_str_format_2f x : float_of_str (format_2f x) = Ok (reread_2f x).
Proof.
  destruct x as [s|s| |s m e]; try (destruct s; reflexivity); try reflexivity.
  unfold format_2f.
  apply float_of_str_two_decimals, hundredths_nonneg.
Qed.

Lemma percent_of_format_pct x :
  float_of_str (strip_percent (format_pct x)) = Ok (reread_2f x).
Proof. rewrite strip_percent_format_pct. apply float_of_str_format_2f. Qed.

End TextFacts.

(** ** Grid construction *)

Section GridFacts.
Import PyStr Py Float64 GridSpec Layout.
Context {Parent Content World : Type}.
Local Open Scope float64_scope.

Abbreviation Cell := (GridCell.t Content).
Abbreviation Grid := (Grid.t Parent Content).

Lemma bind_Ok_inv {A B} (m : Result A) (f : A -> Result B) b :
  (m ≫= f) = Ok b -> exists a, m = Ok a /\ f a = Ok b.
Proof. destruct m as [a|e]; [eauto|discriminate]. Qed.

Lemma mapM_Ok_lookup {A B} (f : A -> Result B) (l : list A) (l' : list B) :
  mapM f l = Ok l' ->
  length l' = length l /\
  forall i a, l !! i = Some a -> exists b, l' !! i = Some b /\ f a = Ok b.
Proof.
  revert l'. induction l as [|x l IH]; intros l' H; simpl in H.
  - injection H as <-. split; [reflexivity|]. intros i a Hi. discriminate.
  - apply bind_Ok_inv in H as (y & Hy & H).
    apply bind_Ok_inv in H as (k & Hk & H). injection H as <-.
    destruct (IH k Hk) as [Hlen Hlook]. split; [simpl; lia|].
    intros [|i] a Hi; simpl in *.
    + injection Hi as <-. eauto.
    + eauto.
Qed.

Lemma mapM_Ok_intro {A B} (f : A -> Result B) (l : list A) :
  (forall a, a ∈ l -> exists b, f a = Ok b) -> exists l', mapM f l = Ok l'.
Proof.
  induction l as [|x l IH]; intros H; simpl.
  - eauto.
  - destruct (H x ltac:(left)) as [y Hy]. rewrite Hy.
    destruct IH as [k Hk]; [intros a Ha; apply H; now right|].
    cbn [mbind Result_bind]. rewrite Hk. eauto.
Qed.

Lemma float_of_int_Ok z f : float_of_int z = Ok f -> f = of_Z z.
Proof.
  unfold float_of_int. destruct (of_Z z); intros H; congruence.
Qed.

Lemma truediv_float_int_Ok x b r :
  truediv_float_int x b = Ok r -> r = div x (of_Z b).
Proof.
  unfold truediv_float_int. intros (y & Hy & H)%bind_Ok_inv.
  apply float_of_int_Ok in Hy as ->. unfold truediv in H.
  destruct (is_zero (of_Z b)); congruence.
Qed.

Lemma mul_int_float_Ok a y r :
  mul_int_float a y = Ok r -> r = of_Z a * y.
Proof.
  unfold mul_int_float. intros (x & Hx & H)%bind_Ok_inv.
  apply float_of_int_Ok in Hx as ->. congruence.
Qed.

Lemma range_lookup a b i :
  a <= i < b -> range a b !! Z.to_nat (i - a) = Some i.
Proof.
  intros H. unfold range. rewrite lookup_seqZ_lt by lia. f_equal. lia.
Qed.

Lemma create_cells_fresh rows cols p (cs : list (list Cell)) :
  Grid._create_cells rows cols p = Ok cs -> fresh_table cs rows cols p.
Proof.
  unfold Grid._create_cells. unfold truediv at 1.
  change (is_zero f100) with false. cbv iota. cbn [mbind Result_bind].
  intros (cw & Hcw & H)%bind_Ok_inv. apply truediv_float_int_Ok in Hcw as ->.
  apply bind_Ok_inv in H as (ch & Hch & H). apply truediv_float_int_Ok in Hch as ->.
  apply bind_Ok_inv in H as (hw & Hhw & H). apply truediv_float_int_Ok in Hhw as ->.
  apply bind_Ok_inv in H as (hh & Hhh & H). apply truediv_float_int_Ok in Hhh as ->.
  apply mapM_Ok_lookup in H as [_ Hrows].
  intros r c Hr Hc. unfold lookup2.
  destruct (Hrows (Z.to_nat r) r) as (rowl & -> & Hrow).
  { rewrite <- (range_lookup 0 rows r) by lia. f_equal. lia. }
  apply mapM_Ok_lookup in Hrow as [_ Hcols].
  destruct (Hcols (Z.to_nat c) c) as (cell & Hcell & Hmk).
  { rewrite <- (range_lookup 0 cols c) by lia. f_equal. lia. }
  cbn [mbind option_bind]. simpl. rewrite Hcell. f_equal.
  unfold Grid.make_cell in Hmk.
  apply bind_Ok_inv in Hmk as (cx & Hcx & Hmk). apply mul_int_float_Ok in Hcx as ->.
  apply bind_Ok_inv in Hmk as (cy & Hcy & Hmk). apply mul_int_float_Ok in Hcy as ->.
  injection Hmk as <-. reflexivity.
Qed.

Lemma create_cells_ok rows cols p :
  1 <= rows < 2 ^ 53 -> 1 <= cols < 2 ^ 53 ->
  exists cs : list (list Cell), Grid._create_cells rows cols p = Ok cs.
Proof.
  intros Hr Hc. unfold Grid._create_cells, truediv_float_int, mul_int_float.
  unfold truediv at 1. change (is_zero f100) with false. cbv iota.
  cbn [mbind Result_bind].
  destruct (float_of_int_small cols ltac:(lia)) as [-> _].
  destruct (float_of_int_small rows ltac:(lia)) as [-> _].
  cbn [mbind Result_bind]. unfold truediv.
  rewrite !of_Z_pos_nonzero by lia. cbn [mbind Result_bind].
  change (float_of_int 2) with (Ok (of_Z 2)). cbn [mbind Result_bind].
  change (is_zero (of_Z 2)) with false. cbv iota. cbn [mbind Result_bind].
  apply mapM_Ok_intro. intros r Hrin.
  apply mapM_Ok_intro. intros c Hcin.
  unfold range in *. apply elem_of_seqZ in Hrin, Hcin.
  unfold Grid.make_cell, mul_int_float.
  destruct (float_of_int_small c ltac:(lia)) as [-> _].
  destruct (float_of_int_small r ltac:(lia)) as [-> _].
  cbn [mbind Result_bind]. eauto.
Qed.

Lemma init_Ok_inv parent x y width height rows cols p h_align (g : Grid) :
  Grid.init parent x y width height rows cols p h_align = Ok g ->
  exists cs, Grid._create_cells rows cols p = Ok cs /\
             g = Grid.mk parent x y width height rows cols p h_align cs.
Proof.
  unfold Grid.init. intros (cs & Hcs & H)%bind_Ok_inv.
  injection H as <-. eauto.
Qed.

Lemma cell_at_lookup (cs : list (list Cell)) row col cell :
  0 <= row -> 0 <= col ->
  lookup2 cs row col = Some cell -> Grid.cell_at cs row col = Ok cell.
Proof.
  intros Hr Hc. unfold lookup2, Grid.cell_at, py_index.
  destruct (cs !! Z.to_nat row) as [rowl|] eqn:Hrow; [|discriminate].
  cbn [mbind option_bind]. simpl. intros Hcell.
  assert ((row <? 0)%Z = false) as -> by lia.
  assert ((row <? 0)%Z = false) as -> by lia.
  rewrite Hrow. cbn [mbind Result_bind].
  assert ((col <? 0)%Z = false) as -> by lia.
  assert ((col <? 0)%Z = false) as -> by lia.
  rewrite Hcell. reflexivity.
Qed.

Lemma get_cell_lookup (g : Grid) row col cell :
  0 <= row < Grid.rows g -> 0 <= col < Grid.cols g ->
  lookup2 (Grid.cells g) row col = Some cell ->
  Grid.get_cell g row col = Ok cell.
Proof.
  intros Hr Hc Hl. unfold Grid.get_cell, Grid.out_of_bounds.
  assert ((row <? 0)%Z = false) as -> by lia.
  assert ((Grid.rows g <=? row)%Z = false) as -> by lia.
  assert ((col <? 0)%Z = false) as -> by lia.
  assert ((Grid.cols g <=? col)%Z = false) as -> by lia.
  apply cell_at_lookup; (lia || assumption).
Qed.

(** Rounding to the hundredth moves a magnitude by at most 0.005. *)
Lemma hundredths_close m e :
  (0 <= e -> hundredths m e = 100 * Zpos m * 2 ^ e)%Z /\
  (e < 0 -> 2 * Z.abs (hundredths m e * 2 ^ (- e) - 100 * Zpos m) <= 2 ^ (- e))%Z.
Proof.
  unfold hundredths, round_half_even. split; intros He.
  - assert ((0 <=? e)%Z = true) as -> by lia. lia.
  - assert ((0 <=? e)%Z = false) as -> by lia.
    assert (0 < 2 ^ (- e)) as Hd by (apply Z.pow_pos_nonneg; lia).
    set (d := 2 ^ (- e)) in *. set (n := (Zpos m * 100)%Z).
    pose proof (Z.div_mod n d ltac:(lia)) as Hdm.
    pose proof (Z.mod_pos_bound n d Hd) as Hr.
    replace (100 * Zpos m)%Z with n by (subst n; lia).
    set (q := n / d) in *. set (r := n mod d) in *.
    clearbody q r. clearbody n. clearbody d.
    destruct (Z.compare_spec (2 * r) d) as [Hcmp|Hcmp|Hcmp].
    + destruct (Z.even q).
      * replace (q * d - n)%Z with (- r)%Z by lia. lia.
      * replace ((q + 1) * d - n)%Z with (d - r)%Z by lia. lia.
    + replace (q * d - n)%Z with (- r)%Z by lia. lia.
    + replace ((q + 1) * d - n)%Z with (d - r)%Z by lia. lia.
Qed.

End GridFacts.

Section GridProperties.
Import PyStr Py Float64 GridSpec Layout.
Context {Parent Content : Type}.
Local Open Scope float64_scope.

Abbreviation Cell := (GridCell.t Content).
Abbreviation Grid := (Grid.t Parent Content).

Lemma create_cells_shape rows cols p (cs : list (list Cell)) row :
  Grid._create_cells rows cols p = Ok cs ->
  (0 <= row < rows)%Z ->
  exists cells_row, cs !! Z.to_nat row = Some cells_row /\
                    length cells_row = Z.to_nat cols.
Proof.
  unfold Grid._create_cells. intros H Hrow.
  repeat (apply bind_Ok_inv in H as (? & _ & H)).
  apply mapM_Ok_lookup in H as [_ Hrows].
  destruct (Hrows (Z.to_nat row) row) as (rowl & Hl & Hrowl).
  { rewrite <- (range_lookup 0 rows row) by lia. f_equal. lia. }
  apply mapM_Ok_lookup in Hrowl as [Hlen _].
  exists rowl. split; [assumption|].
  rewrite Hlen. unfold range. rewrite length_seqZ. f_equal. lia.
Qed.

Lemma hundredths_of_format_pct m e :
  hundredths_of (format_pct (S754_finite false m e)) = Some (hundredths m e).
Proof.
  unfold hundredths_of. rewrite strip_percent_format_pct.
  unfold format_2f. change ("" ++ ?t)%string with t.
  rewrite floatnumber_two_decimals by apply hundredths_nonneg. reflexivity.
Qed.

Lemma row_width_hundredths_const (cells_row : list Cell) text h :
  (forall cell, cell ∈ cells_row -> GridCell.width cell = text) ->
  hundredths_of text = Some h ->
  row_width_hundredths cells_row = Some (Z.of_nat (length cells_row) * h)%Z.
Proof.
  intros Hall Hh. induction cells_row as [|c l IH]; [reflexivity|].
  simpl. rewrite (Hall c) by left. rewrite Hh. cbn [mbind option_bind].
  rewrite IH by (intros; apply Hall; now right).
  simpl. f_equal. lia.
Qed.

(** C5, as amended. In a grid constructed with [rows >= 1], [cols >= 1]
    and padding [p], the cell at [(row, col)] stores the four values of
    the specification's formulas (evaluated in binary64) printed with two
    decimals and a percent sign, relative to the grid's own container;
    read back, each text is the formula's value rounded to the hundredth,
    not the value itself. *)
Theorem C5_cells_store_two_decimals
    (parent : Parent) (x y width height : PositionType) (rows cols : Z)
    (p : float) (h_align : option string) (g : Grid) (row col : Z) :
  (1 <= rows)%Z -> (1 <= cols)%Z ->
  Grid.init parent x y width height rows cols p h_align = Ok g ->
  (0 <= row < rows)%Z -> (0 <= col < cols)%Z ->
  exists cell,
    Grid.get_cell g row col = Ok cell /\
    (GridCell.x cell = format_pct (origin_pct col cols p) /\
     GridCell.y cell = format_pct (origin_pct row rows p) /\
     GridCell.width cell = format_pct (effective_pct cols p) /\
     GridCell.height cell = format_pct (effective_pct rows p)) /\
    (Grid.percent_of (GridCell.x cell) = Ok (reread_2f (origin_pct col cols p)) /\
     Grid.percent_of (GridCell.y cell) = Ok (reread_2f (origin_pct row rows p)) /\
     Grid.percent_of (GridCell.width cell) = Ok (reread_2f (effective_pct cols p)) /\
     Grid.percent_of (GridCell.height cell) = Ok (reread_2f (effective_pct rows p))).
Proof.
  intros _ _ Hinit Hrow Hcol.
  apply init_Ok_inv in Hinit as (cs & Hcs & ->).
  pose proof (create_cells_fresh _ _ _ _ Hcs row col Hrow Hcol) as Hl.
  exists (fresh_cell rows cols p row col). split.
  - apply get_cell_lookup; assumption.
  - split; [repeat split|].
    unfold Grid.percent_of, fresh_cell. cbn [GridCell.init GridCell.x GridCell.y
      GridCell.width GridCell.height].
    rewrite !percent_of_format_pct. repeat split.
Qed.

(** C8, as amended. In a freshly constructed grid with [cols >= 1] every
    row holds [cols] cells whose stored width is one and the same text,
    [(100 / cols) * (1 - p / 100)] printed with two decimals. When that
    value is a positive number [m * 2 ^ e], the stored widths of a row add
    up to [cols] times its nearest hundredth, which is within 0.005 of the
    value. *)
Theorem C8_row_widths
    (parent : Parent) (x y width height : PositionType) (rows cols : Z)
    (p : float) (h_align : option string) (g : Grid) (row : Z) :
  (1 <= cols)%Z ->
  Grid.init parent x y width height rows cols p h_align = Ok g ->
  (0 <= row < rows)%Z ->
  exists cells_row,
    Grid.cells g !! Z.to_nat row = Some cells_row /\
    length cells_row = Z.to_nat cols /\
    (forall cell, cell ∈ cells_row ->
       GridCell.width cell = format_pct (effective_pct cols p)) /\
    (forall m e, effective_pct cols p = S754_finite false m e ->
       row_width_hundredths cells_row = Some (cols * hundredths m e)%Z /\
       (0 <= e -> hundredths m e = 100 * Zpos m * 2 ^ e)%Z /\
       (e < 0 ->
        2 * Z.abs (hundredths m e * 2 ^ (- e) - 100 * Zpos m) <= 2 ^ (- e))%Z).
Proof.
  intros Hcols Hinit Hrow.
  apply init_Ok_inv in Hinit as (cs & Hcs & ->).
  destruct (create_cells_shape _ _ _ _ row Hcs Hrow) as (cells_row & Hl & Hlen).
  pose proof (create_cells_fresh _ _ _ _ Hcs) as Hfresh.
  assert (forall cell, cell ∈ cells_row ->
            GridCell.width cell = format_pct (effective_pct cols p)) as Hall.
  { intros cell (i & Hi)%list_elem_of_lookup.
    pose proof (lookup_lt_Some _ _ _ Hi) as Hlt.
    specialize (Hfresh row (Z.of_nat i) Hrow ltac:(lia)).
    unfold lookup2 in Hfresh. rewrite Hl in Hfresh.
    cbn [mbind option_bind] in Hfresh. simpl in Hfresh.
    rewrite Nat2Z.id, Hi in Hfresh. injection Hfresh as ->. reflexivity. }
  exists cells_row. cbn [Grid.cells]. repeat split; try assumption.
  - rewrite (row_width_hundredths_const cells_row _ (hundredths m e) Hall).
    + rewrite Hlen, Z2Nat.id by lia. reflexivity.
    + rewrite H. apply hundredths_of_format_pct.
  - apply hundredths_close.
  - apply hundredths_close.
Qed.

End GridProperties.

Section GridErrors.
Import PyStr Py Float64 GridSpec Layout.
Context {Parent Content : Type}.
Local Open Scope float64_scope.

(** C10, as amended. [Grid] has no check of its own on [rows] and [cols]:
    with [cols = 0] construction fails with [ZeroDivisionError] at
    [100.0 / self.cols], with [rows = 0] at [100.0 / self.rows] (when
    [100.0 / self.cols] was computed); so a grid that constructs has
    [rows <> 0] and [cols <> 0]. Negative counts are not excluded. *)
Theorem C10_zero_rows_or_cols
    (parent : Parent) (x y width height : PositionType) (p : float)
    (h_align : option string) :
  (forall rows,
      Grid.init (Content := Content) parent x y width height rows 0 p h_align
      = Raise ZeroDivisionError) /\
  (forall cols cw,
      truediv_float_int f100 cols = Ok cw ->
      Grid.init (Content := Content) parent x y width height 0 cols p h_align
      = Raise ZeroDivisionError) /\
  (forall rows cols (g : Grid.t Parent Content),
      Grid.init parent x y width height rows cols p h_align = Ok g ->
      rows <> 0%Z /\ cols <> 0%Z /\ Grid.rows g = rows /\ Grid.cols g = cols).
Proof.
  assert (forall rows,
      Grid.init (Content := Content) parent x y width height rows 0 p h_align
      = Raise ZeroDivisionError) as H1.
  { intros rows. unfold Grid.init, Grid._create_cells.
    unfold truediv at 1. change (is_zero f100) with false. cbv iota.
    cbn [mbind Result_bind]. reflexivity. }
  assert (forall cols cw,
      truediv_float_int f100 cols = Ok cw ->
      Grid.init (Content := Content) parent x y width height 0 cols p h_align
      = Raise ZeroDivisionError) as H2.
  { intros cols cw Hcw. unfold Grid.init, Grid._create_cells.
    unfold truediv at 1. change (is_zero f100) with false. cbv iota.
    cbn [mbind Result_bind]. rewrite Hcw. cbn [mbind Result_bind]. reflexivity. }
  split; [exact H1|]. split; [exact H2|].
  intros rows cols g Hg.
  assert (Grid.rows g = rows /\ Grid.cols g = cols) as [Hr Hc].
  { apply init_Ok_inv in Hg as (cs & _ & ->). split; reflexivity. }
  repeat split; try assumption.
  - intros ->.
    assert (exists cw, truediv_float_int f100 cols = Ok cw) as [cw Hcw].
    { apply init_Ok_inv in Hg as (cs & Hcs & _).
      unfold Grid._create_cells in Hcs.
      apply bind_Ok_inv in Hcs as (pf & _ & Hcs).
      apply bind_Ok_inv in Hcs as (cw & Hcw & _). eauto. }
    rewrite (H2 cols cw Hcw) in Hg. discriminate.
  - intros ->. rewrite H1 in Hg. discriminate.
Qed.

End GridErrors.

(** ** The grid properties on concrete grids *)

Lemma C5_cells_store_two_decimals_witness :
  exists g,
    ((1 <= 2)%Z /\ (1 <= 2)%Z /\
     Grid.init tt (PosStr "0%") (PosStr "0%") (PosStr "100%") (PosStr "100%")
       2 2 (Float64.of_Z 10) (Some "center") = Ok g /\
     (0 <= 0 < 2)%Z /\ (0 <= 0 < 2)%Z) /\
    exists cell : GridCell.t unit,
      Grid.get_cell g 0 0 = Ok cell /\
      GridCell.x cell = "2.50%" /\ GridCell.width cell = "45.00%".
Proof.
  assert (exists g : Grid.t unit unit,
            Grid.init tt (PosStr "0%") (PosStr "0%") (PosStr "100%") (PosStr "100%")
              2 2 (Float64.of_Z 10) (Some "center") = Ok g) as [g Hg]
    by (eexists; vm_compute; reflexivity).
  exists g. split; [split; [lia|split; [lia|split; [exact Hg|lia]]]|].
  destruct (C5_cells_store_two_decimals
              tt (PosStr "0%") (PosStr "0%") (PosStr "100%") (PosStr "100%")
              2 2 (Float64.of_Z 10) (Some "center") g 0 0
              ltac:(lia) ltac:(lia) Hg ltac:(lia) ltac:(lia))
    as (cell & Hget & (Hx & _ & Hw & _) & _).
  exists cell. split; [exact Hget|]. split.
  - rewrite Hx. vm_compute. reflexivity.
  - rewrite Hw. vm_compute. reflexivity.
Defined.

(** C5 as stated fails: in a grid of one row and three columns with padding
    5 the width stored in cell (0, 0) is ["31.67%"], which reads back as
    31.67, while [(100 / 3) * (1 - 5 / 100)] is 31.666666666666668. *)
Lemma C5_counterexample :
  exists g (cell : GridCell.t unit),
    Scenario.grid 1 3 (Float64.of_Z 5) = Ok g /\
    Grid.get_cell g 0 0 = Ok cell /\
    GridCell.width cell = "31.67%" /\
    Grid.percent_of (GridCell.width cell) = Ok (Float64.of_decimal false 3167 (-2)) /\
    GridSpec.effective_pct 3 (Float64.of_Z 5)
      = Float64.of_decimal false 31666666666666668 (-15) /\
    Float64.of_decimal false 3167 (-2) <> GridSpec.effective_pct 3 (Float64.of_Z 5).
Proof.
  eexists _, _. split; [vm_compute; reflexivity|].
  split; [vm_compute; reflexivity|].
  split; [reflexivity|]. split; [vm_compute; reflexivity|].
  split; [vm_compute; reflexivity|]. vm_compute. discriminate.
Qed.

Lemma C8_row_widths_witness :
  exists g,
    ((1 <= 3)%Z /\
     Grid.init tt (PosStr "0%") (PosStr "0%") (PosStr "100%") (PosStr "100%")
       1 3 (Float64.of_Z 5) (Some "center") = Ok g /\
     (0 <= 0 < 1)%Z) /\
    exists cells_row : list (GridCell.t unit),
      Grid.cells g !! Z.to_nat 0 = Some cells_row /\
      length cells_row = Z.to_nat 3 /\
      (forall cell, cell ∈ cells_row ->
         GridCell.width cell
         = Py.format_pct (GridSpec.effective_pct 3 (Float64.of_Z 5))).
Proof.
  assert (exists g : Grid.t unit unit,
            Grid.init tt (PosStr "0%") (PosStr "0%") (PosStr "100%") (PosStr "100%")
              1 3 (Float64.of_Z 5) (Some "center") = Ok g) as [g Hg]
    by (eexists; vm_compute; reflexivity).
  exists g. split; [split; [lia|split; [exact Hg|lia]]|].
  destruct (C8_row_widths
              tt (PosStr "0%") (PosStr "0%") (PosStr "100%") (PosStr "100%")
              1 3 (Float64.of_Z 5) (Some "center") g 0
              ltac:(lia) Hg ltac:(lia))
    as (cells_row & Hl & Hlen & Hall & _).
  exists cells_row. split; [exact Hl|]. split; [exact Hlen|exact Hall].
Defined.

(** C8 as stated fails: with padding 5 the stored widths of a row add up to
    95.00 in a grid of one column and to 95.01 in a grid of three columns,
    where [100 * (1 - 5 / 100)] is 95. *)
Lemma C8_counterexample :
  exists g1 g3 row1 row3,
    Scenario.grid 1 1 (Float64.of_Z 5) = Ok g1 /\
    Scenario.grid 1 3 (Float64.of_Z 5) = Ok g3 /\
    Grid.cells g1 !! 0%nat = Some row1 /\ Grid.cells g3 !! 0%nat = Some row3 /\
    GridCell.width <$> row3 = ["31.67%"; "31.67%"; "31.67%"] /\
    Layout.row_width_hundredths row1 = Some 9500%Z /\
    Layout.row_width_hundredths row3 = Some 9501%Z /\
    Float64.mul Float64.f100
      (Float64.sub Float64.f1 (GridSpec.padding_factor (Float64.of_Z 5)))
    = Float64.of_Z 95.
Proof.
  eexists _, _, _, _. split; [vm_compute; reflexivity|].
  split; [vm_compute; reflexivity|].
  split; [reflexivity|]. split; [reflexivity|].
  split; [vm_compute; reflexivity|]. split; [vm_compute; reflexivity|].
  split; vm_compute; reflexivity.
Qed.

Lemma C10_zero_rows_or_cols_witness :
  exists g,
    Grid.init tt (PosStr "0%") (PosStr "0%") (PosStr "100%") (PosStr "100%")
      1 1 Grid.default_padding (Some "center") = Ok g /\
    (1 <> 0 /\ 1 <> 0 /\ Grid.rows (Parent := unit) (Content := unit) g = 1
     /\ Grid.cols g = 1)%Z.
Proof.
  assert (exists g : Grid.t unit unit,
            Grid.init tt (PosStr "0%") (PosStr "0%") (PosStr "100%") (PosStr "100%")
              1 1 Grid.default_padding (Some "center") = Ok g) as [g Hg]
    by (eexists; vm_compute; reflexivity).
  exists g. split; [exact Hg|].
  exact (proj2 (proj2 (C10_zero_rows_or_cols
                         tt (PosStr "0%") (PosStr "0%") (PosStr "100%")
                         (PosStr "100%") Grid.default_padding (Some "center")))
           1%Z 1%Z g Hg).
Defined.

(** C10 as stated fails in its last part: [Grid(parent, rows=-1, cols=-1)]
    constructs, with no cell. *)
Lemma C10_counterexample :
  exists g,
    Scenario.grid (-1) (-1) Grid.default_padding = Ok g /\
    Grid.rows g = (-1)%Z /\ Grid.cols g = (-1)%Z /\ Grid.cells g = [].
Proof.
  eexists. split; [vm_compute; reflexivity|]. repeat split.
Qed.

(** C3: what the code does on the specification's scenario. In a grid of three rows
    and three columns the merge of (0,0)-(1,1) succeeds, and so does the
    merge of (0,0)-(0,0) after it: no [CellMergeError]. The second merge
    returns the origin cell with its spans back at 1 and its merged size
    kept, and leaves cell (1,1) spanned. *)
Theorem C3_remerge_of_origin_is_accepted :
  exists g g1 c1 g2 c2 c11,
    Scenario.grid 3 3 Grid.default_padding = Ok g /\
    Grid.merge_cells g 0 0 1 1 = Ok (g1, c1) /\
    (GridCell.span_rows c1 = 2 /\ GridCell.span_cols c1 = 2 /\
     GridCell.is_spanned c1 = false)%Z /\
    Grid.merge_cells g1 0 0 0 0 = Ok (g2, c2) /\
    (GridCell.span_rows c2 = 1 /\ GridCell.span_cols c2 = 1 /\
     GridCell.width c2 = GridCell.width c1)%Z /\
    Grid.get_cell g2 1 1 = Ok c11 /\ GridCell.is_spanned c11 = true.
Proof.
  eexists _, _, _, _, _, _. split; [vm_compute; reflexivity|].
  split; [vm_compute; reflexivity|]. split; [repeat split|].
  split; [vm_compute; reflexivity|]. split; [repeat split|].
  split; [vm_compute; reflexivity|]. reflexivity.
Qed.

(** ** Automatic layout *)

Section Placement.
Import PyStr Py Float64 GridSpec Layout.
Context {Parent Content World : Type}.
Variable parent_add_text :
  Parent -> string -> PositionType -> PositionType -> PositionType ->
  PositionType -> option string -> World -> Result (Content * World).
Variable libm_pow : float -> float -> float.

Abbreviation Cell := (GridCell.t Content).
Abbreviation Grid := (Grid.t Parent Content).

Lemma lookup2_update_cell (f : Cell -> Cell) r c r' c' (cs : list (list Cell)) :
  0 <= r -> 0 <= c -> 0 <= r' -> 0 <= c' ->
  lookup2 (Grid.update_cell f r c cs) r' c' =
  if decide (r = r' /\ c = c') then f <$> lookup2 cs r c else lookup2 cs r' c'.
Proof.
  intros Hr Hc Hr' Hc'. unfold lookup2, Grid.update_cell.
  rewrite list_lookup_alter.
  destruct (decide (Z.to_nat r = Z.to_nat r')) as [Er|Er].
  - assert (r = r') as <- by lia.
    destruct (cs !! Z.to_nat r) as [rowl|]; simpl.
    + rewrite list_lookup_alter.
      destruct (decide (Z.to_nat c = Z.to_nat c')) as [Ec|Ec].
      * assert (c = c') as <- by lia. rewrite decide_True by done. done.
      * rewrite decide_False by lia. done.
    + destruct (decide _); done.
  - rewrite decide_False by lia. done.
Qed.

Lemma is_ok_true {A} (r : Result A) : is_ok r = true -> exists a, r = Ok a.
Proof. destruct r; [eauto|discriminate]. Qed.

Lemma cell_geometry_ok (g : Grid) (cell : Cell) :
  geometry_readable (Grid.x g) (Grid.y g) (Grid.width g) (Grid.height g) ->
  cell_readable cell ->
  exists geo, Grid.cell_geometry g cell = Ok geo.
Proof.
  intros (Hx & Hy & Hw & Hh) (Cx & Cy & Cw & Ch).
  apply is_ok_true in Hx as [gx Hx], Hy as [gy Hy], Hw as [gw Hw], Hh as [gh Hh].
  apply is_ok_true in Cx as [cx Cx], Cy as [cy Cy], Cw as [cw Cw], Ch as [ch Ch].
  unfold Grid.cell_geometry.
  rewrite Hx, Hy, Cx, Cy, Hw, Hh, Cw, Ch. cbn [mbind Result_bind].
  rewrite !truediv_float_int_100. cbn [mbind Result_bind]. eauto.
Qed.

(** [add_to_cell] with the wrapper of [autogrid] around [f]. *)
Lemma add_to_cell_thunk (g : Grid) row col (f : Grid.Thunk Content World) w cell :
  0 <= row < Grid.rows g -> 0 <= col < Grid.cols g ->
  lookup2 (Grid.cells g) row col = Some cell ->
  GridCell.is_spanned cell = false ->
  cell_readable cell ->
  geometry_readable (Grid.x g) (Grid.y g) (Grid.width g) (Grid.height g) ->
  Grid.add_to_cell g row col (fun _ => f) ∅ w =
  Ok (Grid.set_cells
        (Grid.update_cell (GridCell.set_content (f w).1) row col (Grid.cells g)) g,
      (f w).1, (f w).2).
Proof.
  intros Hr Hc Hl Hs Hcell Hgeo. unfold Grid.add_to_cell.
  rewrite (get_cell_lookup g row col cell Hr Hc Hl). cbn [mbind Result_bind].
  rewrite Hs.
  destruct (cell_geometry_ok g cell Hgeo Hcell) as ([[[ax ay] aw] ah] & ->).
  cbn [mbind Result_bind]. destruct (f w) as [v w']. reflexivity.
Qed.

Lemma run_thunks_cons (f : Grid.Thunk Content World) fs w :
  run_thunks (f :: fs) w =
  ((f w).1 :: (run_thunks fs (f w).2).1, (run_thunks fs (f w).2).2).
Proof.
  simpl. destruct (f w) as [v w1]. simpl.
  destruct (run_thunks fs w1). reflexivity.
Qed.

Lemma with_content_fresh_readable o rows cols p r c :
  cell_readable (with_content (Content := Content) o (fresh_cell rows cols p r c)) /\
  (GridCell.is_spanned (with_content (Content := Content) o (fresh_cell rows cols p r c)) = false).
Proof.
  destruct o; (split; [|reflexivity]); unfold cell_readable, Grid.percent_of; simpl;
    rewrite !percent_of_format_pct; repeat split.
Qed.

Lemma place_spec (cs0 : list (list Cell)) rows cols p :
  0 < cols ->
  fresh_table cs0 rows cols p ->
  forall (fs : list (Grid.Thunk Content World)) (g : Grid) (vs : list Content)
         row_idx col_idx w,
    Grid.rows g = rows -> Grid.cols g = cols ->
    geometry_readable (Grid.x g) (Grid.y g) (Grid.width g) (Grid.height g) ->
    placed g cs0 vs ->
    Z.of_nat (length vs) = row_idx * cols + col_idx ->
    0 <= row_idx -> 0 <= col_idx < cols ->
    Z.of_nat (length vs) + Z.of_nat (length fs) <= rows * cols ->
    exists g',
      Grid.place g fs row_idx col_idx rows cols w = Ok (g', (run_thunks fs w).2) /\
      Grid.rows g' = rows /\ Grid.cols g' = cols /\
      placed g' cs0 (vs ++ (run_thunks fs w).1).
Proof.
  intros Hcols Hfresh. induction fs as [|f fs IH];
    intros g vs row_idx col_idx w Hrows Hcolsg Hgeo Hplaced Hlen Hri Hci Hroom.
  - exists g. simpl. rewrite app_nil_r. auto.
  - assert (row_idx < rows) as Hrlt.
    { simpl length in Hroom. nia. }
    assert (lookup2 (Grid.cells g) row_idx col_idx
            = Some (fresh_cell rows cols p row_idx col_idx)) as Hl.
    { rewrite Hplaced by lia. rewrite Hcolsg, <- Hlen, Nat2Z.id.
      rewrite lookup_ge_None_2 by lia. rewrite Hfresh by lia. reflexivity. }
    destruct (with_content_fresh_readable None rows cols p row_idx col_idx)
      as [Hread Hspan]. cbn [with_content] in Hread, Hspan.
    cbn [Grid.place].
    rewrite (add_to_cell_thunk g row_idx col_idx f w _
               ltac:(lia) ltac:(lia) Hl Hspan Hread Hgeo).
    cbn [mbind Result_bind]. rewrite run_thunks_cons. cbn [fst snd].
    set (v := (f w).1). set (w1 := (f w).2).
    set (g1 := Grid.set_cells _ g).
    assert (placed g1 cs0 (vs ++ [v])) as Hplaced1.
    { intros r c Hr Hc. subst g1. cbn [Grid.set_cells Grid.cells Grid.rows Grid.cols] in *.
      rewrite lookup2_update_cell by lia.
      rewrite Hcolsg in *. rewrite Hrows in *.
      destruct (decide (row_idx = r /\ col_idx = c)) as [[<- <-]|Hne].
      - rewrite Hl, Hfresh by lia. cbn [fmap option_fmap option_map].
        rewrite <- Hlen, Nat2Z.id.
        rewrite lookup_app_r by lia. rewrite Nat.sub_diag. reflexivity.
      - rewrite Hplaced by lia. rewrite Hcolsg.
        assert (r * cols + c <> row_idx * cols + col_idx) as Hidx.
        { intros Heq. apply Hne.
          assert (r = row_idx) as -> by nia. split; [reflexivity|lia]. }
        destruct (decide (r * cols + c < row_idx * cols + col_idx)) as [Hlt|Hge].
        + rewrite lookup_app_l by lia. reflexivity.
        + rewrite !lookup_ge_None_2; [reflexivity| |]; rewrite ?length_app; simpl; lia. }
    destruct (decide (cols <= col_idx + 1)) as [Hwrap|Hnowrap].
    + assert ((cols <=? col_idx + 1)%Z = true) as -> by lia.
      destruct (decide (rows <= row_idx + 1)) as [Hfull|Hmore].
      * assert ((rows <=? row_idx + 1)%Z = true) as -> by lia.
        assert (fs = []) as ->.
        { destruct fs; [reflexivity|]. simpl length in Hroom. nia. }
        exists g1. simpl. auto.
      * assert ((rows <=? row_idx + 1)%Z = false) as -> by lia.
        destruct (IH g1 (vs ++ [v])%list (row_idx + 1) 0 w1) as (g' & Hp & Hr' & Hc' & Hpl');
          try assumption; try lia.
        { rewrite length_app. simpl. lia. }
        { rewrite length_app. simpl length in *. lia. }
        exists g'. rewrite Hp. rewrite <- app_assoc in Hpl'. auto.
    + assert ((cols <=? col_idx + 1)%Z = false) as -> by lia.
      assert ((rows <=? row_idx)%Z = false) as -> by lia.
      destruct (IH g1 (vs ++ [v])%list row_idx (col_idx + 1) w1) as (g' & Hp & Hr' & Hc' & Hpl');
        try assumption; try lia.
      { rewrite length_app. simpl. lia. }
      { rewrite length_app. simpl length in *. lia. }
      exists g'. rewrite Hp. rewrite <- app_assoc in Hpl'. auto.
Qed.


Lemma run_thunks_length (fs : list (Grid.Thunk Content World)) w :
  length (run_thunks fs w).1 = length fs.
Proof.
  revert w. induction fs as [|f fs IH]; intros w; [reflexivity|].
  rewrite run_thunks_cons. simpl. now rewrite IH.
Qed.

Lemma ceil_div_bounds n c :
  1 <= n -> 1 <= c ->
  1 <= (n + c - 1) / c <= n /\
  ((n + c - 1) / c - 1) * c < n <= (n + c - 1) / c * c.
Proof.
  intros Hn Hc.
  pose proof (Z.div_mod (n + c - 1) c ltac:(lia)) as Hdm.
  pose proof (Z.mod_pos_bound (n + c - 1) c ltac:(lia)) as Hr.
  set (q := (n + c - 1) / c) in *. set (r := (n + c - 1) mod c) in *.
  clearbody q r. nia.
Qed.

(** The dimensions [autogrid] derives from the number of items alone. *)
Lemma auto_dimensions_near_square n :
  1 <= n < 2 ^ 51 ->
  (n <> 1 -> near_sqrt n (libm_pow (of_Z n) f0_5)) ->
  Grid.auto_dimensions libm_pow n None None
  = Ok ((n + Z.max 1 (Z.sqrt n) - 1) / Z.max 1 (Z.sqrt n), Z.max 1 (Z.sqrt n)).
Proof.
  intros Hn Hpow. unfold Grid.auto_dimensions.
  destruct (bind_Ok_inv _ _ _ (int_pow_half libm_pow n Hn Hpow)) as (r & -> & Hint).
  cbn [mbind Result_bind]. rewrite Hint. cbn [mbind Result_bind].
  unfold floordiv. assert ((Z.max 1 (Z.sqrt n) =? 0)%Z = false) as -> by lia.
  reflexivity.
Qed.

(** C6. Given [n] content functions, [1 <= n < 2 ^ 51], and neither [rows]
    nor [cols], [autogrid] chooses [cols = max(1, floor(sqrt(n)))] and
    [rows = ceil(n / cols)], on every platform whose [pow] gives
    [n ** 0.5] within one unit in the last place of the square root of [n]
    (for [n = 1] Python does not ask the platform). Called without a
    title and with a position and size that [add_to_cell] can read, it
    returns a grid of these dimensions, has called every function once, in
    order, and the cell at [(row, col)] holds what function number
    [row * cols + col] returned, or nothing when there is no such
    function. *)
Theorem C6_autogrid_near_square
    (parent : Parent) (fs : list (Grid.Thunk Content World))
    (x y width height : PositionType) (padding : float)
    (h_align : option string) (title_height : PositionType) (w : World) :
  1 <= Z.of_nat (length fs) < 2 ^ 51 ->
  (Z.of_nat (length fs) <> 1 ->
   near_sqrt (Z.of_nat (length fs))
     (libm_pow (of_Z (Z.of_nat (length fs))) f0_5)) ->
  Grid.auto_dimensions libm_pow (Z.of_nat (length fs)) None None
  = Ok ((Z.of_nat (length fs) + Z.max 1 (Z.sqrt (Z.of_nat (length fs))) - 1)
          / Z.max 1 (Z.sqrt (Z.of_nat (length fs))),
        Z.max 1 (Z.sqrt (Z.of_nat (length fs)))) /\
  (geometry_readable x y width height ->
   exists g : Grid,
     Grid.autogrid parent_add_text libm_pow parent fs None None x y width height
       padding h_align None title_height w = Ok (g, (run_thunks fs w).2) /\
     Grid.cols g = Z.max 1 (Z.sqrt (Z.of_nat (length fs))) /\
     Grid.rows g = (Z.of_nat (length fs) + Grid.cols g - 1) / Grid.cols g /\
     (Grid.rows g - 1) * Grid.cols g < Z.of_nat (length fs)
       <= Grid.rows g * Grid.cols g /\
     length (run_thunks fs w).1 = length fs /\
     forall row col, 0 <= row < Grid.rows g -> 0 <= col < Grid.cols g ->
       exists cell,
         Grid.get_cell g row col = Ok cell /\
         GridCell.content cell
         = (run_thunks fs w).1 !! Z.to_nat (row * Grid.cols g + col)).
Proof.
  intros Hn Hpow. split; [apply auto_dimensions_near_square; assumption|].
  intros Hgeo. set (n := Z.of_nat (length fs)) in *.
  unfold Grid.autogrid. fold n.
  assert ((n =? 0)%Z = false) as -> by lia.
  rewrite (auto_dimensions_near_square n Hn Hpow). cbn [mbind Result_bind].
  pose proof (Z.sqrt_nonneg n) as Hs0.
  assert (1 <= Z.sqrt n) as Hs1 by (apply Z.sqrt_le_square; lia).
  assert (Z.sqrt n <= n) as Hsn.
  { pose proof (Z.sqrt_spec n ltac:(lia)) as Hsp. cbv zeta in Hsp. nia. }
  set (cols := Z.max 1 (Z.sqrt n)).
  assert (1 <= cols <= n) as Hcols by lia.
  set (rows := (n + cols - 1) / cols).
  destruct (ceil_div_bounds n cols ltac:(lia) ltac:(lia)) as [Hrows Hceil].
  fold rows in Hrows, Hceil.
  unfold Grid.title_band. cbn [Grid.truthy]. cbn [mbind Result_bind].
  destruct (create_cells_ok (Content := Content) rows cols padding
              ltac:(lia) ltac:(lia)) as [cs Hcs].
  unfold Grid.init. rewrite Hcs. cbn [mbind Result_bind].
  set (g0 := Grid.mk parent x y width height rows cols padding h_align cs).
  destruct (place_spec cs rows cols padding ltac:(lia)
              (create_cells_fresh _ _ _ _ Hcs) fs g0 [] 0 0 w)
    as (g & Hplace & Hr & Hc & Hplaced); try reflexivity; try assumption; try lia.
  { intros row col Hrow Hcol. cbn [Grid.cells g0].
    rewrite lookup_nil. destruct (lookup2 cs row col); reflexivity. }
  { simpl length. fold n. lia. }
  exists g. rewrite Hplace, Hr, Hc. split; [reflexivity|].
  split; [reflexivity|]. split; [reflexivity|]. split; [exact Hceil|].
  split; [apply run_thunks_length|].
  intros row col Hrow Hcol.
  specialize (Hplaced row col ltac:(lia) ltac:(lia)).
  rewrite Hc in Hplaced. cbn [app] in Hplaced.
  rewrite (create_cells_fresh _ _ _ _ Hcs row col Hrow Hcol) in Hplaced.
  cbn [fmap option_fmap option_map] in Hplaced.
  eexists. split.
  - apply get_cell_lookup; [lia|lia|exact Hplaced].
  - destruct (_ !! _); reflexivity.
Qed.

End Placement.

(** C4: what the code does on an empty list of content functions. Whatever
    [rows], [cols], [padding] and [h_align] the caller gave, the grid
    returned is [Grid(parent, x, y, width, height)]: one row, one column,
    the default padding and alignment. With [rows=2, cols=3] the result has
    one cell, without content; no function is called, nothing is raised. *)
Theorem C4_autogrid_empty_ignores_rows_and_cols :
  (forall (Parent Content World : Type)
          (add_text : Parent -> string -> PositionType -> PositionType ->
                      PositionType -> PositionType -> option string -> World ->
                      Result (Content * World))
          (pow : float -> float -> float)
          (parent : Parent) (rows cols : option Z)
          (x y width height : PositionType) (padding : float)
          (h_align title : option string) (title_height : PositionType) (w : World),
      Grid.autogrid add_text pow parent [] rows cols x y width height padding
        h_align title title_height w
      = (g ← Grid.init parent x y width height 1 1 Grid.default_padding
               (Some "center");
         Ok (g, w))) /\
  (exists g cell,
      Grid.autogrid Scenario.add_nothing Scenario.sqrt_pow tt [] (Some 2) (Some 3)
        (PosStr "5%") (PosStr "5%") (PosStr "90%") (PosStr "90%")
        Grid.default_padding (Some "center") None (PosStr "10%") []
      = Ok (g, []) /\
      Grid.rows g = 1 /\ Grid.cols g = 1 /\
      Grid.cells g = [[cell]] /\ GridCell.content cell = None).
Proof.
  split; [reflexivity|].
  eexists _, _. split; [vm_compute; reflexivity|]. repeat split.
Qed.

Lemma C6_autogrid_near_square_witness :
  (1 <= Z.of_nat (length [Scenario.thunk 1; Scenario.thunk 2; Scenario.thunk 3;
                          Scenario.thunk 4; Scenario.thunk 5]) < 2 ^ 51 /\
   GridSpec.near_sqrt 5 (Scenario.sqrt_pow (Float64.of_Z 5) Float64.f0_5) /\
   Layout.geometry_readable (PosStr "5%") (PosStr "5%") (PosStr "90%") (PosStr "90%")) /\
  Grid.auto_dimensions Scenario.sqrt_pow 5 None None = Ok (3, 2) /\
  exists g,
    Grid.autogrid Scenario.add_nothing Scenario.sqrt_pow tt
      [Scenario.thunk 1; Scenario.thunk 2; Scenario.thunk 3;
       Scenario.thunk 4; Scenario.thunk 5]
      None None (PosStr "5%") (PosStr "5%") (PosStr "90%") (PosStr "90%")
      Grid.default_padding (Some "center") None (PosStr "10%") []
    = Ok (g, [1; 2; 3; 4; 5]%nat) /\
    Grid.cols g = 2 /\ Grid.rows g = 3 /\
    (exists cell, Grid.get_cell g 0 0 = Ok cell /\ GridCell.content cell = Some 1%nat) /\
    (exists cell, Grid.get_cell g 0 1 = Ok cell /\ GridCell.content cell = Some 2%nat) /\
    (exists cell, Grid.get_cell g 1 0 = Ok cell /\ GridCell.content cell = Some 3%nat) /\
    (exists cell, Grid.get_cell g 1 1 = Ok cell /\ GridCell.content cell = Some 4%nat) /\
    (exists cell, Grid.get_cell g 2 0 = Ok cell /\ GridCell.content cell = Some 5%nat) /\
    (exists cell, Grid.get_cell g 2 1 = Ok cell /\ GridCell.content cell = None).
Proof.
  assert (1 <= Z.of_nat (length [Scenario.thunk 1; Scenario.thunk 2; Scenario.thunk 3;
                                 Scenario.thunk 4; Scenario.thunk 5]) < 2 ^ 51) as Hn
    by (simpl; lia).
  assert (GridSpec.near_sqrt 5 (Scenario.sqrt_pow (Float64.of_Z 5) Float64.f0_5))
    as Hpow by (apply (sqrt_near_sqrt 5); split; [lia|reflexivity]).
  assert (Layout.geometry_readable
            (PosStr "5%") (PosStr "5%") (PosStr "90%") (PosStr "90%")) as Hgeo
    by (split; [|split; [|split]]; vm_compute; reflexivity).
  split; [split; [|split]; assumption|].
  destruct (C6_autogrid_near_square Scenario.add_nothing Scenario.sqrt_pow tt
              [Scenario.thunk 1; Scenario.thunk 2; Scenario.thunk 3;
               Scenario.thunk 4; Scenario.thunk 5]
              (PosStr "5%") (PosStr "5%") (PosStr "90%") (PosStr "90%")
              Grid.default_padding (Some "center") (PosStr "10%") [] Hn
              (fun _ => Hpow))
    as (Hdims & Hgrid).
  split; [exact Hdims|].
  destruct (Hgrid Hgeo) as (g & Hrun & Hcols & Hrows & _ & _ & Hcells).
  assert (Grid.cols g = 2) as Hc2 by (rewrite Hcols; reflexivity).
  assert (Grid.rows g = 3) as Hr3 by (rewrite Hrows, Hc2; reflexivity).
  assert (forall row col o,
             0 <= row < 3 -> 0 <= col < 2 ->
             [1; 2; 3; 4; 5]%nat !! Z.to_nat (row * 2 + col) = o ->
             exists cell, Grid.get_cell g row col = Ok cell /\
                          GridCell.content cell = o) as Hat.
  { intros row col o Hrow Hcol Ho.
    destruct (Hcells row col ltac:(lia) ltac:(lia)) as (cell & Hget & Hcont).
    exists cell. split; [exact Hget|]. rewrite Hcont, Hc2. exact Ho. }
  exists g. split; [exact Hrun|]. split; [exact Hc2|]. split; [exact Hr3|].
  repeat split; apply Hat; (lia || reflexivity).
Defined.

(** * Further properties of the code *)

(** ** Whole percentages, and texts that are no percentage *)

Section PercentText.
Import PyStr Py.

Lemma append_empty_r (s : string) : (s ++ "")%string = s.
Proof. induction s as [|a s IH]; [reflexivity|]. rewrite app_String. now rewrite IH. Qed.

Lemma decimal_of_N_head n :
  exists a t, decimal_of_N n = String a t /\ digit_of a <> None.
Proof.
  unfold decimal_of_N.
  destruct (N.to_uint n) as [|d|d|d|d|d|d|d|d|d|d]; simpl;
    eexists _, _; (split; [reflexivity|discriminate]).
Qed.

Lemma strip_space_decimal_of_N n : strip_space (decimal_of_N n) = decimal_of_N n.
Proof.
  pose proof (all_chars_decimal_of_N n) as Hall.
  assert (all_chars (fun c => negb (is_space c)) (decimal_of_N n) = true) as Hns.
  { eapply all_chars_impl; [|exact Hall].
    intros c Hc. apply num_char_facts in Hc as [-> _]. reflexivity. }
  destruct (decimal_of_N_head n) as (a & t & Ht & Ha).
  unfold strip_space, strip_if. rewrite Ht in *. rewrite lstrip_if_head.
  - apply rstrip_if_all. exact Hns.
  - apply digit_head_facts with (t := t) in Ha as (_ & _ & _ & _ & Hn).
    now apply num_char_facts in Hn as [-> _].
Qed.

Lemma length_string_of_uint d :
  String.length (NilEmpty.string_of_uint d) = Decimal.nb_digits d.
Proof. induction d; simpl; congruence. Qed.

Lemma length_decimal_of_N n :
  String.length (decimal_of_N n) = Decimal.nb_digits (N.to_uint n).
Proof.
  unfold decimal_of_N.
  assert (N.to_uint n <> Decimal.Nil) as Hnn.
  { destruct n; simpl; [discriminate|apply Unsigned.to_uint_nonnil]. }
  destruct (N.to_uint n) eqn:E; try congruence;
    cbn [NilZero.string_of_uint]; apply length_string_of_uint.
Qed.

(** The digits that [int] counts in the text of [n] are its characters. *)
Lemma digitpart_decimal_of_N_digits n :
  digitpart (decimal_of_N n)
  = Some (Z.of_N n, Z.of_nat (String.length (decimal_of_N n)), "").
Proof.
  rewrite length_decimal_of_N.
  rewrite <- (append_empty_r (decimal_of_N n)). unfold decimal_of_N.
  assert (N.to_uint n <> Decimal.Nil) as Hnn.
  { destruct n; simpl; [discriminate|apply Unsigned.to_uint_nonnil]. }
  pose proof (DecimalN.Unsigned.of_to n) as Hof. unfold N.of_uint in Hof.
  pose proof (digits_tail_uint (N.to_uint n) 0 "" I) as Ht.
  rewrite Hof in Ht.
  destruct (N.to_uint n) as [|d|d|d|d|d|d|d|d|d|d]; try congruence;
    cbn [NilZero.string_of_uint NilEmpty.string_of_uint] in *;
    rewrite app_String in *; unfold digitpart;
    erewrite digits_tail_digit in Ht by reflexivity;
    (change (digit_of _) with (Some 0) || change (digit_of _) with (Some 1)
     || change (digit_of _) with (Some 2) || change (digit_of _) with (Some 3)
     || change (digit_of _) with (Some 4) || change (digit_of _) with (Some 5)
     || change (digit_of _) with (Some 6) || change (digit_of _) with (Some 7)
     || change (digit_of _) with (Some 8) || change (digit_of _) with (Some 9));
    cbv iota; f_equal; exact Ht.
Qed.

(** [int] reads the text of [n] as [n] when it has no more digits than
    the interpreter allows, and refuses it otherwise. *)
Lemma int_of_str_decimal_of_N n :
  int_of_str (decimal_of_N n)
  = if (int_max_str_digits <? Z.of_nat (String.length (decimal_of_N n)))%Z
    then Raise ValueError else Ok (Z.of_N n).
Proof.
  unfold int_of_str. rewrite strip_space_decimal_of_N.
  destruct (decimal_of_N_head n) as (a & t & Ht & Ha).
  rewrite Ht. destruct (digit_head_facts a t Ha) as (-> & _).
  rewrite <- Ht. rewrite digitpart_decimal_of_N_digits. reflexivity.
Qed.

Lemma contains_percent_app s : contains_percent (s ++ "%") = true.
Proof.
  induction s as [|a s IH]; [reflexivity|].
  rewrite app_String. cbn [contains_percent]. rewrite IH. apply orb_true_r.
Qed.

Lemma strip_percent_whole n : strip_percent (decimal_of_N n ++ "%") = decimal_of_N n.
Proof.
  pose proof (all_chars_decimal_of_N n) as Hall.
  assert (all_chars (fun c => negb (Ascii.eqb percent_sign c)) (decimal_of_N n) = true) as Hnp.
  { eapply all_chars_impl; [|exact Hall].
    intros c Hc. apply num_char_facts in Hc as [_ ->]. reflexivity. }
  destruct (decimal_of_N_head n) as (a & t & Ht & Ha).
  unfold strip_percent, strip_if. rewrite Ht in *. rewrite app_String, lstrip_if_head.
  - rewrite <- app_String. apply rstrip_percent_app. exact Hnp.
  - apply digit_head_facts with (t := t) in Ha as (_ & _ & _ & _ & Hn).
    now apply num_char_facts in Hn as [_ ->].
Qed.

Lemma whole_percent_gt n k :
  (String.length (decimal_of_N n) <= 4300)%nat ->
  (m ← int_of_str (strip_percent (decimal_of_N n ++ "%"));
   if (k <? m)%Z then Ok (Some "center") else Ok None)
  = Ok (if (k <? Z.of_N n)%Z then Some "center" else None).
Proof.
  intros Hlen. rewrite strip_percent_whole, int_of_str_decimal_of_N.
  unfold int_max_str_digits.
  assert ((4300 <? Z.of_nat (String.length (decimal_of_N n)))%Z = false) as ->
    by lia.
  cbn [mbind Result_bind]. destruct (k <? Z.of_N n)%Z; reflexivity.
Qed.

Lemma whole_percent_too_long n k :
  (4300 < String.length (decimal_of_N n))%nat ->
  (m ← int_of_str (strip_percent (decimal_of_N n ++ "%"));
   if (k <? m)%Z then Ok (Some "center") else Ok None)
  = Raise ValueError.
Proof.
  intros Hlen. rewrite strip_percent_whole, int_of_str_decimal_of_N.
  unfold int_max_str_digits.
  assert ((4300 <? Z.of_nat (String.length (decimal_of_N n)))%Z = true) as ->
    by lia.
  reflexivity.
Qed.

End PercentText.

Section Defaults.
Import PyStr Py Slide Float64.
Local Open Scope float64_scope.

(** X1. [add_shape] called without [h_align] and with a width that is a
    whole percentage [n%], [n] written with at most 4300 digits, behaves
    as the call with [h_align="center"] when [n > 50], and as the call
    with [h_align="left"], which corrects nothing, when [n <= 50]: the
    width alone decides the default alignment of the horizontal position.
    With more digits the call without [h_align] raises [ValueError], as
    [int] refuses the text. *)
Theorem add_shape_centres_wide_shapes (self : Slide.t)
    (x y height : PositionType) (n : N) :
  ((String.length (decimal_of_N n) <= 4300)%nat ->
   add_shape self x y (PosStr (decimal_of_N n ++ "%")) height None
   = add_shape self x y (PosStr (decimal_of_N n ++ "%")) height
       (Some (if (50 <? Z.of_N n)%Z then "center" else "left"))) /\
  ((4300 < String.length (decimal_of_N n))%nat ->
   add_shape self x y (PosStr (decimal_of_N n ++ "%")) height None
   = Raise ValueError).
Proof.
  split; intros Hlen; unfold add_shape, shape_h_align;
    rewrite contains_percent_app.
  - rewrite whole_percent_gt by exact Hlen. cbn [mbind Result_bind].
    destruct (50 <? Z.of_N n)%Z; [reflexivity|].
    destruct x as [f|s]; [reflexivity|]. unfold _convert_position.
    destruct (endswith_percent s); reflexivity.
  - rewrite whole_percent_too_long by exact Hlen. reflexivity.
Qed.

(** X2. [add_image] called without [h_align] and with a horizontal
    position that is a whole percentage [n%], [n] written with at most
    4300 digits, behaves as the call with [h_align="center"] when
    [n > 20], and as the call with [h_align="left"] when [n <= 20]. With
    more digits the call without [h_align] raises [ValueError], as [int]
    refuses the text. *)
Theorem add_image_centres_images_right_of_20_percent (self : Slide.t)
    (y : PositionType) (width height : option PositionType) (n : N) :
  ((String.length (decimal_of_N n) <= 4300)%nat ->
   add_image self (PosStr (decimal_of_N n ++ "%")) y width height None
   = add_image self (PosStr (decimal_of_N n ++ "%")) y width height
       (Some (if (20 <? Z.of_N n)%Z then "center" else "left"))) /\
  ((4300 < String.length (decimal_of_N n))%nat ->
   add_image self (PosStr (decimal_of_N n ++ "%")) y width height None
   = Raise ValueError).
Proof.
  split; intros Hlen; unfold add_image, image_h_align;
    rewrite contains_percent_app.
  - rewrite whole_percent_gt by exact Hlen. cbn [mbind Result_bind].
    destruct (20 <? Z.of_N n)%Z; [reflexivity|].
    unfold _convert_position. destruct (endswith_percent _); reflexivity.
  - rewrite whole_percent_too_long by exact Hlen. reflexivity.
Qed.

End Defaults.

Section MisplacedPercent.
Import PyStr Py Slide.

Lemma contains_percent_lstrip p s :
  p percent_sign = false ->
  contains_percent (lstrip_if p s) = contains_percent s.
Proof.
  intros Hp. induction s as [|a s IH]; [reflexivity|].
  cbn [lstrip_if]. destruct (p a) eqn:Ha; [|reflexivity].
  rewrite IH. cbn [contains_percent].
  destruct (Ascii.eqb_spec a percent_sign) as [->|]; [congruence|reflexivity].
Qed.

Lemma contains_percent_rstrip p s :
  p percent_sign = false ->
  contains_percent (rstrip_if p s) = contains_percent s.
Proof.
  intros Hp. induction s as [|a s IH]; [reflexivity|].
  cbn [rstrip_if contains_percent]. rewrite <- IH.
  destruct (rstrip_if p s) as [|b t].
  - destruct (p a) eqn:Ha.
    + destruct (Ascii.eqb_spec a percent_sign) as [->|]; [congruence|reflexivity].
    + reflexivity.
  - reflexivity.
Qed.

Lemma contains_percent_strip_space s :
  contains_percent (strip_space s) = contains_percent s.
Proof.
  unfold strip_space, strip_if.
  rewrite contains_percent_rstrip, contains_percent_lstrip; reflexivity.
Qed.

Lemma contains_percent_sign s :
  contains_percent (sign s).2 = contains_percent s.
Proof.
  destruct s as [|a t]; [reflexivity|].
  destruct a as [[] [] [] [] [] [] [] []]; reflexivity.
Qed.

Lemma to_lower_percent a :
  Ascii.eqb (to_lower a) percent_sign = Ascii.eqb a percent_sign.
Proof. destruct a as [[] [] [] [] [] [] [] []]; reflexivity. Qed.

Lemma contains_percent_lower s : contains_percent (lower s) = contains_percent s.
Proof.
  induction s as [|a s IH]; [reflexivity|].
  cbn [lower contains_percent]. now rewrite IH, to_lower_percent.
Qed.

Lemma digit_not_percent c d :
  digit_of c = Some d -> Ascii.eqb c percent_sign = false.
Proof. destruct c as [[] [] [] [] [] [] [] []]; vm_compute; congruence. Qed.

Lemma underscore_not_percent c :
  Ascii.eqb c "_" = true -> Ascii.eqb c percent_sign = false.
Proof. intros ->%Ascii.eqb_eq. reflexivity. Qed.

Lemma digits_tail_eq c t acc cnt :
  digits_tail (String c t) acc cnt =
  match digit_of c with
  | Some d => digits_tail t (10 * acc + d) (cnt + 1)
  | None =>
      if Ascii.eqb c "_" then
        match t with
        | String c2 t2 =>
            match digit_of c2 with
            | Some d => digits_tail t2 (10 * acc + d) (cnt + 1)
            | None => (acc, cnt, String c t)
            end
        | EmptyString => (acc, cnt, String c t)
        end
      else (acc, cnt, String c t)
  end.
Proof. reflexivity. Qed.

Lemma contains_percent_digits_tail s :
  (forall acc cnt,
     contains_percent (digits_tail s acc cnt).2 = contains_percent s) /\
  (forall a acc cnt,
     contains_percent (digits_tail (String a s) acc cnt).2
     = contains_percent (String a s)).
Proof.
  induction s as [|c t [IH1 IH2]].
  - split; [reflexivity|]. intros a acc cnt. rewrite digits_tail_eq.
    destruct (digit_of a) as [d|] eqn:Ha.
    + cbn [digits_tail snd contains_percent].
      now rewrite (digit_not_percent a d Ha).
    + destruct (Ascii.eqb a "_"); reflexivity.
  - split; [intros acc cnt; apply IH2|].
    intros a acc cnt. rewrite digits_tail_eq.
    destruct (digit_of a) as [d|] eqn:Ha.
    + rewrite IH2. cbn [contains_percent].
      now rewrite (digit_not_percent a d Ha).
    + destruct (Ascii.eqb a "_") eqn:Hu; [|reflexivity].
      destruct (digit_of c) as [d|] eqn:Hc; [|reflexivity].
      rewrite IH1. cbn [contains_percent].
      rewrite (underscore_not_percent a Hu), (digit_not_percent c d Hc). reflexivity.
Qed.

Lemma contains_percent_digitpart s v n r :
  digitpart s = Some (v, n, r) -> contains_percent s = contains_percent r.
Proof.
  destruct s as [|c t]; [discriminate|]. cbn [digitpart].
  destruct (digit_of c) as [d|] eqn:Hc; [|discriminate].
  intros [= H]. cbn [contains_percent]. rewrite (digit_not_percent c d Hc).
  pose proof (proj1 (contains_percent_digits_tail t) d 1) as Ht.
  rewrite H in Ht. cbn [snd] in Ht. now rewrite Ht.
Qed.

Lemma contains_percent_exponent r e :
  exponent r = Some e -> contains_percent r = false.
Proof.
  destruct r as [|c t]; [reflexivity|]. cbn [exponent].
  destruct (Ascii.eqb (to_lower c) "e") eqn:Hc; [|discriminate].
  pose proof (contains_percent_sign t) as Hs.
  destruct (sign t) as [neg t'] eqn:Hsign. cbn [snd] in Hs.
  destruct (digitpart t') as [[[v n] rest]|] eqn:Hd; [|discriminate].
  destruct rest; [|discriminate]. intros _.
  apply contains_percent_digitpart in Hd. cbn [contains_percent] in *.
  rewrite <- Hs, Hd.
  rewrite <- to_lower_percent. apply Ascii.eqb_eq in Hc as ->. reflexivity.
Qed.

Lemma contains_percent_floatnumber s m e :
  floatnumber s = Some (m, e) -> contains_percent s = false.
Proof.
  unfold floatnumber.
  destruct (digitpart s) as [[[ip n] r]|] eqn:Hd.
  - apply contains_percent_digitpart in Hd. rewrite Hd.
    destruct r as [|c r']; [reflexivity|].
    destruct (Ascii.eqb_spec c ".") as [->|Hne].
    + cbn [contains_percent]. change (Ascii.eqb "." percent_sign) with false.
      cbn [orb].
      destruct (digitpart r') as [[[fp fn] r'']|] eqn:Hd'.
      * apply contains_percent_digitpart in Hd'. rewrite Hd'.
        destruct (exponent r'') eqn:He; [|discriminate].
        intros _. eapply contains_percent_exponent; eassumption.
      * destruct (exponent r') eqn:He; [|discriminate].
        intros _. eapply contains_percent_exponent; eassumption.
    + assert (match c with
              | "."%char => match digitpart r' with
                            | Some (fp, fn, r'') =>
                                ex ← exponent r''; Some (ip * 10 ^ fn + fp, ex - fn)
                            | None => ex ← exponent r'; Some (ip, ex)
                            end
              | _ => ex ← exponent (String c r'); Some (ip, ex)
              end = (ex ← exponent (String c r'); Some (ip, ex))) as ->.
      { destruct c as [[] [] [] [] [] [] [] []]; try reflexivity.
        exfalso. apply Hne. reflexivity. }
      destruct (exponent (String c r')) eqn:He; [|discriminate].
      intros _. eapply contains_percent_exponent; eassumption.
  - destruct s as [|c r]; [discriminate|].
    destruct (Ascii.eqb_spec c ".") as [->|Hne].
    + destruct (digitpart r) as [[[fp fn] r']|] eqn:Hd'; [|discriminate].
      apply contains_percent_digitpart in Hd'.
      destruct (exponent r') eqn:He; [|discriminate]. intros _.
      cbn [contains_percent]. rewrite Hd'.
      change (Ascii.eqb "." percent_sign) with false.
      eapply contains_percent_exponent; eassumption.
    + destruct c as [[] [] [] [] [] [] [] []]; try discriminate.
      exfalso. apply Hne. reflexivity.
Qed.

Lemma float_of_str_percent s :
  contains_percent s = true -> float_of_str s = Raise ValueError.
Proof.
  intros Hs. unfold float_of_str.
  pose proof (contains_percent_sign (strip_space s)) as Hsign.
  rewrite contains_percent_strip_space, Hs in Hsign.
  destruct (sign (strip_space s)) as [neg t]. cbn [snd] in Hsign.
  assert (forall u, contains_percent u = false -> String.eqb (lower t) u = false) as Hne.
  { intros u Hu. apply String.eqb_neq. intros Heq.
    rewrite <- Heq, contains_percent_lower, Hsign in Hu. discriminate. }
  rewrite !Hne by reflexivity. cbn [orb].
  destruct (floatnumber t) as [[m e]|] eqn:Hf; [|reflexivity].
  apply contains_percent_floatnumber in Hf. congruence.
Qed.

(** X3. A text that holds a percent sign but does not end with one
    (["50% "], ["5%0"]) is no percentage for [_convert_position]: it is
    handed to [float], which rejects every text with a percent sign, so
    the call raises [ValueError] whatever the slide, the dimension and the
    alignment. *)
Theorem convert_position_rejects_a_misplaced_percent_sign
    (self : Slide.t) (text : string) (slide_dimension : Z) (is_width : bool)
    (h_align : option string) :
  contains_percent text = true -> endswith_percent text = false ->
  _convert_position self (PosStr text) slide_dimension is_width h_align
  = Raise ValueError.
Proof.
  intros Hc He. unfold _convert_position. rewrite He.
  apply float_of_str_percent, Hc.
Qed.

End MisplacedPercent.

(** ** The table of a grid: construction, lookup, merging *)

Section GridTable.
Import PyStr Py Float64 GridSpec Layout.
Context {Parent Content World : Type}.
Local Open Scope float64_scope.

Abbreviation Cell := (GridCell.t Content).
Abbreviation Grid := (Grid.t Parent Content).

Lemma cell_at_lookup2 (cs : list (list Cell)) r c :
  0 <= r -> 0 <= c ->
  Grid.cell_at cs r c =
  match lookup2 cs r c with Some cell => Ok cell | None => Raise IndexError end.
Proof.
  intros Hr Hc. unfold lookup2, Grid.cell_at, py_index.
  assert ((r <? 0)%Z = false) as -> by lia.
  assert ((c <? 0)%Z = false) as -> by lia.
  assert ((r <? 0)%Z = false) as -> by lia.
  destruct (cs !! Z.to_nat r) as [rowl|]; cbn [mbind Result_bind option_bind]; simpl.
  - assert ((c <? 0)%Z = false) as -> by lia.
    destruct (rowl !! Z.to_nat c); reflexivity.
  - reflexivity.
Qed.

Lemma for_each_Ok {A} (body : A -> Result unit) (l : list A) :
  (forall a, a ∈ l -> body a = Ok tt) -> for_each body l = Ok tt.
Proof.
  induction l as [|a l IH]; intros H; [reflexivity|].
  simpl. rewrite (H a) by left. cbn [mbind Result_bind].
  apply IH. intros b Hb. apply H. now right.
Qed.

Lemma for_each_Raise {A} (body : A -> Result unit) (l : list A) e :
  (forall a, a ∈ l -> body a = Ok tt \/ body a = Raise e) ->
  (exists a, a ∈ l /\ body a = Raise e) ->
  for_each body l = Raise e.
Proof.
  induction l as [|a l IH]; intros Hall (b & Hb & Hraise).
  - inversion Hb.
  - simpl. destruct (Hall a ltac:(left)) as [Ha|Ha]; rewrite Ha; [|reflexivity].
    cbn [mbind Result_bind]. apply IH.
    + intros x Hx. apply Hall. now right.
    + apply elem_of_cons in Hb as [->|Hb]; [congruence|eauto].
Qed.

Lemma elem_of_range a b i : i ∈ range a b <-> a <= i < b.
Proof. unfold range. rewrite elem_of_seqZ. lia. Qed.

Lemma exists_or_none {A} (P : A -> Prop) (l : list A) :
  (forall a, a ∈ l -> P a \/ ~ P a) ->
  (exists a, a ∈ l /\ P a) \/ (forall a, a ∈ l -> ~ P a).
Proof.
  induction l as [|a l IH]; intros Hdec.
  - right. intros a Ha. inversion Ha.
  - destruct (Hdec a ltac:(left)) as [Ha|Ha].
    + left. exists a. split; [left|assumption].
    + destruct IH as [(b & Hb & HP)|Hnone].
      * intros b Hb. apply Hdec. now right.
      * left. exists b. split; [now right|assumption].
      * right. intros b [->|Hb]%elem_of_cons; auto.
Qed.

(** A loop of updates seen from one cell: the cell is changed by [f] when
    some step changes it, and left alone when none does. *)
Lemma lookup2_foldl (f : Cell -> Cell)
    (step : list (list Cell) -> Z -> list (list Cell)) (P : Z -> Prop)
    (l : list Z) r c :
  (forall x, f (f x) = f x) ->
  (forall a cs, a ∈ l -> P a -> lookup2 (step cs a) r c = f <$> lookup2 cs r c) ->
  (forall a cs, a ∈ l -> ~ P a -> lookup2 (step cs a) r c = lookup2 cs r c) ->
  (forall a, a ∈ l -> P a \/ ~ P a) ->
  forall cs,
    ((exists a, a ∈ l /\ P a) ->
     lookup2 (foldl step cs l) r c = f <$> lookup2 cs r c) /\
    ((forall a, a ∈ l -> ~ P a) ->
     lookup2 (foldl step cs l) r c = lookup2 cs r c).
Proof.
  intros Hf. induction l as [|a l IH]; intros Hyes Hno Hdec cs.
  - split.
    + intros (a & Ha & _). inversion Ha.
    + reflexivity.
  - assert (forall cs,
        ((exists a, a ∈ l /\ P a) ->
         lookup2 (foldl step cs l) r c = f <$> lookup2 cs r c) /\
        ((forall a, a ∈ l -> ~ P a) ->
         lookup2 (foldl step cs l) r c = lookup2 cs r c)) as IH'.
    { apply IH.
      - intros b cs' Hb. apply Hyes. now right.
      - intros b cs' Hb. apply Hno. now right.
      - intros b Hb. apply Hdec. now right. }
    cbn [foldl].
    destruct (exists_or_none P l) as [Hex|Hnone];
      [intros b Hb; apply Hdec; now right| |].
    + rewrite (proj1 (IH' _) Hex). split.
      * intros _. destruct (Hdec a ltac:(left)) as [Ha|Ha].
        -- rewrite (Hyes a cs ltac:(left) Ha).
           destruct (lookup2 cs r c); simpl; [now rewrite Hf|reflexivity].
        -- now rewrite (Hno a cs ltac:(left) Ha).
      * intros Hall. destruct Hex as (b & Hb & HP).
        exfalso. apply (Hall b); [now right|assumption].
    + rewrite (proj2 (IH' _) Hnone). split.
      * intros (b & [->|Hb]%elem_of_cons & HP).
        -- apply Hyes; [left|assumption].
        -- exfalso. apply (Hnone b); assumption.
      * intros Hall. apply Hno; [left|]. apply Hall. left.
Qed.

Lemma lookup2_mark_spanned (cs : list (list Cell)) sr sc er ec r c :
  0 <= sr -> 0 <= sc -> 0 <= r -> 0 <= c ->
  lookup2 (Grid.mark_spanned cs sr sc er ec) r c
  = if decide ((sr <= r <= er /\ sc <= c <= ec) /\ ~ (r = sr /\ c = sc))
    then GridCell.set_is_spanned true <$> lookup2 cs r c
    else lookup2 cs r c.
Proof.
  intros Hsr Hsc Hr Hc. unfold Grid.mark_spanned.
  set (f := GridCell.set_is_spanned (Content := Content) true).
  set (inner := fun (cs : list (list Cell)) (row : Z) =>
         foldl (fun cs col =>
           if negb (row =? sr)%Z || negb (col =? sc)%Z
           then Grid.update_cell f row col cs else cs) cs (range sc (ec + 1))).
  assert (forall x, f (f x) = f x) as Hf by reflexivity.
  (* one row *)
  assert (forall row cs, sr <= row ->
    ((exists col, col ∈ range sc (ec + 1) /\
        (row = r /\ col = c /\ ~ (row = sr /\ col = sc))) ->
      lookup2 (inner cs row) r c = f <$> lookup2 cs r c) /\
    ((forall col, col ∈ range sc (ec + 1) ->
        ~ (row = r /\ col = c /\ ~ (row = sr /\ col = sc))) ->
      lookup2 (inner cs row) r c = lookup2 cs r c)) as Hinner.
  { intros row cs0 Hrow. apply lookup2_foldl; [exact Hf| | |].
    - intros col cs1 Hcol%elem_of_range (-> & -> & Hne).
      assert (negb (r =? sr)%Z || negb (c =? sc)%Z = true) as ->.
      { destruct (Z.eqb_spec r sr), (Z.eqb_spec c sc); try reflexivity.
        exfalso. apply Hne. auto. }
      rewrite lookup2_update_cell by lia. rewrite decide_True by auto. reflexivity.
    - intros col cs1 Hcol%elem_of_range Hn.
      destruct (negb (row =? sr)%Z || negb (col =? sc)%Z) eqn:Hg; [|reflexivity].
      rewrite lookup2_update_cell by lia. rewrite decide_False; [reflexivity|].
      intros [-> ->]. apply Hn. split; [reflexivity|]. split; [reflexivity|].
      intros [-> ->]. rewrite !Z.eqb_refl in Hg. discriminate.
    - intros col _.
      destruct (decide (row = r /\ col = c /\ ~ (row = sr /\ col = sc))); auto. }
  (* all rows *)
  pose proof (lookup2_foldl f inner
    (fun row => row = r /\ sc <= c <= ec /\ ~ (row = sr /\ c = sc))
    (range sr (er + 1)) r c Hf) as Houter.
  destruct (Houter) with (cs := cs) as [Hyes Hno].
  - intros row cs0 Hrow%elem_of_range (-> & Hcin & Hne).
    apply (Hinner r cs0 ltac:(lia)). exists c. rewrite elem_of_range.
    split; [lia|]. auto.
  - intros row cs0 Hrow%elem_of_range Hn.
    apply (Hinner row cs0 ltac:(lia)). intros col Hcol%elem_of_range (-> & -> & Hne).
    apply Hn. split; [reflexivity|]. split; [lia|assumption].
  - intros row _.
    destruct (decide (row = r /\ sc <= c <= ec /\ ~ (row = sr /\ c = sc))); auto.
  - destruct (decide ((sr <= r <= er /\ sc <= c <= ec) /\ ~ (r = sr /\ c = sc))) as [[[Hrr Hcc] Hne]|Hn].
    + apply Hyes. exists r. rewrite elem_of_range. split; [lia|]. auto.
    + apply Hno. intros row Hrow%elem_of_range (-> & Hcc & Hne).
      apply Hn. split; [lia|assumption].
Qed.


Lemma endswith_percent_app s : endswith_percent (s ++ "%") = true.
Proof.
  induction s as [|a s IH]; [reflexivity|].
  change (String a s ++ "%")%string with (String a (s ++ "%")).
  cbn [endswith_percent]. rewrite IH.
  destruct (s ++ "%")%string eqn:E; [destruct s; discriminate|reflexivity].
Qed.

(** X4. [Grid(...)] with [1 <= rows] and [1 <= cols] (below [2 ^ 53])
    never fails, whatever the position, the size and the padding are:
    nothing is validated, the padding may be negative, above 100 or not a
    number. The grid keeps its arguments and holds [rows] rows of [cols]
    cells, each without content, spanning one row and one column and
    covered by no other. *)
Theorem grid_construction_succeeds
    (parent : Parent) (x y width height : PositionType) (rows cols : Z)
    (p : float) (h_align : option string) :
  1 <= rows < 2 ^ 53 -> 1 <= cols < 2 ^ 53 ->
  exists g : Grid,
    Grid.init parent x y width height rows cols p h_align = Ok g /\
    (Grid.parent g = parent /\ Grid.x g = x /\ Grid.y g = y /\
     Grid.width g = width /\ Grid.height g = height /\
     Grid.rows g = rows /\ Grid.cols g = cols /\
     Grid.padding g = p /\ Grid.h_align g = h_align) /\
    Z.of_nat (length (Grid.cells g)) = rows /\
    forall cells_row, cells_row ∈ Grid.cells g ->
      Z.of_nat (length cells_row) = cols /\
      forall cell, cell ∈ cells_row ->
        GridCell.content cell = None /\ GridCell.is_spanned cell = false /\
        GridCell.span_rows cell = 1 /\ GridCell.span_cols cell = 1.
Proof.
  intros Hr Hc.
  destruct (create_cells_ok (Content := Content) rows cols p Hr Hc) as [cs Hcs].
  exists (Grid.mk parent x y width height rows cols p h_align cs).
  unfold Grid.init. rewrite Hcs. split; [reflexivity|].
  split; [repeat split|]. cbn [Grid.cells].
  pose proof (create_cells_fresh _ _ _ _ Hcs) as Hfresh.
  assert (length cs = Z.to_nat rows) as Hlen.
  { revert Hcs. unfold Grid._create_cells. intros H.
    repeat (apply bind_Ok_inv in H as (? & _ & H)).
    apply mapM_Ok_lookup in H as [-> _]. unfold range. rewrite length_seqZ. lia. }
  split; [lia|].
  intros cells_row (i & Hi)%list_elem_of_lookup.
  pose proof (lookup_lt_Some _ _ _ Hi) as Hlt.
  destruct (create_cells_shape rows cols p cs (Z.of_nat i) Hcs
              ltac:(lia)) as (rowl & Hl & Hrowl).
  rewrite Nat2Z.id, Hi in Hl. injection Hl as <-.
  split; [lia|].
  intros cell (j & Hj)%list_elem_of_lookup.
  pose proof (lookup_lt_Some _ _ _ Hj) as Hltj.
  specialize (Hfresh (Z.of_nat i) (Z.of_nat j) ltac:(lia) ltac:(lia)).
  unfold lookup2 in Hfresh. rewrite !Nat2Z.id, Hi in Hfresh.
  cbn [mbind option_bind] in Hfresh. simpl in Hfresh. rewrite Hj in Hfresh.
  injection Hfresh as ->. repeat split.
Qed.

(** X5. What is written with [f"{v:.2f}%"] is read back by
    [float(text.strip("%"))]: the text ends with the percent sign, reading
    never raises, and the value read is [v] rounded to the hundredth
    (ties to even), which is at most 0.005 away from [v], then to
    binary64. Infinities and NaN are read back as they are. *)
Theorem stored_percentage_reads_back (v : float) :
  endswith_percent (format_pct v) = true /\
  Grid.percent_of (format_pct v) = Ok (reread_2f v) /\
  forall s m e, v = S754_finite s m e ->
    reread_2f v = of_decimal s (hundredths m e) (-2) /\
    (0 <= e -> hundredths m e = 100 * Zpos m * 2 ^ e)%Z /\
    (e < 0 -> 2 * Z.abs (hundredths m e * 2 ^ (- e) - 100 * Zpos m) <= 2 ^ (- e))%Z.
Proof.
  split; [apply endswith_percent_app|]. split; [apply percent_of_format_pct|].
  intros s m e ->. split; [reflexivity|]. apply hundredths_close.
Qed.

(** X6. On a constructed grid [get_cell(row, col)] returns the cell
    built for [(row, col)] exactly when [0 <= row < rows] and
    [0 <= col < cols]; for every other pair, negative indices included
    (they do not count from the end), it raises [OutOfBoundsError]. *)
Theorem get_cell_of_constructed_grid
    (parent : Parent) (x y width height : PositionType) (rows cols : Z)
    (p : float) (h_align : option string) (g : Grid) (row col : Z) :
  Grid.init parent x y width height rows cols p h_align = Ok g ->
  (0 <= row < rows /\ 0 <= col < cols ->
   Grid.get_cell g row col = Ok (fresh_cell rows cols p row col)) /\
  (~ (0 <= row < rows /\ 0 <= col < cols) ->
   Grid.get_cell g row col = Raise OutOfBoundsError).
Proof.
  intros Hinit. apply init_Ok_inv in Hinit as (cs & Hcs & ->). split.
  - intros [Hr Hc]. apply get_cell_lookup; [exact Hr|exact Hc|].
    apply (create_cells_fresh _ _ _ _ Hcs); assumption.
  - intros Hout. unfold Grid.get_cell, Grid.out_of_bounds. cbn [Grid.rows Grid.cols].
    destruct (Z.ltb_spec row 0); [reflexivity|].
    destruct (Z.leb_spec rows row); [reflexivity|].
    destruct (Z.ltb_spec col 0); [reflexivity|].
    destruct (Z.leb_spec cols col); [reflexivity|].
    exfalso. apply Hout. lia.
Qed.

Lemma out_of_bounds_false (g : Grid) r c :
  Grid.out_of_bounds g r c = false <-> 0 <= r < Grid.rows g /\ 0 <= c < Grid.cols g.
Proof.
  unfold Grid.out_of_bounds.
  destruct (Z.ltb_spec r 0), (Z.leb_spec (Grid.rows g) r),
    (Z.ltb_spec c 0), (Z.leb_spec (Grid.cols g) c); simpl; split;
    (discriminate || lia || reflexivity).
Qed.

Lemma check_not_spanned_fresh (cs : list (list Cell)) rows cols p sr sc er ec :
  fresh_table cs rows cols p ->
  0 <= sr -> er < rows -> 0 <= sc -> ec < cols ->
  Grid.check_not_spanned cs sr sc er ec = Ok tt.
Proof.
  intros Hfresh Hsr Her Hsc Hec. unfold Grid.check_not_spanned.
  apply for_each_Ok. intros r Hr%elem_of_range.
  apply for_each_Ok. intros c Hc%elem_of_range.
  rewrite cell_at_lookup2 by lia. rewrite Hfresh by lia. reflexivity.
Qed.

Lemma merge_cells_fresh_eq (g : Grid) rows cols p sr sc er ec :
  fresh_table (Grid.cells g) rows cols p ->
  Grid.rows g = rows -> Grid.cols g = cols ->
  0 <= sr <= er -> er < rows -> 0 <= sc <= ec -> ec < cols ->
  Grid.merge_cells g sr sc er ec =
  Ok (Grid.set_cells
        (Grid.mark_spanned
           (Grid.update_cell
              (GridCell.set_span (format_pct (merged_extent cols p sc ec))
                 (format_pct (merged_extent rows p sr er))
                 (er - sr + 1) (ec - sc + 1))
              sr sc (Grid.cells g))
           sr sc er ec) g,
      GridCell.set_span (format_pct (merged_extent cols p sc ec))
        (format_pct (merged_extent rows p sr er))
        (er - sr + 1) (ec - sc + 1) (fresh_cell rows cols p sr sc)).
Proof.
  intros Hfresh Hrows Hcols Hr Her Hc Hec. unfold Grid.merge_cells.
  rewrite (proj2 (out_of_bounds_false g sr sc)) by lia.
  rewrite (proj2 (out_of_bounds_false g er ec)) by lia.
  cbn [orb].
  assert ((er <? sr)%Z = false) as -> by lia.
  assert ((ec <? sc)%Z = false) as -> by lia. cbn [orb].
  rewrite (check_not_spanned_fresh _ rows cols p) by (assumption || lia).
  cbn [mbind Result_bind].
  rewrite !cell_at_lookup2 by lia. rewrite !Hfresh by lia.
  cbn [mbind Result_bind].
  unfold Grid.percent_of.
  change (GridCell.x (fresh_cell rows cols p sr sc))
    with (format_pct (origin_pct sc cols p)).
  change (GridCell.y (fresh_cell rows cols p sr sc))
    with (format_pct (origin_pct sr rows p)).
  change (GridCell.x (fresh_cell rows cols p er ec))
    with (format_pct (origin_pct ec cols p)).
  change (GridCell.y (fresh_cell rows cols p er ec))
    with (format_pct (origin_pct er rows p)).
  change (GridCell.width (fresh_cell rows cols p er ec))
    with (format_pct (effective_pct cols p)).
  change (GridCell.height (fresh_cell rows cols p er ec))
    with (format_pct (effective_pct rows p)).
  rewrite !percent_of_format_pct.
  cbn [mbind Result_bind]. reflexivity.
Qed.


Lemma for_each_Ok_or_Raise {A} (body : A -> Result unit) (l : list A) e :
  (forall a, a ∈ l -> body a = Ok tt \/ body a = Raise e) ->
  for_each body l = Ok tt \/ for_each body l = Raise e.
Proof.
  induction l as [|a l IH]; intros Hall; [left; reflexivity|].
  simpl. destruct (Hall a ltac:(left)) as [Ha|Ha]; rewrite Ha; [|right; reflexivity].
  cbn [mbind Result_bind]. apply IH. intros x Hx. apply Hall. now right.
Qed.

Lemma check_not_spanned_Raise (cs : list (list Cell)) a b a' b' r c cell :
  0 <= a -> 0 <= b ->
  (forall r c, a <= r <= a' -> b <= c <= b' -> is_Some (lookup2 cs r c)) ->
  a <= r <= a' -> b <= c <= b' ->
  lookup2 cs r c = Some cell -> GridCell.is_spanned cell = true ->
  Grid.check_not_spanned cs a b a' b' = Raise CellMergeError.
Proof.
  intros Ha Hb Hall Hr Hc Hl Hs. unfold Grid.check_not_spanned.
  assert (forall r c, a <= r <= a' -> b <= c <= b' ->
    (cell ← Grid.cell_at cs r c;
     if GridCell.is_spanned cell then Raise CellMergeError else Ok tt) = Ok tt \/
    (cell ← Grid.cell_at cs r c;
     if GridCell.is_spanned cell then Raise CellMergeError else Ok tt)
    = Raise CellMergeError) as Hbody.
  { intros r0 c0 Hr0 Hc0. rewrite cell_at_lookup2 by lia.
    destruct (Hall r0 c0 Hr0 Hc0) as [x ->]. cbn [mbind Result_bind].
    destruct (GridCell.is_spanned x); auto. }
  apply for_each_Raise.
  - intros r0 Hr0%elem_of_range. apply for_each_Ok_or_Raise.
    intros c0 Hc0%elem_of_range. apply Hbody; lia.
  - exists r. rewrite elem_of_range. split; [lia|].
    apply for_each_Raise.
    + intros c0 Hc0%elem_of_range. apply Hbody; lia.
    + exists c. rewrite elem_of_range. split; [lia|].
      rewrite cell_at_lookup2 by lia. rewrite Hl. cbn [mbind Result_bind].
      now rewrite Hs.
Qed.

(** The table [merge_cells] leaves, seen from one cell. *)
Lemma merged_table_lookup (cs : list (list Cell)) rows cols p sr sc er ec
    (merged : Cell -> Cell) r c :
  fresh_table cs rows cols p ->
  0 <= sr < rows -> 0 <= sc < cols ->
  0 <= r < rows -> 0 <= c < cols ->
  lookup2 (Grid.mark_spanned (Grid.update_cell merged sr sc cs) sr sc er ec) r c
  = Some (if decide (r = sr /\ c = sc) then merged (fresh_cell rows cols p sr sc)
          else if decide (sr <= r <= er /\ sc <= c <= ec)
               then GridCell.set_is_spanned true (fresh_cell rows cols p r c)
               else fresh_cell rows cols p r c).
Proof.
  intros Hfresh Hsr Hsc Hr Hc.
  rewrite lookup2_mark_spanned by lia.
  rewrite lookup2_update_cell by lia.
  destruct (decide (r = sr /\ c = sc)) as [[-> ->]|Hne].
  - rewrite decide_False by (intros [_ H]; apply H; auto).
    rewrite decide_True by auto. rewrite Hfresh by lia. reflexivity.
  - rewrite (decide_False (P := sr = r /\ sc = c)) by (intros [<- <-]; auto).
    rewrite Hfresh by lia.
    destruct (decide (sr <= r <= er /\ sc <= c <= ec)) as [Hin|Hout].
    + rewrite decide_True by (split; assumption). reflexivity.
    + rewrite decide_False by (intros [H _]; auto). reflexivity.
Qed.

Lemma merge_cells_Ok_bounds (g : Grid) sr sc er ec res :
  Grid.merge_cells g sr sc er ec = Ok res ->
  (0 <= sr <= er /\ er < Grid.rows g) /\ (0 <= sc <= ec /\ ec < Grid.cols g).
Proof.
  unfold Grid.merge_cells.
  destruct (Grid.out_of_bounds g sr sc) eqn:H1; [discriminate|].
  destruct (Grid.out_of_bounds g er ec) eqn:H2; [discriminate|].
  cbn [orb].
  destruct (Z.ltb_spec er sr); [discriminate|].
  destruct (Z.ltb_spec ec sc); [discriminate|]. intros _.
  apply out_of_bounds_false in H1, H2. lia.
Qed.

(** X7. [merge_cells] on a freshly constructed grid. If a corner of the
    range is out of bounds the call raises [OutOfBoundsError], also when
    the range is reversed; if both corners are in bounds and the start
    lies after the end, it raises [CellMergeError]; otherwise it succeeds
    and returns the first cell, now stored with the spans
    [end - start + 1] and with the width and height computed from the
    texts of the first and last cells, [(last_x + last_width) - first_x]
    printed with two decimals. *)
Theorem merge_cells_on_fresh_grid
    (parent : Parent) (x y width height : PositionType) (rows cols : Z)
    (p : float) (h_align : option string) (g : Grid) (sr sc er ec : Z) :
  Grid.init parent x y width height rows cols p h_align = Ok g ->
  (~ ((0 <= sr < rows /\ 0 <= sc < cols) /\ (0 <= er < rows /\ 0 <= ec < cols)) ->
   Grid.merge_cells g sr sc er ec = Raise OutOfBoundsError) /\
  ((0 <= sr < rows /\ 0 <= sc < cols) /\ (0 <= er < rows /\ 0 <= ec < cols) ->
   er < sr \/ ec < sc ->
   Grid.merge_cells g sr sc er ec = Raise CellMergeError) /\
  ((0 <= sr <= er /\ er < rows) /\ (0 <= sc <= ec /\ ec < cols) ->
   exists g' cell,
     Grid.merge_cells g sr sc er ec = Ok (g', cell) /\
     Grid.get_cell g' sr sc = Ok cell /\
     cell = GridCell.set_span
              (format_pct (merged_extent cols p sc ec))
              (format_pct (merged_extent rows p sr er))
              (er - sr + 1) (ec - sc + 1) (fresh_cell rows cols p sr sc)).
Proof.
  intros Hinit. apply init_Ok_inv in Hinit as (cs & Hcs & ->).
  pose proof (create_cells_fresh _ _ _ _ Hcs) as Hfresh.
  split; [|split].
  - intros Hout. unfold Grid.merge_cells.
    destruct (Grid.out_of_bounds _ sr sc) eqn:H1; [reflexivity|].
    destruct (Grid.out_of_bounds _ er ec) eqn:H2; [reflexivity|].
    apply out_of_bounds_false in H1, H2. cbn [Grid.rows Grid.cols] in H1, H2.
    exfalso. apply Hout. lia.
  - intros [Hs He] Hord. unfold Grid.merge_cells.
    rewrite (proj2 (out_of_bounds_false _ sr sc)) by exact Hs.
    rewrite (proj2 (out_of_bounds_false _ er ec)) by exact He. cbn [orb].
    destruct (Z.ltb_spec er sr); [reflexivity|].
    destruct (Z.ltb_spec ec sc); [reflexivity|]. lia.
  - intros [[Hr Her] [Hc Hec]].
    eexists _, _. split.
    + apply (merge_cells_fresh_eq _ rows cols p); (assumption || reflexivity).
    + split; [|reflexivity].
      apply get_cell_lookup; cbn [Grid.rows Grid.cols Grid.set_cells]; [lia|lia|].
      unfold Grid.set_cells. cbn [Grid.cells].
  rewrite (merged_table_lookup cs rows cols p) by (assumption || lia).
      rewrite decide_True by auto. reflexivity.
Qed.

Lemma merge_cells_inv
    (parent : Parent) (x y width height : PositionType) (rows cols : Z)
    (p : float) (h_align : option string) (g g' : Grid) (sr sc er ec : Z)
    (cell : Cell) :
  Grid.init parent x y width height rows cols p h_align = Ok g ->
  Grid.merge_cells g sr sc er ec = Ok (g', cell) ->
  exists cs merged,
    fresh_table cs rows cols p /\
    ((0 <= sr <= er /\ er < rows) /\ (0 <= sc <= ec /\ ec < cols)) /\
    g' = Grid.mk parent x y width height rows cols p h_align
           (Grid.mark_spanned (Grid.update_cell merged sr sc cs) sr sc er ec) /\
    cell = merged (fresh_cell rows cols p sr sc) /\
    merged = GridCell.set_span
               (format_pct (merged_extent cols p sc ec))
               (format_pct (merged_extent rows p sr er))
               (er - sr + 1) (ec - sc + 1).
Proof.
  intros Hinit Hmerge.
  destruct (merge_cells_Ok_bounds _ _ _ _ _ _ Hmerge) as [[Hr Her] [Hc Hec]].
  apply init_Ok_inv in Hinit as (cs & Hcs & ->).
  cbn [Grid.rows Grid.cols] in Her, Hec.
  pose proof (create_cells_fresh _ _ _ _ Hcs) as Hfresh.
  rewrite (merge_cells_fresh_eq _ rows cols p) in Hmerge
    by (assumption || reflexivity).
  injection Hmerge as <- <-.
  eexists cs, _. split; [exact Hfresh|]. split; [lia|].
  split; [reflexivity|]. split; reflexivity.
Qed.

(** X8. A successful [merge_cells] on a freshly constructed grid changes
    nothing but the cells of the range: the grid keeps its dimensions,
    position, size, padding and alignment; the first cell keeps its
    position, is not marked as spanned and holds no content; every other
    cell of the range is the cell as built with [is_spanned] set; every
    cell outside the range is the cell as built. *)
Theorem merge_cells_marks_the_covered_cells
    (parent : Parent) (x y width height : PositionType) (rows cols : Z)
    (p : float) (h_align : option string) (g g' : Grid) (sr sc er ec : Z)
    (cell : Cell) :
  Grid.init parent x y width height rows cols p h_align = Ok g ->
  Grid.merge_cells g sr sc er ec = Ok (g', cell) ->
  (Grid.rows g' = rows /\ Grid.cols g' = cols /\
   Grid.x g' = x /\ Grid.y g' = y /\ Grid.width g' = width /\
   Grid.height g' = height /\ Grid.padding g' = p /\ Grid.h_align g' = h_align) /\
  (GridCell.is_spanned cell = false /\ GridCell.content cell = None /\
   GridCell.x cell = GridCell.x (fresh_cell (Content := Content) rows cols p sr sc) /\
   GridCell.y cell = GridCell.y (fresh_cell (Content := Content) rows cols p sr sc)) /\
  forall r c, 0 <= r < rows -> 0 <= c < cols -> ~ (r = sr /\ c = sc) ->
    Grid.get_cell g' r c
    = Ok (if decide (sr <= r <= er /\ sc <= c <= ec)
          then GridCell.set_is_spanned true (fresh_cell rows cols p r c)
          else fresh_cell rows cols p r c).
Proof.
  intros Hinit Hmerge.
  destruct (merge_cells_inv _ _ _ _ _ _ _ _ _ _ _ _ _ _ _ _ Hinit Hmerge)
    as (cs & merged & Hfresh & [[Hr Her] [Hc Hec]] & -> & -> & ->).
  split; [repeat split|]. split; [repeat split|].
  intros r c Hrr Hcc Hne.
  apply get_cell_lookup; cbn [Grid.rows Grid.cols]; [lia|lia|].
  cbn [Grid.cells].
  rewrite (merged_table_lookup cs rows cols p) by (assumption || lia).
  rewrite decide_False by exact Hne. reflexivity.
Qed.


Lemma format_pct_readable v :
  is_ok (Grid.origin_percent (PosStr (format_pct v)) f10) = true /\
  is_ok (Grid.origin_percent (PosStr (format_pct v)) f13_333) = true /\
  is_ok (Grid.size_percent (PosStr (format_pct v))) = true.
Proof.
  unfold Grid.origin_percent, Grid.size_percent, Grid.percent_of, format_pct.
  rewrite endswith_percent_app. fold (format_pct v).
  rewrite percent_of_format_pct. auto.
Qed.

End GridTable.

(** ** Content in cells, nested grids *)

Section CellContent.
Import PyStr Py Float64 GridSpec Layout.
Context {Parent Content World : Type}.
Variable of_grid : Grid.t Parent Content -> Content.
Local Open Scope float64_scope.

Abbreviation Cell := (GridCell.t Content).
Abbreviation Grid := (Grid.t Parent Content).
Abbreviation ContentFunc := (Grid.ContentFunc Content World).

Lemma get_cell_Ok_bounds (g : Grid) row col cell :
  Grid.get_cell g row col = Ok cell ->
  (0 <= row < Grid.rows g /\ 0 <= col < Grid.cols g) /\
  lookup2 (Grid.cells g) row col = Some cell.
Proof.
  unfold Grid.get_cell. destruct (Grid.out_of_bounds g row col) eqn:Hb; [discriminate|].
  apply out_of_bounds_false in Hb. intros H. split; [exact Hb|].
  rewrite cell_at_lookup2 in H by lia.
  destruct (lookup2 (Grid.cells g) row col); congruence.
Qed.

Lemma add_to_cell_inv (g g' : Grid) row col (f : ContentFunc) kwargs w v w' :
  Grid.add_to_cell g row col f kwargs w = Ok (g', v, w') ->
  exists cell ax ay aw ah,
    Grid.get_cell g row col = Ok cell /\
    GridCell.is_spanned cell = false /\
    Grid.cell_geometry g cell = Ok (ax, ay, aw, ah) /\
    f (Grid.with_h_align g
         (<["height" := VStr (format_pct ah)]>
            (<["width" := VStr (format_pct aw)]>
               (<["y" := VStr (format_pct ay)]>
                  (<["x" := VStr (format_pct ax)]> kwargs))))) w = (v, w') /\
    g' = Grid.set_cells
           (Grid.update_cell (GridCell.set_content v) row col (Grid.cells g)) g.
Proof.
  unfold Grid.add_to_cell. intros (cell & Hget & H)%bind_Ok_inv.
  destruct (GridCell.is_spanned cell) eqn:Hs; [discriminate|].
  apply bind_Ok_inv in H as ([[[ax ay] aw] ah] & Hgeo & H).
  destruct (f _ w) as [v0 w0] eqn:Hf. injection H as <- <- <-.
  exists cell, ax, ay, aw, ah. auto.
Qed.

(** X9. When [add_to_cell] succeeds, the content function was called
    once, with keywords in which ["x"], ["y"], ["width"] and ["height"]
    are the absolute percentages of the cell printed with two decimals,
    whatever the caller gave under these names; ["h_align"] is the
    caller's when given, else the grid's when that is not empty, else
    absent; every other keyword is the caller's. *)
Theorem add_to_cell_keywords (g g' : Grid) row col (f : ContentFunc)
    (kwargs : Kwargs) w v w' :
  Grid.add_to_cell g row col f kwargs w = Ok (g', v, w') ->
  exists cell ax ay aw ah kw,
    Grid.get_cell g row col = Ok cell /\
    Grid.cell_geometry g cell = Ok (ax, ay, aw, ah) /\
    f kw w = (v, w') /\
    (kw !! "x" = Some (VStr (format_pct ax)) /\
     kw !! "y" = Some (VStr (format_pct ay)) /\
     kw !! "width" = Some (VStr (format_pct aw)) /\
     kw !! "height" = Some (VStr (format_pct ah))) /\
    kw !! "h_align"
    = match kwargs !! "h_align" with
      | Some a => Some a
      | None => if Grid.truthy (Grid.h_align g) then VStr <$> Grid.h_align g
                else None
      end /\
    forall k, k ∉ ["x"; "y"; "width"; "height"; "h_align"] ->
      kw !! k = kwargs !! k.
Proof.
  intros (cell & ax & ay & aw & ah & Hget & _ & Hgeo & Hf & _)%add_to_cell_inv.
  eexists cell, ax, ay, aw, ah, _. split; [exact Hget|]. split; [exact Hgeo|].
  split; [exact Hf|]. unfold Kwargs in kwargs |- *.
  set (kw4 := <["height" := _]> _).
  assert (kw4 !! "h_align" = kwargs !! "h_align") as Hh.
  { subst kw4. rewrite !lookup_insert_ne by discriminate. reflexivity. }
  assert (forall k, Grid.with_h_align g kw4 !! k
            = if decide (k = "h_align")
              then match kwargs !! "h_align" with
                   | Some a => Some a
                   | None => if Grid.truthy (Grid.h_align g)
                             then VStr <$> Grid.h_align g else None
                   end
              else kw4 !! k) as Hwith.
  { intros k. unfold Grid.with_h_align, Kwargs. rewrite Hh.
    destruct (kwargs !! "h_align") as [a|] eqn:Ha.
    - destruct (decide (k = "h_align")) as [->|]; [congruence|reflexivity].
    - destruct (Grid.h_align g) as [a|].
      + destruct (Grid.truthy (Some a)).
        * rewrite lookup_insert. destruct (decide (k = "h_align")) as [->|Hne].
          -- rewrite decide_True by reflexivity. reflexivity.
          -- rewrite decide_False by congruence. reflexivity.
        * destruct (decide (k = "h_align")) as [->|]; [congruence|reflexivity].
      + destruct (decide (k = "h_align")) as [->|]; [|reflexivity].
        cbn [Grid.truthy]. congruence. }
  split; [|split].
  - rewrite !Hwith. rewrite !decide_False by discriminate. subst kw4.
    repeat split.
    + rewrite !lookup_insert_ne by discriminate. apply lookup_insert_eq.
    + rewrite !lookup_insert_ne by discriminate. apply lookup_insert_eq.
    + rewrite !lookup_insert_ne by discriminate. apply lookup_insert_eq.
    + apply lookup_insert_eq.
  - rewrite Hwith. rewrite decide_True by reflexivity. reflexivity.
  - intros k Hk. rewrite Hwith.
    rewrite decide_False by (intros ->; apply Hk; rewrite !elem_of_cons; auto 10).
    subst kw4. rewrite !lookup_insert_ne; [reflexivity| | | |];
      intros <-; apply Hk; rewrite !elem_of_cons; auto 10.
Qed.


Lemma get_cell_update_cell (g : Grid) (f : Cell -> Cell) row col r c :
  0 <= row -> 0 <= col ->
  Grid.get_cell (Grid.set_cells (Grid.update_cell f row col (Grid.cells g)) g) r c
  = if decide (r = row /\ c = col) then (cell ← Grid.get_cell g r c; Ok (f cell))
    else Grid.get_cell g r c.
Proof.
  intros Hrow Hcol. unfold Grid.get_cell, Grid.out_of_bounds.
  cbn [Grid.set_cells Grid.rows Grid.cols Grid.cells].
  destruct (Z.ltb_spec r 0); [destruct (decide _); reflexivity|].
  destruct (Z.leb_spec (Grid.rows g) r); [destruct (decide _); reflexivity|].
  destruct (Z.ltb_spec c 0); [destruct (decide _); reflexivity|].
  destruct (Z.leb_spec (Grid.cols g) c); [destruct (decide _); reflexivity|].
  cbn [orb]. rewrite !cell_at_lookup2 by lia.
  rewrite lookup2_update_cell by lia.
  destruct (decide (row = r /\ col = c)) as [[-> ->]|Hne].
  - rewrite decide_True by auto. destruct (lookup2 _ r c); reflexivity.
  - rewrite decide_False by (intros [-> ->]; auto). reflexivity.
Qed.

Lemma cell_geometry_set_content (g : Grid) cs v (cell : Cell) :
  Grid.cell_geometry (Grid.set_cells cs g) (GridCell.set_content v cell)
  = Grid.cell_geometry g cell.
Proof. reflexivity. Qed.

(** X10. A successful [add_to_cell] stores what the content function
    returned in the cell addressed and leaves every other cell and every
    attribute of the grid as they were. A cell that holds content is not
    refused: a further call on the same cell succeeds and its result takes
    the place of the former content. *)
Theorem add_to_cell_stores_the_content (g g' : Grid) row col (f : ContentFunc)
    (kwargs : Kwargs) w v w' :
  Grid.add_to_cell g row col f kwargs w = Ok (g', v, w') ->
  (exists cell,
     Grid.get_cell g row col = Ok cell /\
     Grid.get_cell g' row col = Ok (GridCell.set_content v cell)) /\
  (forall r c, ~ (r = row /\ c = col) -> Grid.get_cell g' r c = Grid.get_cell g r c) /\
  g' = Grid.set_cells (Grid.cells g') g /\
  (forall (f2 : ContentFunc) kwargs2 w2,
     exists g2 v2 w2' cell2,
       Grid.add_to_cell g' row col f2 kwargs2 w2 = Ok (g2, v2, w2') /\
       Grid.get_cell g2 row col = Ok cell2 /\
       GridCell.content cell2 = Some v2).
Proof.
  intros (cell & ax & ay & aw & ah & Hget & Hs & Hgeo & Hf & ->)%add_to_cell_inv.
  destruct (get_cell_Ok_bounds _ _ _ _ Hget) as [[Hr Hc] Hl].
  assert (Grid.get_cell
            (Grid.set_cells
               (Grid.update_cell (GridCell.set_content v) row col (Grid.cells g)) g)
            row col = Ok (GridCell.set_content v cell)) as Hget'.
  { rewrite get_cell_update_cell by lia. rewrite decide_True by auto.
    rewrite Hget. reflexivity. }
  split; [eauto|]. split; [|split].
  - intros r c Hne. rewrite get_cell_update_cell by lia.
    rewrite decide_False by exact Hne. reflexivity.
  - reflexivity.
  - intros f2 kwargs2 w2. unfold Grid.add_to_cell at 1.
    rewrite Hget'. cbn [mbind Result_bind].
    change (GridCell.is_spanned (GridCell.set_content v cell))
      with (GridCell.is_spanned cell). rewrite Hs.
    rewrite cell_geometry_set_content, Hgeo. cbn [mbind Result_bind].
    destruct (f2 _ w2) as [v2 w2'].
    eexists _, v2, w2', _. split; [reflexivity|].
    rewrite get_cell_update_cell by lia. rewrite decide_True by auto.
    rewrite Hget'. split; reflexivity.
Qed.

(** X11. A grid whose width (or whose height, the width being a
    readable text) is an absolute number constructs, but no content can be
    put in it: for every cell in bounds [add_to_cell] and
    [add_grid_to_cell] raise [AttributeError], from
    [self.width.strip("%")] on a float. The position of the grid may be
    absolute. *)
Theorem add_to_cell_needs_a_percent_size
    (parent : Parent) (x y width height : PositionType) (rows cols : Z)
    (p : float) (h_align : option string) (g : Grid) (row col : Z)
    (f : ContentFunc) (kwargs : Kwargs) (w : World) :
  Grid.init parent x y width height rows cols p h_align = Ok g ->
  0 <= row < rows -> 0 <= col < cols ->
  is_ok (Grid.origin_percent x f10) = true ->
  is_ok (Grid.origin_percent y f13_333) = true ->
  (exists v, width = PosFloat v) \/
  (is_ok (Grid.size_percent width) = true /\ exists v, height = PosFloat v) ->
  Grid.add_to_cell g row col f kwargs w = Raise AttributeError /\
  forall n m q a,
    Grid.add_grid_to_cell of_grid g row col n m q a = Raise AttributeError.
Proof.
  intros Hinit Hrow Hcol [gx Hx]%is_ok_true [gy Hy]%is_ok_true Hsize.
  apply init_Ok_inv in Hinit as (cs & Hcs & ->).
  pose proof (create_cells_fresh _ _ _ _ Hcs row col Hrow Hcol) as Hl.
  set (g := Grid.mk parent x y width height rows cols p h_align cs).
  assert (Grid.get_cell g row col = Ok (fresh_cell rows cols p row col)) as Hget
    by (apply get_cell_lookup; assumption).
  assert (Grid.cell_geometry g (fresh_cell rows cols p row col)
          = Raise AttributeError) as Hgeo.
  { unfold Grid.cell_geometry. cbn [g Grid.x Grid.y Grid.width Grid.height].
    rewrite Hx, Hy. cbn [mbind Result_bind].
    unfold Grid.percent_of, fresh_cell.
    cbn [GridCell.init GridCell.x GridCell.y GridCell.width GridCell.height].
    rewrite !percent_of_format_pct. cbn [mbind Result_bind].
    destruct Hsize as [[v ->]|[[gw Hw]%is_ok_true [v ->]]].
    - reflexivity.
    - rewrite Hw. cbn [mbind Result_bind].
      rewrite truediv_float_int_100. cbn [mbind Result_bind]. reflexivity. }
  split.
  - unfold Grid.add_to_cell. rewrite Hget. cbn [mbind Result_bind].
    change (GridCell.is_spanned (fresh_cell rows cols p row col)) with false.
    cbv iota. rewrite Hgeo. reflexivity.
  - intros n m q a. unfold Grid.add_grid_to_cell. rewrite Hget.
    cbn [mbind Result_bind].
    change (GridCell.is_spanned (fresh_cell rows cols p row col)) with false.
    cbv iota. rewrite Hgeo. reflexivity.
Qed.

(** X12. After a merge on a freshly constructed grid, a cell of the
    range other than the first one accepts nothing: [add_to_cell] and
    [add_grid_to_cell] on it raise [CellMergeError], and so does every
    further [merge_cells] whose range, in bounds and in order, contains
    it. *)
Theorem covered_cells_refuse_content_and_merges
    (parent : Parent) (x y width height : PositionType) (rows cols : Z)
    (p : float) (h_align : option string) (g g' : Grid) (sr sc er ec : Z)
    (cell : Cell) (r c : Z) :
  Grid.init parent x y width height rows cols p h_align = Ok g ->
  Grid.merge_cells g sr sc er ec = Ok (g', cell) ->
  sr <= r <= er /\ sc <= c <= ec -> ~ (r = sr /\ c = sc) ->
  (forall (f : ContentFunc) kwargs w,
     Grid.add_to_cell g' r c f kwargs w = Raise CellMergeError) /\
  (forall n m q a,
     Grid.add_grid_to_cell of_grid g' r c n m q a = Raise CellMergeError) /\
  (forall a b a' b',
     0 <= a <= r /\ r <= a' < rows -> 0 <= b <= c /\ c <= b' < cols ->
     Grid.merge_cells g' a b a' b' = Raise CellMergeError).
Proof.
  intros Hinit Hmerge Hin Hne.
  destruct (merge_cells_inv _ _ _ _ _ _ _ _ _ _ _ _ _ _ _ _ Hinit Hmerge)
    as (cs & merged & Hfresh & [[Hr Her] [Hc Hec]] & -> & _ & _).
  set (cs' := Grid.mark_spanned _ _ _ _ _).
  set (g' := Grid.mk _ _ _ _ _ _ _ _ _ cs').
  assert (lookup2 cs' r c
          = Some (GridCell.set_is_spanned true (fresh_cell rows cols p r c))) as Hl.
  { subst cs'. rewrite (merged_table_lookup cs rows cols p) by (assumption || lia).
    rewrite decide_False by exact Hne. rewrite decide_True by exact Hin.
    reflexivity. }
  assert (Grid.get_cell g' r c
          = Ok (GridCell.set_is_spanned true (fresh_cell rows cols p r c))) as Hget.
  { apply get_cell_lookup; cbn [g' Grid.rows Grid.cols Grid.cells]; (lia || exact Hl). }
  split; [|split].
  - intros f kwargs w. unfold Grid.add_to_cell. rewrite Hget. reflexivity.
  - intros n m q a. unfold Grid.add_grid_to_cell. rewrite Hget. reflexivity.
  - intros a b a' b' Ha Hb. unfold Grid.merge_cells.
    rewrite (proj2 (out_of_bounds_false g' a b))
      by (cbn [g' Grid.rows Grid.cols]; lia).
    rewrite (proj2 (out_of_bounds_false g' a' b'))
      by (cbn [g' Grid.rows Grid.cols]; lia).
    cbn [orb].
    assert ((a' <? a)%Z = false) as -> by lia.
    assert ((b' <? b)%Z = false) as -> by lia. cbn [orb].
    rewrite (check_not_spanned_Raise (Grid.cells g') a b a' b' r c
               (GridCell.set_is_spanned true (fresh_cell rows cols p r c))
               ltac:(lia) ltac:(lia)); [reflexivity| | | |exact Hl|reflexivity];
      [|lia|lia].
    intros r0 c0 Hr0 Hc0. cbn [g' Grid.cells]. subst cs'.
    rewrite (merged_table_lookup cs rows cols p) by (assumption || lia). eauto.
Qed.


Lemma add_grid_to_cell_inv (g g' nested : Grid) row col n m q a :
  Grid.add_grid_to_cell of_grid g row col n m q a = Ok (g', nested) ->
  exists cell ax ay aw ah cs,
    Grid.get_cell g row col = Ok cell /\
    GridCell.is_spanned cell = false /\
    Grid.cell_geometry g cell = Ok (ax, ay, aw, ah) /\
    Grid._create_cells n m q = Ok cs /\
    nested = Grid.mk (Grid.parent g)
               (PosStr (format_pct ax)) (PosStr (format_pct ay))
               (PosStr (format_pct aw)) (PosStr (format_pct ah))
               n m q (Grid.nested_h_align g a) cs /\
    g' = Grid.set_cells
           (Grid.update_cell (GridCell.set_content (of_grid nested)) row col
              (Grid.cells g)) g.
Proof.
  unfold Grid.add_grid_to_cell. intros (cell & Hget & H)%bind_Ok_inv.
  destruct (GridCell.is_spanned cell) eqn:Hs; [discriminate|].
  apply bind_Ok_inv in H as ([[[ax ay] aw] ah] & Hgeo & H).
  apply bind_Ok_inv in H as (ng & Hinit & H).
  apply init_Ok_inv in Hinit as (cs & Hcs & ->).
  injection H as <- <-.
  exists cell, ax, ay, aw, ah, cs. auto 10.
Qed.

(** X13. When [add_grid_to_cell] succeeds, the nested grid has the
    parent of the outer grid, the rows, columns and padding asked for, and
    the alignment asked for or, when none was given, that of the outer
    grid; its position and size are the four texts that [add_to_cell]
    hands to a content function for the same cell. The nested grid is the
    content of the cell; no other cell changes. *)
Theorem nested_grid_takes_the_place_of_the_cell (g g' nested : Grid)
    (row col n m : Z) (q : float) (a : option string) :
  Grid.add_grid_to_cell of_grid g row col n m q a = Ok (g', nested) ->
  exists cell sx sy sw sh,
    (Grid.get_cell g row col = Ok cell /\
     Grid.get_cell g' row col = Ok (GridCell.set_content (of_grid nested) cell) /\
     forall r c, ~ (r = row /\ c = col) -> Grid.get_cell g' r c = Grid.get_cell g r c) /\
    (Grid.x nested = PosStr sx /\ Grid.y nested = PosStr sy /\
     Grid.width nested = PosStr sw /\ Grid.height nested = PosStr sh) /\
    (Grid.parent nested = Grid.parent g /\
     Grid.rows nested = n /\ Grid.cols nested = m /\ Grid.padding nested = q /\
     Grid.h_align nested = match a with Some _ => a | None => Grid.h_align g end) /\
    forall (f : ContentFunc) (kwargs : Kwargs) w,
      exists g2 v w2 kw,
        Grid.add_to_cell g row col f kwargs w = Ok (g2, v, w2) /\
        f kw w = (v, w2) /\
        kw !! "x" = Some (VStr sx) /\ kw !! "y" = Some (VStr sy) /\
        kw !! "width" = Some (VStr sw) /\ kw !! "height" = Some (VStr sh).
Proof.
  intros (cell & ax & ay & aw & ah & cs & Hget & Hs & Hgeo & Hcs & -> & ->)%add_grid_to_cell_inv.
  destruct (get_cell_Ok_bounds _ _ _ _ Hget) as [[Hr Hc] Hl].
  exists cell, (format_pct ax), (format_pct ay), (format_pct aw), (format_pct ah).
  split; [|split; [|split]].
  - split; [exact Hget|]. split.
    + rewrite get_cell_update_cell by lia. rewrite decide_True by auto.
      rewrite Hget. reflexivity.
    + intros r c Hne. rewrite get_cell_update_cell by lia.
      rewrite decide_False by exact Hne. reflexivity.
  - repeat split.
  - cbn [Grid.parent Grid.rows Grid.cols Grid.padding Grid.h_align].
    repeat split. destruct a; reflexivity.
  - intros f kwargs w. unfold Grid.add_to_cell. rewrite Hget.
    cbn [mbind Result_bind]. rewrite Hs, Hgeo. cbn [mbind Result_bind].
    destruct (f _ w) as [v w2] eqn:Hf.
    eexists _, v, w2, _. split; [reflexivity|]. split; [exact Hf|].
    unfold Kwargs in kwargs |- *.
    assert (forall (kw : gmap string PyVal) k, k <> "h_align" ->
              Grid.with_h_align g kw !! k = kw !! k) as Hwith.
    { intros kw k Hk. unfold Grid.with_h_align, Kwargs.
      destruct (kw !! "h_align"); [reflexivity|].
      destruct (Grid.h_align g) as [s|]; [|reflexivity].
      destruct (Grid.truthy (Some s)); [|reflexivity].
      rewrite lookup_insert_ne by congruence. reflexivity. }
    rewrite !Hwith by discriminate. repeat split.
    + rewrite !lookup_insert_ne by discriminate. apply lookup_insert_eq.
    + rewrite !lookup_insert_ne by discriminate. apply lookup_insert_eq.
    + rewrite !lookup_insert_ne by discriminate. apply lookup_insert_eq.
    + apply lookup_insert_eq.
Qed.

(** X14. Grids nest to any depth: every cell in bounds of a grid
    returned by [add_grid_to_cell] accepts content ([add_to_cell] does not
    raise) and accepts a further nested grid of at least one row and one
    column. *)
Theorem nested_grid_accepts_content (g g' nested : Grid)
    (row col n m : Z) (q : float) (a : option string) (r c : Z) :
  Grid.add_grid_to_cell of_grid g row col n m q a = Ok (g', nested) ->
  0 <= r < n -> 0 <= c < m ->
  (forall (f : ContentFunc) (kwargs : Kwargs) w,
     is_ok (Grid.add_to_cell nested r c f kwargs w) = true) /\
  (forall n' m' q' a', 1 <= n' < 2 ^ 53 -> 1 <= m' < 2 ^ 53 ->
     is_ok (Grid.add_grid_to_cell of_grid nested r c n' m' q' a') = true).
Proof.
  intros (cell & ax & ay & aw & ah & cs & _ & _ & _ & Hcs & -> & _)%add_grid_to_cell_inv
    Hr Hc.
  set (nested := Grid.mk _ _ _ _ _ _ _ _ _ cs).
  pose proof (create_cells_fresh _ _ _ _ Hcs r c Hr Hc) as Hl.
  assert (Grid.get_cell nested r c = Ok (fresh_cell n m q r c)) as Hget
    by (apply get_cell_lookup; assumption).
  destruct (cell_geometry_ok nested (fresh_cell n m q r c)) as ([[[bx by_] bw] bh] & Hgeo).
  { cbn [nested Grid.x Grid.y Grid.width Grid.height]. unfold geometry_readable.
    pose proof (format_pct_readable ax) as (? & _ & _).
    pose proof (format_pct_readable ay) as (_ & ? & _).
    pose proof (format_pct_readable aw) as (_ & _ & ?).
    pose proof (format_pct_readable ah) as (_ & _ & ?). auto. }
  { apply (with_content_fresh_readable None). }
  split.
  - intros f kwargs w. unfold Grid.add_to_cell. rewrite Hget.
    cbn [mbind Result_bind].
    change (GridCell.is_spanned (fresh_cell n m q r c)) with false. cbv iota.
    rewrite Hgeo. cbn [mbind Result_bind]. destruct (f _ w). reflexivity.
  - intros n' m' q' a' Hn' Hm'. unfold Grid.add_grid_to_cell. rewrite Hget.
    cbn [mbind Result_bind].
    change (GridCell.is_spanned (fresh_cell n m q r c)) with false. cbv iota.
    rewrite Hgeo. cbn [mbind Result_bind]. unfold Grid.init.
    destruct (create_cells_ok (Content := Content) n' m' q' Hn' Hm') as [cs' ->].
    reflexivity.
Qed.

End CellContent.

(** ** Automatic layout with given dimensions, titles, figures *)

Section AutoLayout.
Import PyStr Py Float64 GridSpec Layout.
Context {Parent Content World : Type}.
Variable parent_add_text :
  Parent -> string -> PositionType -> PositionType -> PositionType ->
  PositionType -> option string -> World -> Result (Content * World).
Variable libm_pow : float -> float -> float.
Variable parent_add_image :
  Parent -> string -> PyVal -> PyVal -> PyVal -> PyVal -> World -> Content * World.

Abbreviation Cell := (GridCell.t Content).
Abbreviation Grid := (Grid.t Parent Content).
Abbreviation Thunk := (Grid.Thunk Content World).

(** The placement loop when the list may be longer than the grid: the
    functions called are the first ones, as many as there are cells left. *)
Lemma place_take (cs0 : list (list Cell)) rows cols p :
  0 < cols ->
  fresh_table cs0 rows cols p ->
  forall (fs : list Thunk) (g : Grid) (vs : list Content) row_idx col_idx w,
    Grid.rows g = rows -> Grid.cols g = cols ->
    geometry_readable (Grid.x g) (Grid.y g) (Grid.width g) (Grid.height g) ->
    placed g cs0 vs ->
    Z.of_nat (length vs) = row_idx * cols + col_idx ->
    0 <= row_idx -> 0 <= col_idx < cols ->
    Z.of_nat (length vs) < rows * cols ->
    exists g',
      Grid.place g fs row_idx col_idx rows cols w
      = Ok (g', (run_thunks (take (Z.to_nat (rows * cols - Z.of_nat (length vs))) fs) w).2) /\
      g' = Grid.set_cells (Grid.cells g') g /\
      placed g' cs0
        (vs ++ (run_thunks (take (Z.to_nat (rows * cols - Z.of_nat (length vs))) fs) w).1).
Proof.
  intros Hcols Hfresh. induction fs as [|f fs IH];
    intros g vs row_idx col_idx w Hrows Hcolsg Hgeo Hplaced Hlen Hri Hci Hroom.
  - exists g. rewrite take_nil. simpl. rewrite app_nil_r.
    split; [reflexivity|]. split; [destruct g; reflexivity|assumption].
  - assert (row_idx < rows) as Hrlt by nia.
    assert (lookup2 (Grid.cells g) row_idx col_idx
            = Some (fresh_cell rows cols p row_idx col_idx)) as Hl.
    { rewrite Hplaced by lia. rewrite Hcolsg, <- Hlen, Nat2Z.id.
      rewrite lookup_ge_None_2 by lia. rewrite Hfresh by lia. reflexivity. }
    destruct (with_content_fresh_readable (Content := Content) None rows cols p row_idx col_idx)
      as [Hread Hspan]. cbn [with_content] in Hread, Hspan.
    cbn [Grid.place].
    rewrite (add_to_cell_thunk g row_idx col_idx f w _
               ltac:(lia) ltac:(lia) Hl Hspan Hread Hgeo).
    cbn [mbind Result_bind].
    replace (Z.to_nat (rows * cols - Z.of_nat (length vs)))
      with (S (Z.to_nat (rows * cols - Z.of_nat (length (vs ++ [(f w).1])))))
      by (rewrite length_app; simpl length; lia).
    rewrite firstn_cons. rewrite run_thunks_cons. cbn [fst snd].
    set (v := (f w).1). set (w1 := (f w).2).
    set (g1 := Grid.set_cells _ g).
    assert (placed g1 cs0 (vs ++ [v])) as Hplaced1.
    { intros r c Hr Hc. subst g1.
      cbn [Grid.set_cells Grid.cells Grid.rows Grid.cols] in Hr, Hc |- *.
      rewrite lookup2_update_cell by lia.
      rewrite Hcolsg in Hc |- *. rewrite Hrows in Hr.
      destruct (decide (row_idx = r /\ col_idx = c)) as [[<- <-]|Hne].
      - rewrite Hl, Hfresh by lia. cbn [fmap option_fmap option_map].
        rewrite <- Hlen, Nat2Z.id.
        rewrite lookup_app_r by lia. rewrite Nat.sub_diag. reflexivity.
      - rewrite Hplaced by lia. rewrite Hcolsg.
        assert (r * cols + c <> row_idx * cols + col_idx) as Hidx.
        { intros Heq. apply Hne.
          assert (r = row_idx) as -> by nia. split; [reflexivity|lia]. }
        destruct (decide (r * cols + c < row_idx * cols + col_idx)) as [Hlt|Hge].
        + rewrite lookup_app_l by lia. reflexivity.
        + rewrite !lookup_ge_None_2; [reflexivity| |]; rewrite ?length_app; simpl; lia. }
    assert (Z.of_nat (length (vs ++ [v])) = Z.of_nat (length vs) + 1) as Hlen1
      by (rewrite length_app; simpl length; lia).
    destruct (decide (cols <= col_idx + 1)) as [Hwrap|Hnowrap].
    + assert ((cols <=? col_idx + 1)%Z = true) as -> by lia.
      destruct (decide (rows <= row_idx + 1)) as [Hfull|Hmore].
      * assert ((rows <=? row_idx + 1)%Z = true) as -> by lia.
        replace (Z.to_nat (rows * cols - Z.of_nat (length (vs ++ [v])))) with 0%nat by nia.
        exists g1. rewrite take_0. simpl. split; [reflexivity|].
        split; [reflexivity|assumption].
      * assert ((rows <=? row_idx + 1)%Z = false) as -> by lia.
        destruct (IH g1 (vs ++ [v])%list (row_idx + 1) 0 w1) as (g' & Hp & Hg' & Hpl');
          try assumption; try lia; try nia.
        exists g'. rewrite Hp. rewrite <- app_assoc in Hpl'.
        split; [reflexivity|]. split; [rewrite Hg' at 1; reflexivity|assumption].
    + assert ((cols <=? col_idx + 1)%Z = false) as -> by lia.
      assert ((rows <=? row_idx)%Z = false) as -> by lia.
      destruct (IH g1 (vs ++ [v])%list row_idx (col_idx + 1) w1) as (g' & Hp & Hg' & Hpl');
        try assumption; try lia; try nia.
      exists g'. rewrite Hp. rewrite <- app_assoc in Hpl'.
      split; [reflexivity|]. split; [rewrite Hg' at 1; reflexivity|assumption].
Qed.


Lemma autogrid_unfold (parent : Parent) (fs : list Thunk) rows cols
    x y width height padding h_align title title_height w r c ay ah ty
    (cs : list (list Cell)) :
  fs <> [] ->
  Grid.auto_dimensions libm_pow (Z.of_nat (length fs)) rows cols = Ok (r, c) ->
  Grid.title_band title y height title_height = Ok (ay, ah, ty) ->
  Grid._create_cells r c padding = Ok cs ->
  Grid.autogrid parent_add_text libm_pow parent fs rows cols x y width height padding
    h_align title title_height w
  = (w ← (if Grid.truthy title then
             match title, ty with
             | Some text, Some ty =>
                 '(_, w) ← parent_add_text parent text x ty width title_height
                             h_align w;
                 Ok w
             | _, _ => Raise UnboundLocalError
             end
           else Ok w);
     Grid.place (Grid.mk parent x ay width ah r c padding h_align cs)
       fs 0 0 r c w).
Proof.
  intros Hne Hdim Hband Hcs. unfold Grid.autogrid.
  assert ((Z.of_nat (length fs) =? 0)%Z = false) as ->.
  { apply Z.eqb_neq. destruct fs; [congruence|]. simpl length. lia. }
  rewrite Hdim. cbn [mbind Result_bind]. rewrite Hband. cbn [mbind Result_bind].
  unfold Grid.init. rewrite Hcs. cbn [mbind Result_bind]. reflexivity.
Qed.

Lemma place_on_fresh (parent : Parent) (fs : list Thunk) x y width height
    r c padding h_align (cs : list (list Cell)) w :
  Grid._create_cells r c padding = Ok cs ->
  1 <= r -> 1 <= c ->
  geometry_readable x y width height ->
  exists g : Grid,
    Grid.place (Grid.mk parent x y width height r c padding h_align cs)
      fs 0 0 r c w
    = Ok (g, (run_thunks (take (Z.to_nat (r * c)) fs) w).2) /\
    g = Grid.mk parent x y width height r c padding h_align (Grid.cells g) /\
    forall row col, 0 <= row < r -> 0 <= col < c ->
      exists cell,
        Grid.get_cell g row col = Ok cell /\
        GridCell.content cell
        = (run_thunks (take (Z.to_nat (r * c)) fs) w).1 !! Z.to_nat (row * c + col).
Proof.
  intros Hcs Hr Hc Hgeo.
  set (g0 := Grid.mk parent x y width height r c padding h_align cs).
  destruct (place_take cs r c padding ltac:(lia)
              (create_cells_fresh _ _ _ _ Hcs) fs g0 [] 0 0 w)
    as (g & Hplace & Hg & Hplaced); try reflexivity; try assumption; try lia.
  { intros row col Hrow Hcol. cbn [Grid.cells g0].
    rewrite lookup_nil. destruct (lookup2 cs row col); reflexivity. }
  { simpl length. nia. }
  simpl length in Hplace, Hplaced. rewrite Z.sub_0_r in Hplace, Hplaced.
  exists g. split; [exact Hplace|]. split; [exact Hg|].
  intros row col Hrow Hcol.
  assert (Grid.rows g = r /\ Grid.cols g = c) as [Hgr Hgc]
    by (rewrite Hg; split; reflexivity).
  specialize (Hplaced row col ltac:(lia) ltac:(lia)).
  rewrite Hgc in Hplaced. cbn [app] in Hplaced.
  rewrite (create_cells_fresh _ _ _ _ Hcs row col Hrow Hcol) in Hplaced.
  cbn [fmap option_fmap option_map] in Hplaced.
  eexists. split.
  - apply get_cell_lookup; [lia|lia|exact Hplaced].
  - destruct (_ !! _); reflexivity.
Qed.

Lemma autogrid_without_title (parent : Parent) (fs : list Thunk) rows cols
    x y width height padding h_align title_height w r c :
  fs <> [] ->
  Grid.auto_dimensions libm_pow (Z.of_nat (length fs)) rows cols = Ok (r, c) ->
  1 <= r < 2 ^ 53 -> 1 <= c < 2 ^ 53 ->
  geometry_readable x y width height ->
  exists g : Grid,
    Grid.autogrid parent_add_text libm_pow parent fs rows cols x y width height padding
      h_align None title_height w
    = Ok (g, (run_thunks (take (Z.to_nat (r * c)) fs) w).2) /\
    g = Grid.mk parent x y width height r c padding h_align (Grid.cells g) /\
    forall row col, 0 <= row < r -> 0 <= col < c ->
      exists cell,
        Grid.get_cell g row col = Ok cell /\
        GridCell.content cell
        = (run_thunks (take (Z.to_nat (r * c)) fs) w).1 !! Z.to_nat (row * c + col).
Proof.
  intros Hne Hdim Hr Hc Hgeo.
  destruct (create_cells_ok (Content := Content) r c padding Hr Hc) as [cs Hcs].
  rewrite (autogrid_unfold parent fs rows cols x y width height padding h_align
             None title_height w r c y height None cs Hne Hdim eq_refl Hcs).
  cbn [Grid.truthy mbind Result_bind].
  apply place_on_fresh; (assumption || lia).
Qed.

(** X15. [autogrid] with only [cols = k] given takes
    [rows = ceil(n / k)]; with only [rows = k] given it takes
    [cols = ceil(n / k)]. In both cases, called without title on [n >= 1]
    content functions with a position and size that [add_to_cell] can
    read, it calls every function once, in order, and stores the result of
    function number [row * cols + col] in the cell [(row, col)], row after
    row; the cells left over hold nothing. *)
Theorem autogrid_with_one_dimension_given
    (parent : Parent) (fs : list Thunk) (k : Z)
    (x y width height : PositionType) (padding : float)
    (h_align : option string) (title_height : PositionType) (w : World) :
  1 <= Z.of_nat (length fs) < 2 ^ 53 ->
  1 <= k < 2 ^ 53 ->
  geometry_readable x y width height ->
  (exists g : Grid,
     Grid.autogrid parent_add_text libm_pow parent fs None (Some k) x y width height
       padding h_align None title_height w = Ok (g, (run_thunks fs w).2) /\
     Grid.cols g = k /\
     Grid.rows g = (Z.of_nat (length fs) + k - 1) / k /\
     (Grid.rows g - 1) * k < Z.of_nat (length fs) <= Grid.rows g * k /\
     forall row col, 0 <= row < Grid.rows g -> 0 <= col < k ->
       exists cell,
         Grid.get_cell g row col = Ok cell /\
         GridCell.content cell = (run_thunks fs w).1 !! Z.to_nat (row * k + col)) /\
  (exists g : Grid,
     Grid.autogrid parent_add_text libm_pow parent fs (Some k) None x y width height
       padding h_align None title_height w = Ok (g, (run_thunks fs w).2) /\
     Grid.rows g = k /\
     Grid.cols g = (Z.of_nat (length fs) + k - 1) / k /\
     (Grid.cols g - 1) * k < Z.of_nat (length fs) <= Grid.cols g * k /\
     forall row col, 0 <= row < k -> 0 <= col < Grid.cols g ->
       exists cell,
         Grid.get_cell g row col = Ok cell /\
         GridCell.content cell
         = (run_thunks fs w).1 !! Z.to_nat (row * Grid.cols g + col)).
Proof.
  intros Hn Hk Hgeo. set (n := Z.of_nat (length fs)) in Hn |- *.
  assert (fs <> []) as Hne by (intros ->; simpl in n; lia).
  destruct (ceil_div_bounds n k ltac:(lia) ltac:(lia)) as [Hq Hceil].
  set (q := (n + k - 1) / k) in Hq, Hceil |- *.
  assert ((k =? 0)%Z = false) as Hk0 by lia.
  split.
  - destruct (autogrid_without_title parent fs None (Some k) x y width height
                padding h_align title_height w q k Hne) as (g & Hauto & Hg & Hcells);
      [unfold Grid.auto_dimensions, floordiv; fold n; rewrite Hk0; reflexivity
      |lia|lia|exact Hgeo|].
    rewrite take_ge in Hauto, Hcells by lia.
    exists g. split; [exact Hauto|].
    assert (Grid.rows g = q /\ Grid.cols g = k) as [-> ->]
      by (rewrite Hg; split; reflexivity).
    split; [reflexivity|]. split; [reflexivity|]. split; [exact Hceil|exact Hcells].
  - destruct (autogrid_without_title parent fs (Some k) None x y width height
                padding h_align title_height w k q Hne) as (g & Hauto & Hg & Hcells);
      [unfold Grid.auto_dimensions, floordiv; fold n; rewrite Hk0; reflexivity
      |lia|lia|exact Hgeo|].
    rewrite take_ge in Hauto, Hcells by lia.
    exists g. split; [exact Hauto|].
    assert (Grid.rows g = k /\ Grid.cols g = q) as [-> ->]
      by (rewrite Hg; split; reflexivity).
    split; [reflexivity|]. split; [reflexivity|]. split; [exact Hceil|exact Hcells].
Qed.

(** X16. [autogrid] with both [rows = r] and [cols = c] given makes a
    grid of [r] by [c] cells and fills it row after row with the results
    of the first [r * c] content functions. When there are more
    functions than cells, the functions after the first [r * c] are never
    called and nothing is raised. *)
Theorem autogrid_drops_the_functions_in_excess
    (parent : Parent) (fs : list Thunk) (r c : Z)
    (x y width height : PositionType) (padding : float)
    (h_align : option string) (title_height : PositionType) (w : World) :
  fs <> [] ->
  1 <= r < 2 ^ 53 -> 1 <= c < 2 ^ 53 ->
  geometry_readable x y width height ->
  exists g : Grid,
    Grid.autogrid parent_add_text libm_pow parent fs (Some r) (Some c) x y width height
      padding h_align None title_height w
    = Ok (g, (run_thunks (take (Z.to_nat (r * c)) fs) w).2) /\
    Grid.rows g = r /\ Grid.cols g = c /\
    forall row col, 0 <= row < r -> 0 <= col < c ->
      exists cell,
        Grid.get_cell g row col = Ok cell /\
        GridCell.content cell
        = (run_thunks (take (Z.to_nat (r * c)) fs) w).1 !! Z.to_nat (row * c + col).
Proof.
  intros Hne Hr Hc Hgeo.
  destruct (autogrid_without_title parent fs (Some r) (Some c) x y width height
              padding h_align title_height w r c Hne eq_refl Hr Hc Hgeo)
    as (g & Hauto & Hg & Hcells).
  exists g. split; [exact Hauto|].
  split; [rewrite Hg; reflexivity|]. split; [rewrite Hg; reflexivity|exact Hcells].
Qed.

(** X17. [autogrid] with a title and a vertical position that is not a
    percentage text (an absolute number, or a text without a final
    percent sign) raises [UnboundLocalError] once the grid is created:
    [title_y] is only bound for a percentage. This is so whatever
    [parent.add_text] and the content functions are. *)
Theorem autogrid_title_needs_a_percent_y
    (parent : Parent) (fs : list Thunk) (rows cols : option Z) (r c : Z)
    (x y width height : PositionType) (padding : float)
    (h_align : option string) (title : option string)
    (title_height : PositionType) (w : World) :
  fs <> [] ->
  Grid.auto_dimensions libm_pow (Z.of_nat (length fs)) rows cols = Ok (r, c) ->
  1 <= r < 2 ^ 53 -> 1 <= c < 2 ^ 53 ->
  Grid.truthy title = true ->
  Grid.is_percent_text y = None ->
  Grid.autogrid parent_add_text libm_pow parent fs rows cols x y width height padding
    h_align title title_height w = Raise UnboundLocalError.
Proof.
  intros Hne Hdim Hr Hc Htitle Hy.
  destruct (create_cells_ok (Content := Content) r c padding Hr Hc) as [cs Hcs].
  rewrite (autogrid_unfold parent fs rows cols x y width height padding h_align
             title title_height w r c y height None cs Hne Hdim).
  - rewrite Htitle. destruct title; reflexivity.
  - unfold Grid.title_band. rewrite Htitle, Hy. reflexivity.
  - exact Hcs.
Qed.

(** X18. [autogrid] with a title, [y = ys] and [height = hs] both
    percentages: the title is drawn first, by one call of
    [parent.add_text] at [x], at [ys] printed with two decimals, with the
    width of the grid and the height [title_height]; an exception of that
    call is the exception of [autogrid]. The grid is placed under the
    title, at [y = ys + title_height] and with
    [height = hs - title_height], both printed with two decimals; then
    the content functions are called and stored as without title. *)
Theorem autogrid_puts_the_grid_under_its_title
    (parent : Parent) (fs : list Thunk) (rows cols : option Z) (r c : Z)
    (x width title_height : PositionType) (ys hs text : string)
    (yp hp thp : float) (padding : float) (h_align : option string) (w : World) :
  fs <> [] ->
  Grid.auto_dimensions libm_pow (Z.of_nat (length fs)) rows cols = Ok (r, c) ->
  1 <= r < 2 ^ 53 -> 1 <= c < 2 ^ 53 ->
  text <> "" ->
  endswith_percent ys = true -> Grid.percent_of ys = Ok yp ->
  endswith_percent hs = true -> Grid.percent_of hs = Ok hp ->
  Grid.title_height_percent title_height = Ok thp ->
  is_ok (Grid.origin_percent x f10) = true ->
  is_ok (Grid.size_percent width) = true ->
  (forall e,
     parent_add_text parent text x (PosStr (format_pct yp)) width title_height
       h_align w = Raise e ->
     Grid.autogrid parent_add_text libm_pow parent fs rows cols x (PosStr ys) width
       (PosStr hs) padding h_align (Some text) title_height w = Raise e) /\
  (forall v w1,
     parent_add_text parent text x (PosStr (format_pct yp)) width title_height
       h_align w = Ok (v, w1) ->
     exists g : Grid,
       Grid.autogrid parent_add_text libm_pow parent fs rows cols x (PosStr ys) width
         (PosStr hs) padding h_align (Some text) title_height w
       = Ok (g, (run_thunks (take (Z.to_nat (r * c)) fs) w1).2) /\
       (Grid.x g = x /\ Grid.width g = width /\
        Grid.y g = PosStr (format_pct (add yp thp)) /\
        Grid.height g = PosStr (format_pct (sub hp thp)) /\
        Grid.rows g = r /\ Grid.cols g = c) /\
       forall row col, 0 <= row < r -> 0 <= col < c ->
         exists cell,
           Grid.get_cell g row col = Ok cell /\
           GridCell.content cell
           = (run_thunks (take (Z.to_nat (r * c)) fs) w1).1
               !! Z.to_nat (row * c + col)).
Proof.
  intros Hne Hdim Hr Hc Htext Hys Hyp Hhs Hhp Hth Hx Hw.
  destruct (create_cells_ok (Content := Content) r c padding Hr Hc) as [cs Hcs].
  assert (Grid.truthy (Some text) = true) as Htruthy
    by (destruct text; [congruence|reflexivity]).
  assert (Grid.title_band (Some text) (PosStr ys) (PosStr hs) title_height
          = Ok (PosStr (format_pct (add yp thp)),
                PosStr (format_pct (sub hp thp)),
                Some (PosStr (format_pct yp)))) as Hband.
  { unfold Grid.title_band. rewrite Htruthy. cbn [Grid.is_percent_text].
    rewrite Hys, Hhs, Hyp, Hth. cbn [mbind Result_bind]. rewrite Hhp. reflexivity. }
  pose proof (autogrid_unfold parent fs rows cols x (PosStr ys) width (PosStr hs)
                padding h_align (Some text) title_height w r c _ _ _ cs
                Hne Hdim Hband Hcs) as Hauto.
  rewrite Htruthy in Hauto.
  split.
  - intros e He. rewrite Hauto, He. reflexivity.
  - intros v w1 Hv. rewrite Hauto, Hv. cbn [mbind Result_bind].
    destruct (place_on_fresh parent fs x (PosStr (format_pct (add yp thp))) width
                (PosStr (format_pct (sub hp thp))) r c padding h_align cs w1 Hcs)
      as (g & Hplace & Hg & Hcells); [lia|lia| |].
    { pose proof (format_pct_readable (add yp thp)) as (_ & ? & _).
      pose proof (format_pct_readable (sub hp thp)) as (_ & _ & ?).
      unfold geometry_readable. auto. }
    exists g. split; [exact Hplace|]. split; [|exact Hcells].
    rewrite Hg. repeat split.
Qed.

(** X19. [autogrid_pyplot] draws every figure with
    [x="10%", y="10%", width="80%", height="80%"]: [autogrid] calls a
    content function without argument, so the position of the cell, which
    [add_to_cell] computes, never reaches [parent.add_image]. Called
    without title, it draws the figures in order, one call of
    [parent.add_image] for each cell filled, and stores what the call
    returned in the cell. *)
Theorem autogrid_pyplot_draws_every_figure_at_the_defaults
    (parent : Parent) (paths : list string) (rows cols : option Z) (r c : Z)
    (x y width height : PositionType) (padding : float)
    (h_align : option string) (title_height : PositionType) (w : World) :
  paths <> [] ->
  Grid.auto_dimensions libm_pow (Z.of_nat (length paths)) rows cols = Ok (r, c) ->
  1 <= r < 2 ^ 53 -> 1 <= c < 2 ^ 53 ->
  geometry_readable x y width height ->
  exists g : Grid,
    Grid.autogrid_pyplot parent_add_text libm_pow parent_add_image parent paths rows cols
      x y width height padding h_align None title_height w
    = Ok (g, (run_thunks (draw_figure parent_add_image parent <$> take (Z.to_nat (r * c)) paths) w).2) /\
    Grid.rows g = r /\ Grid.cols g = c /\
    forall row col, 0 <= row < r -> 0 <= col < c ->
      exists cell,
        Grid.get_cell g row col = Ok cell /\
        GridCell.content cell
        = (run_thunks (draw_figure parent_add_image parent <$> take (Z.to_nat (r * c)) paths) w).1
            !! Z.to_nat (row * c + col).
Proof.
  intros Hne Hdim Hr Hc Hgeo. unfold Grid.autogrid_pyplot.
  rewrite map_map.
  assert (map (fun path => Grid.add_image_func parent_add_image parent path ∅) paths
          = draw_figure parent_add_image parent <$> paths) as ->.
  { apply map_ext. intros path. unfold Grid.add_image_func, Grid.kwargs_get, Kwargs.
    rewrite !lookup_empty. reflexivity. }
  destruct (autogrid_without_title parent (draw_figure parent_add_image parent <$> paths) rows cols
              x y width height padding h_align title_height w r c)
    as (g & Hauto & Hg & Hcells); try assumption.
  { destruct paths; [congruence|discriminate]. }
  { rewrite length_fmap. exact Hdim. }
  rewrite <- fmap_take in Hauto, Hcells.
  exists g. split; [exact Hauto|].
  split; [rewrite Hg; reflexivity|]. split; [rewrite Hg; reflexivity|exact Hcells].
Qed.

End AutoLayout.

(** ** [add_multiple_objects] *)

Section Objects.
Import PyStr Py Slide Float64 SlideLayout SlideLayoutSpec.
Local Open Scope float64_scope.

(** An object of a known type is drawn when its position and size can be
    brought to EMU, and only then. *)
Lemma draw_known self d k x y w h prev :
  kind_of d = Some k ->
  match emu_geometry x y w h with
  | Ok g => draw self d x y w h prev = Ok (mkDrawn k g)
  | Raise _ => is_ok (draw self d x y w h prev) = false
  end.
Proof.
  unfold kind_of, draw, emu_geometry, add_text, add_image, add_shape,
    image_h_align, shape_h_align, convert_optional, _convert_position.
  intros H. cbn [mbind Result_bind].
  destruct (Inches x) as [ex|], (Inches y) as [ey|], (Inches w) as [ew|],
    (Inches h) as [eh|]; cbn [mbind Result_bind];
    (destruct (bool_decide _); [injection H as <-; reflexivity|]);
    (destruct (bool_decide _); [injection H as <-; reflexivity|]);
    (destruct (bool_decide _); [injection H as <-; reflexivity|discriminate]).
Qed.

Lemma draw_unknown self d x y w h prev :
  kind_of d = None ->
  draw self d x y w h prev
  = match prev with Some obj => Ok obj | None => Raise UnboundLocalError end.
Proof.
  unfold kind_of, draw. intros H.
  destruct (bool_decide _); [discriminate|].
  destruct (bool_decide _); [discriminate|].
  destruct (bool_decide _); [discriminate|reflexivity].
Qed.

Lemma object_origin_small container cell padding index :
  0 <= index < 2 ^ 53 ->
  object_origin container cell padding index
  = Ok (cell_origin container cell padding index).
Proof.
  intros Hi. unfold object_origin, mul_int_float, truediv_float_int.
  destruct (float_of_int_small index Hi) as [-> _]. cbn [mbind Result_bind].
  change (float_of_int 2) with (Ok f2). cbn [mbind Result_bind].
  unfold truediv. change (is_zero f2) with false. reflexivity.
Qed.

Section Loop.
Variable self : Slide.t.
Variables cx cy cell_width cell_height padding : float.
Variable cols : Z.
Hypothesis Hcols : 1 <= cols.

Lemma place_objects_spec : forall (objs : list Kwargs) (created : list Drawn),
  Z.of_nat (length created) + Z.of_nat (length objs) < 2 ^ 53 ->
  (created = [] -> forall d, head objs = Some d -> kind_of d <> None) ->
  (forall j d k, objs !! j = Some d -> kind_of d = Some k ->
     is_ok (object_at cx cy cell_width cell_height padding cols k
              (Z.of_nat (length created + j))) = true) ->
  exists out,
    place_objects self cx cy cell_width cell_height
      (cell_width * (f1 - padding)) (cell_height * (f1 - padding)) padding
      cols objs (Z.of_nat (length created)) (last created) created
    = Ok (created ++ out)%list /\
    length out = length objs /\
    forall j d, objs !! j = Some d ->
      match kind_of d with
      | Some k =>
          exists o,
            object_at cx cy cell_width cell_height padding cols k
              (Z.of_nat (length created + j)) = Ok o /\
            out !! j = Some o
      | None =>
          (0 < length created + j)%nat /\
          (created ++ out)%list !! (length created + j)%nat
          = (created ++ out)%list !! (length created + j - 1)%nat
      end.
Proof.
  induction objs as [|d objs IH]; intros created Hlen Hhead Hconv.
  - exists []. rewrite app_nil_r. split; [reflexivity|]. split; [reflexivity|].
    intros j d Hj. discriminate.
  - cbn [place_objects]. simpl length in Hlen.
    pose proof (Hconv 0%nat d) as Hconv0. rewrite Nat.add_0_r in Hconv0.
    set (i := Z.of_nat (length created)) in *.
    unfold mod_int, floordiv. assert ((cols =? 0)%Z = false) as -> by lia.
    cbn [mbind Result_bind].
    assert (0 <= i mod cols <= i) as Hmod.
    { split; [apply Z.mod_pos_bound; lia|apply Z.mod_le; lia]. }
    assert (0 <= i / cols <= i) as Hdiv.
    { split; [apply Z.div_pos; lia|]. apply Z.div_le_upper_bound; nia. }
    rewrite !object_origin_small by lia. cbn [mbind Result_bind].
    assert (exists o,
      draw self d (cell_origin cx cell_width padding (i mod cols))
        (cell_origin cy cell_height padding (i / cols))
        (cell_width * (f1 - padding)) (cell_height * (f1 - padding))
        (last created) = Ok o /\
      match kind_of d with
      | Some k => object_at cx cy cell_width cell_height padding cols k i = Ok o
      | None => (0 < length created)%nat /\ last created = Some o
      end) as (o & -> & Ho).
    { destruct (kind_of d) as [k|] eqn:Hk.
      - specialize (Hconv0 k eq_refl eq_refl). fold i in Hconv0.
        pose proof (draw_known self d k
                      (cell_origin cx cell_width padding (i mod cols))
                      (cell_origin cy cell_height padding (i / cols))
                      (cell_width * (f1 - padding)) (cell_height * (f1 - padding))
                      (last created) Hk) as Hdraw.
        unfold object_at in Hconv0 |- *.
        destruct (emu_geometry _ _ _ _) as [g|]; [|discriminate].
        exists (mkDrawn k g). split; [exact Hdraw|reflexivity].
      - rewrite draw_unknown by exact Hk.
        destruct created as [|c0 created'] eqn:Hc.
        + exfalso. apply (Hhead eq_refl d); [reflexivity|exact Hk].
        + rewrite <- Hc. destruct (last created) as [o|] eqn:Hlast.
          * exists o. split; [reflexivity|]. subst created. simpl. split; [lia|reflexivity].
          * apply last_None in Hlast. congruence. }
    cbn [mbind Result_bind].
    replace (i + 1)%Z with (Z.of_nat (length (created ++ [o])%list))
      by (rewrite length_app; simpl length; lia).
    replace (Some o) with (last (created ++ [o])%list) by apply last_snoc.
    destruct (IH (created ++ [o])%list) as (out & Hplace & Hout & Hall).
    { rewrite length_app. simpl length. lia. }
    { intros Hnil. destruct created; discriminate. }
    { intros j d' k Hj Hk. rewrite length_app. simpl length.
      replace (length created + 1 + j)%nat with (length created + S j)%nat by lia.
      apply (Hconv (S j) d' k Hj Hk). }
    exists (o :: out). rewrite Hplace. rewrite <- app_assoc.
    split; [reflexivity|]. split; [simpl; now rewrite Hout|].
    intros [|j] d' Hj.
    + injection Hj as <-. rewrite Nat.add_0_r.
      destruct (kind_of d) as [k|].
      * exists o. split; [exact Ho|reflexivity].
      * destruct Ho as [Hpos Hlast]. split; [exact Hpos|].
        rewrite lookup_app_r by lia. rewrite Nat.sub_diag.
        change ((o :: out) !! 0%nat) with (Some o).
        rewrite lookup_app_l by lia.
        rewrite last_lookup in Hlast. rewrite <- Hlast. f_equal. lia.
    + specialize (Hall j d' Hj). rewrite length_app in Hall. simpl length in Hall.
      destruct (kind_of d') as [k|].
      * destruct Hall as (o' & Hat & Hout').
        exists o'. split; [|exact Hout'].
        rewrite <- Hat. do 2 f_equal. lia.
      * destruct Hall as [Hpos Hsame]. split; [lia|].
        rewrite <- app_assoc in Hsame. cbn [app] in Hsame.
        replace (length created + S j)%nat with (length created + 1 + j)%nat by lia.
        exact Hsame.
Qed.

(** The loop raises when it comes to an item of a known type whose
    position or size cannot be brought to EMU. *)
Lemma place_objects_raises : forall (objs : list Kwargs) (i : Z) prev created j d k,
  0 <= i -> i + Z.of_nat (length objs) < 2 ^ 53 ->
  objs !! j = Some d -> kind_of d = Some k ->
  is_ok (object_at cx cy cell_width cell_height padding cols k
           (i + Z.of_nat j)) = false ->
  is_ok (place_objects self cx cy cell_width cell_height
           (cell_width * (f1 - padding)) (cell_height * (f1 - padding)) padding
           cols objs i prev created) = false.
Proof.
  induction objs as [|d0 objs IH]; intros i prev created j d k Hi Hlen Hj Hk Hbad;
    [discriminate|].
  cbn [place_objects]. simpl length in Hlen.
  unfold mod_int, floordiv. assert ((cols =? 0)%Z = false) as -> by lia.
  cbn [mbind Result_bind].
  assert (0 <= i mod cols <= i) as Hmod.
  { split; [apply Z.mod_pos_bound; lia|apply Z.mod_le; lia]. }
  assert (0 <= i / cols <= i) as Hdiv.
  { split; [apply Z.div_pos; lia|]. apply Z.div_le_upper_bound; nia. }
  rewrite !object_origin_small by lia. cbn [mbind Result_bind].
  destruct j as [|j].
  - injection Hj as ->. rewrite Z.add_0_r in Hbad.
    pose proof (draw_known self d k
                  (cell_origin cx cell_width padding (i mod cols))
                  (cell_origin cy cell_height padding (i / cols))
                  (cell_width * (f1 - padding)) (cell_height * (f1 - padding))
                  prev Hk) as Hdraw.
    unfold object_at in Hbad.
    destruct (emu_geometry _ _ _ _) as [g|]; [discriminate|].
    destruct (draw _ _ _ _ _ _ _); [discriminate|reflexivity].
  - destruct (draw _ _ _ _ _ _ _) as [o|]; [|reflexivity].
    cbn [mbind Result_bind].
    apply (IH (i + 1)%Z (Some o) _ j d k); try lia; try assumption.
    replace (i + 1 + Z.of_nat j)%Z with (i + Z.of_nat (S j))%Z by lia. exact Hbad.
Qed.

End Loop.


Lemma truediv_100 x : truediv x f100 = Ok (div x f100).
Proof. reflexivity. Qed.

Lemma truediv_float_int_small x b :
  1 <= b < 2 ^ 53 -> truediv_float_int x b = Ok (div x (of_Z b)).
Proof.
  intros Hb. unfold truediv_float_int.
  destruct (float_of_int_small b ltac:(lia)) as [-> _]. cbn [mbind Result_bind].
  unfold truediv. rewrite of_Z_pos_nonzero by lia. reflexivity.
Qed.

(** X20. [add_multiple_objects] with an empty list of objects never
    returns: when the container's position and size convert, it raises
    [ZeroDivisionError], whatever the layout (in a grid layout from
    [0 / 0], in a horizontal layout from the width divided by zero
    columns, in a vertical layout from the height divided by zero
    rows). *)
Theorem add_multiple_objects_of_an_empty_list (self : Slide.t) (layout : string)
    (padding_percent : float) (start_x start_y width height : PositionType) :
  is_ok (add_multiple_objects self [] layout padding_percent
           start_x start_y width height) = false /\
  (is_ok (_convert_position self start_x (_slide_width self) true None) = true ->
   is_ok (_convert_position self start_y (_slide_height self) true None) = true ->
   is_ok (_convert_position self width (_slide_width self) true None) = true ->
   is_ok (_convert_position self height (_slide_height self) true None) = true ->
   add_multiple_objects self [] layout padding_percent start_x start_y width height
   = Raise ZeroDivisionError).
Proof.
  unfold add_multiple_objects.
  destruct (_convert_position self start_x _ true None) as [cx|e1];
    [|split; [reflexivity|discriminate]].
  destruct (_convert_position self start_y _ true None) as [cy|e2];
    [|split; [reflexivity|intros _; discriminate]].
  destruct (_convert_position self width _ true None) as [cw|e3];
    [|split; [reflexivity|intros _ _; discriminate]].
  destruct (_convert_position self height _ true None) as [ch|e4];
    [|split; [reflexivity|intros _ _ _; discriminate]].
  cbn [mbind Result_bind]. rewrite truediv_100. cbn [mbind Result_bind].
  assert (('(cols, rows) ← layout_dimensions layout (Z.of_nat (length (@nil Kwargs)));
           cell_width ← truediv_float_int cw cols;
           cell_height ← truediv_float_int ch rows;
           place_objects self cx cy cell_width cell_height
             (cell_width * (f1 - div padding_percent f100))
             (cell_height * (f1 - div padding_percent f100))
             (div padding_percent f100) cols [] 0 None [])
          = Raise ZeroDivisionError) as ->; [|split; reflexivity].
  unfold layout_dimensions. simpl length.
  destruct (String.eqb layout "horizontal"); [reflexivity|].
  destruct (String.eqb layout "vertical"); [|reflexivity].
  cbn [mbind Result_bind].
  rewrite (truediv_float_int_small cw 1) by (split; [lia|reflexivity]).
  reflexivity.
Qed.

(** X21. [add_multiple_objects] in a layout of [cols] columns and [rows]
    rows gives the item of index [i] the cell in column [i mod cols] of
    row [i / cols]: an item of a known type is drawn at
    [container + index * cell + cell * padding / 2] on each axis, with the
    size of a cell less the padding, unchanged by alignment, each length
    brought to EMU by [Inches]. When the first item has a known type and
    these lengths of every item of a known type can be brought to EMU
    (none is NaN or infinite once multiplied by 914400), the call returns
    one object for each item; an item of unknown type draws nothing, the
    object returned for it is the object of the item before. When a
    length of some item of a known type cannot be brought to EMU, the
    call raises. *)
Theorem add_multiple_objects_lays_out_by_index (self : Slide.t)
    (objects_data : list Kwargs) (layout : string) (padding_percent : float)
    (start_x start_y width height : PositionType) (cx cy cw ch : float)
    (cols rows : Z) :
  _convert_position self start_x (_slide_width self) true None = Ok cx ->
  _convert_position self start_y (_slide_height self) true None = Ok cy ->
  _convert_position self width (_slide_width self) true None = Ok cw ->
  _convert_position self height (_slide_height self) true None = Ok ch ->
  layout_dimensions layout (Z.of_nat (length objects_data)) = Ok (cols, rows) ->
  1 <= cols < 2 ^ 53 -> 1 <= rows < 2 ^ 53 ->
  Z.of_nat (length objects_data) < 2 ^ 53 ->
  ((forall d, head objects_data = Some d -> kind_of d <> None) ->
   (forall j d k, objects_data !! j = Some d -> kind_of d = Some k ->
      is_ok (object_at cx cy (div cw (of_Z cols)) (div ch (of_Z rows))
               (div padding_percent f100) cols k (Z.of_nat j)) = true) ->
   exists created,
     add_multiple_objects self objects_data layout padding_percent
       start_x start_y width height = Ok created /\
     length created = length objects_data /\
     forall j d, objects_data !! j = Some d ->
       match kind_of d with
       | Some k =>
           exists o,
             object_at cx cy (div cw (of_Z cols)) (div ch (of_Z rows))
               (div padding_percent f100) cols k (Z.of_nat j) = Ok o /\
             created !! j = Some o
       | None => (0 < j)%nat /\ created !! j = created !! (j - 1)%nat
       end) /\
  (forall j d k, objects_data !! j = Some d -> kind_of d = Some k ->
     is_ok (object_at cx cy (div cw (of_Z cols)) (div ch (of_Z rows))
              (div padding_percent f100) cols k (Z.of_nat j)) = false ->
     is_ok (add_multiple_objects self objects_data layout padding_percent
              start_x start_y width height) = false).
Proof.
  intros Hx Hy Hw Hh Hdim Hcols Hrows Hlen. unfold add_multiple_objects.
  rewrite Hx, Hy, Hw, Hh. cbn [mbind Result_bind].
  rewrite truediv_100. cbn [mbind Result_bind]. rewrite Hdim.
  cbn [mbind Result_bind]. rewrite !truediv_float_int_small by lia.
  cbn [mbind Result_bind]. split.
  - intros Hhead Hconv.
    destruct (place_objects_spec self cx cy (div cw (of_Z cols)) (div ch (of_Z rows))
                (div padding_percent f100) cols ltac:(lia) objects_data [])
      as (out & Hplace & Hout & Hall).
    { simpl length. lia. }
    { intros _. exact Hhead. }
    { intros j d k Hj Hk. cbn [length Nat.add]. exact (Hconv j d k Hj Hk). }
    cbn [length last app] in Hplace, Hall. change (Z.of_nat 0) with 0 in Hplace.
    exists out. split; [exact Hplace|]. split; [exact Hout|].
    intros j d Hj. specialize (Hall j d Hj). cbn [Nat.add] in Hall.
    exact Hall.
  - intros j d k Hj Hk Hbad.
    apply (place_objects_raises self cx cy (div cw (of_Z cols)) (div ch (of_Z rows))
             (div padding_percent f100) cols ltac:(lia) objects_data 0 None [] j d k);
      try assumption; try lia.
Qed.

(** X22. [add_multiple_objects] on a list whose first item has a type
    other than ["text"], ["image"] and ["shape"] raises
    [UnboundLocalError]: no branch binds [obj] before it is appended. *)
Theorem add_multiple_objects_of_an_unknown_first_type (self : Slide.t)
    (d : Kwargs) (rest : list Kwargs) (layout : string) (padding_percent : float)
    (start_x start_y width height : PositionType) (cols rows : Z) :
  is_ok (_convert_position self start_x (_slide_width self) true None) = true ->
  is_ok (_convert_position self start_y (_slide_height self) true None) = true ->
  is_ok (_convert_position self width (_slide_width self) true None) = true ->
  is_ok (_convert_position self height (_slide_height self) true None) = true ->
  layout_dimensions layout (Z.of_nat (length (d :: rest))) = Ok (cols, rows) ->
  1 <= cols < 2 ^ 53 -> 1 <= rows < 2 ^ 53 ->
  kind_of d = None ->
  add_multiple_objects self (d :: rest) layout padding_percent
    start_x start_y width height = Raise UnboundLocalError.
Proof.
  intros [cx Hx]%is_ok_true [cy Hy]%is_ok_true [cw Hw]%is_ok_true [ch Hh]%is_ok_true
    Hdim Hcols Hrows Hk.
  unfold add_multiple_objects.
  rewrite Hx, Hy, Hw, Hh. cbn [mbind Result_bind].
  rewrite truediv_100. cbn [mbind Result_bind]. rewrite Hdim.
  cbn [mbind Result_bind]. rewrite !truediv_float_int_small by lia.
  cbn [mbind Result_bind place_objects].
  unfold mod_int, floordiv. assert ((cols =? 0)%Z = false) as -> by lia.
  cbn [mbind Result_bind]. rewrite Z.mod_0_l, Z.div_0_l by lia.
  rewrite !object_origin_small by lia. cbn [mbind Result_bind].
  rewrite draw_unknown by exact Hk. reflexivity.
Qed.

End Objects.

(** ** [Table.add] and the default slide *)

Section TableAndSlide.
Import PyStr Py Slide Float64.
Local Open Scope float64_scope.

(** X23. [Table.add] raises [ValueError] on empty data and on data with a
    row whose length differs from that of the first row, before it looks
    at the position. On rectangular data, with an absolute position and no
    size, it brings to EMU, in this order, the position, the width
    [cols * 2.0] inches and the height [rows * 0.5] inches: it asks for a
    table of these measures when [Inches] accepts the four lengths, and
    raises the error of the first length that [Inches] refuses
    otherwise, [ValueError] for a NaN. *)
Theorem table_add_checks_the_shape_of_the_data {A} (self : Table.t)
    (data : list (list A)) (x y : PositionType)
    (width height : option PositionType) :
  (data = [] -> Table.add self data x y width height = Raise ValueError) /\
  (forall first rest row,
     data = first :: rest -> row ∈ data -> length row <> length first ->
     Table.add self data x y width height = Raise ValueError) /\
  (forall first rest fx fy,
     data = first :: rest ->
     (forall row, row ∈ data -> length row = length first) ->
     Z.of_nat (length data) < 2 ^ 53 -> Z.of_nat (length first) < 2 ^ 53 ->
     Table.add self data (PosFloat fx) (PosFloat fy) None None
     = (left ← Inches fx;
        top ← Inches fy;
        w ← Inches (of_Z (Z.of_nat (length first)) * f2);
        h ← Inches (of_Z (Z.of_nat (length data)) * f0_5);
        Ok (Z.of_nat (length data), Z.of_nat (length first),
            mkGeometry left top (Some w) (Some h))) /\
     (fx = S754_nan ->
      Table.add self data (PosFloat fx) (PosFloat fy) None None
      = Raise ValueError)).
Proof.
  split; [intros ->; reflexivity|]. split.
  - intros first rest row -> Hin Hlen. unfold Table.add.
    rewrite (for_each_Raise _ (first :: rest) ValueError); [reflexivity| |].
    + intros r _. destruct (Z.of_nat (length r) =? _)%Z; auto.
    + exists row. split; [exact Hin|].
      destruct (Z.eqb_spec (Z.of_nat (length row)) (Z.of_nat (length first)));
        [lia|reflexivity].
  - intros first rest fx fy -> Hall Hrows Hcols.
    assert (Table.add self (first :: rest) (PosFloat fx) (PosFloat fy) None None
            = (left ← Inches fx;
               top ← Inches fy;
               w ← Inches (of_Z (Z.of_nat (length first)) * f2);
               h ← Inches (of_Z (Z.of_nat (length (first :: rest))) * f0_5);
               Ok (Z.of_nat (length (first :: rest)), Z.of_nat (length first),
                   mkGeometry left top (Some w) (Some h)))) as Heq.
    { unfold Table.add. rewrite for_each_Ok.
      + cbn [mbind Result_bind _convert_position]. unfold mul_int_float.
        destruct (float_of_int_small (Z.of_nat (length first)) ltac:(lia)) as [-> _].
        destruct (float_of_int_small (Z.of_nat (length (first :: rest))) ltac:(lia))
          as [-> _].
        reflexivity.
      + intros r Hr. rewrite (Hall r Hr), Z.eqb_refl. reflexivity. }
    split; [exact Heq|]. intros ->. rewrite Heq. reflexivity.
Qed.

(** X24. A [Slide] built on an object that exposes no dimension, neither
    its own nor the presentation's, is 9144000 by 6858000 EMU, 10 by 7.5
    inches. This is 4:3, so that on such a slide every centred horizontal
    percentage is the uncorrected value times 0.875. *)
Theorem slide_without_dimensions_is_4_by_3 (pptx : PPTXSlide) (text : string)
    (percent : float) (slide_dimension : Z) :
  slide_width pptx = None -> slide_height pptx = None ->
  presentation pptx ≫= presentation_slide_width = None ->
  presentation pptx ≫= presentation_slide_height = None ->
  cached (init pptx) = Slide.mk 9144000 6858000 /\
  (endswith_percent text = true ->
   float_of_str (strip_percent text) = Ok percent ->
   _convert_position (cached (init pptx)) (PosStr text) slide_dimension true
     (Some "center")
   = (base ← _convert_position (cached (init pptx)) (PosStr text) slide_dimension
               true None;
      Ok (base * of_decimal false 875 (-3)))).
Proof.
  intros Hw Hh Hpw Hph.
  assert (cached (init pptx) = Slide.mk 9144000 6858000) as ->.
  { unfold init, _get_slide_width, _get_slide_height. cbn [cached].
    rewrite Hw, Hh. destruct (presentation pptx) as [p|]; [|reflexivity].
    cbn [mbind option_bind] in Hpw, Hph. simpl in Hpw, Hph.
    rewrite Hpw, Hph. reflexivity. }
  split; [reflexivity|]. intros Hend Hparse.
  unfold _convert_position. rewrite Hend, Hparse. cbn [mbind Result_bind].
  change (is_center (Some "center") && true) with true.
  change (is_center None && true) with false. cbv iota.
  destruct (standard_position percent slide_dimension) as [base|e];
    cbn [mbind Result_bind]; [|reflexivity].
  rewrite (adjust_for_ratio_eq _ base (S754_finite false 6004799503160661 (-52)))
    by reflexivity.
  reflexivity.
Qed.

End TableAndSlide.

(** ** The properties on concrete inputs *)

(** X1 for a shape that is 60% wide on a 4:3 slide: its position is
    centred. *)
Lemma add_shape_centres_wide_shapes_witness :
  (String.length (Py.decimal_of_N 60) <= 4300)%nat /\
  Slide.add_shape Scenario.standard (PosStr "20%") (PosStr "10%")
    (PosStr "60%") (PosStr "10%") None
  = Slide.add_shape Scenario.standard (PosStr "20%") (PosStr "10%")
      (PosStr "60%") (PosStr "10%") (Some "center").
Proof.
  assert ((String.length (Py.decimal_of_N 60) <= 4300)%nat) as Hlen
    by (apply Nat.leb_le; reflexivity).
  split; [exact Hlen|].
  exact (proj1 (add_shape_centres_wide_shapes Scenario.standard
                  (PosStr "20%") (PosStr "10%") (PosStr "10%") 60) Hlen).
Defined.

(** X2 for an image at 25% on a 4:3 slide: its position is centred. *)
Lemma add_image_centres_images_right_of_20_percent_witness :
  (String.length (Py.decimal_of_N 25) <= 4300)%nat /\
  Slide.add_image Scenario.standard (PosStr "25%") (PosStr "10%") None None None
  = Slide.add_image Scenario.standard (PosStr "25%") (PosStr "10%") None None
      (Some "center").
Proof.
  assert ((String.length (Py.decimal_of_N 25) <= 4300)%nat) as Hlen
    by (apply Nat.leb_le; reflexivity).
  split; [exact Hlen|].
  exact (proj1 (add_image_centres_images_right_of_20_percent Scenario.standard
                  (PosStr "10%") None None 25) Hlen).
Defined.

(** X3 on ["50% "] and ["5%0"]: a blank after the percent sign, or a digit,
    makes the conversion fail. *)
Lemma convert_position_rejects_a_misplaced_percent_sign_witness :
  (PyStr.contains_percent "50% " = true /\ PyStr.endswith_percent "50% " = false) /\
  Slide._convert_position Scenario.standard (PosStr "50% ") 9144000 true None
  = Raise ValueError /\
  Slide._convert_position Scenario.standard (PosStr "5%0") 9144000 true
    (Some "center") = Raise ValueError.
Proof.
  split; [split; reflexivity|]. split.
  - apply convert_position_rejects_a_misplaced_percent_sign; reflexivity.
  - apply convert_position_rejects_a_misplaced_percent_sign; reflexivity.
Defined.

(** X4 with a padding of 150: the grid of two rows and three columns is
    built, and its cells are [-16.67%] wide. *)
Lemma grid_construction_succeeds_witness :
  exists (g : Grid.t unit unit) cell,
    Grid.init tt (PosStr "0%") (PosStr "0%") (PosStr "100%") (PosStr "100%")
      2 3 (Float64.of_Z 150) None = Ok g /\
    Z.of_nat (length (Grid.cells g)) = 2 /\
    (forall cells_row, cells_row ∈ Grid.cells g -> Z.of_nat (length cells_row) = 3) /\
    Grid.get_cell g 0 0 = Ok cell /\
    GridCell.x cell = "25.00%" /\ GridCell.width cell = "-16.67%".
Proof.
  assert (exists (g : Grid.t unit unit) cell,
            Grid.init tt (PosStr "0%") (PosStr "0%") (PosStr "100%") (PosStr "100%")
              2 3 (Float64.of_Z 150) None = Ok g /\
            Grid.get_cell g 0 0 = Ok cell /\
            GridCell.x cell = "25.00%" /\ GridCell.width cell = "-16.67%")
    as (g & cell & Hg & Hget & Hx & Hw).
  { eexists _, _. split; [vm_compute; reflexivity|].
    split; [vm_compute; reflexivity|]. split; reflexivity. }
  destruct (grid_construction_succeeds (Content := unit) tt
              (PosStr "0%") (PosStr "0%") (PosStr "100%") (PosStr "100%")
              2 3 (Float64.of_Z 150) None)
    as (g' & Hg' & _ & Hlen & Hrows); [split; (lia || reflexivity)..|].
  assert (g' = g) as -> by congruence.
  exists g, cell. split; [exact Hg|]. split; [exact Hlen|].
  split; [intros cells_row Hin; apply (Hrows cells_row Hin)|].
  split; [exact Hget|]. split; [exact Hx|exact Hw].
Defined.

(** X6 on a grid of two rows and three columns. *)
Lemma get_cell_of_constructed_grid_witness :
  exists g,
    Scenario.grid 2 3 Grid.default_padding = Ok g /\
    Grid.get_cell g 1 2 = Ok (GridSpec.fresh_cell 2 3 Grid.default_padding 1 2) /\
    Grid.get_cell g 2 0 = Raise OutOfBoundsError /\
    Grid.get_cell g (-1) 0 = Raise OutOfBoundsError /\
    Grid.get_cell g 0 3 = Raise OutOfBoundsError.
Proof.
  assert (exists g, Scenario.grid 2 3 Grid.default_padding = Ok g) as [g Hg]
    by (eexists; vm_compute; reflexivity).
  exists g. split; [exact Hg|].
  split; [apply (get_cell_of_constructed_grid _ _ _ _ _ _ _ _ _ _ 1 2 Hg); lia|].
  split; [apply (get_cell_of_constructed_grid _ _ _ _ _ _ _ _ _ _ 2 0 Hg); lia|].
  split; [apply (get_cell_of_constructed_grid _ _ _ _ _ _ _ _ _ _ (-1) 0 Hg); lia|].
  apply (get_cell_of_constructed_grid _ _ _ _ _ _ _ _ _ _ 0 3 Hg); lia.
Defined.

(** X7 on a grid of three rows and three columns with the default
    padding: the merge of rows 0-1 and columns 1-2 gives a cell of
    [65.00%] by [65.01%]. *)
Lemma merge_cells_on_fresh_grid_witness :
  exists g g' cell,
    Scenario.grid 3 3 Grid.default_padding = Ok g /\
    Grid.merge_cells g 0 1 0 3 = Raise OutOfBoundsError /\
    Grid.merge_cells g 2 2 0 3 = Raise OutOfBoundsError /\
    Grid.merge_cells g 1 1 0 0 = Raise CellMergeError /\
    Grid.merge_cells g 0 1 1 2 = Ok (g', cell) /\
    Grid.get_cell g' 0 1 = Ok cell /\
    (GridCell.span_rows cell = 2 /\ GridCell.span_cols cell = 2 /\
     GridCell.x cell = "34.17%" /\ GridCell.y cell = "0.83%" /\
     GridCell.width cell = "65.00%" /\ GridCell.height cell = "65.01%").
Proof.
  assert (exists g, Scenario.grid 3 3 Grid.default_padding = Ok g) as [g Hg]
    by (eexists; vm_compute; reflexivity).
  destruct (merge_cells_on_fresh_grid _ _ _ _ _ _ _ _ _ _ 0 1 0 3 Hg) as [H1 _].
  destruct (merge_cells_on_fresh_grid _ _ _ _ _ _ _ _ _ _ 2 2 0 3 Hg) as [H2 _].
  destruct (merge_cells_on_fresh_grid _ _ _ _ _ _ _ _ _ _ 1 1 0 0 Hg) as (_ & H3 & _).
  destruct (merge_cells_on_fresh_grid _ _ _ _ _ _ _ _ _ _ 0 1 1 2 Hg) as (_ & _ & H4).
  destruct H4 as (g' & cell & Hmerge & Hget & Hcell); [lia|].
  exists g, g', cell. split; [exact Hg|].
  split; [apply H1; lia|]. split; [apply H2; lia|].
  split; [apply H3; lia|]. split; [exact Hmerge|]. split; [exact Hget|].
  rewrite Hcell. split; [reflexivity|]. split; [reflexivity|].
  split; [vm_compute; reflexivity|]. split; [vm_compute; reflexivity|].
  split; vm_compute; reflexivity.
Defined.

(** X8 on the same merge: cells (0,2) and (1,1) are covered, cells (0,0)
    and (2,2) are as built. *)
Lemma merge_cells_marks_the_covered_cells_witness :
  exists g g' cell,
    Scenario.grid 3 3 Grid.default_padding = Ok g /\
    Grid.merge_cells g 0 1 1 2 = Ok (g', cell) /\
    (Grid.rows g' = 3 /\ Grid.cols g' = 3) /\
    GridCell.is_spanned cell = false /\
    Grid.get_cell g' 0 2
    = Ok (GridCell.set_is_spanned true
            (GridSpec.fresh_cell 3 3 Grid.default_padding 0 2)) /\
    Grid.get_cell g' 1 1
    = Ok (GridCell.set_is_spanned true
            (GridSpec.fresh_cell 3 3 Grid.default_padding 1 1)) /\
    Grid.get_cell g' 0 0 = Ok (GridSpec.fresh_cell 3 3 Grid.default_padding 0 0) /\
    Grid.get_cell g' 2 2 = Ok (GridSpec.fresh_cell 3 3 Grid.default_padding 2 2).
Proof.
  assert (exists g g' cell,
            Scenario.grid 3 3 Grid.default_padding = Ok g /\
            Grid.merge_cells g 0 1 1 2 = Ok (g', cell))
    as (g & g' & cell & Hg & Hmerge)
    by (eexists _, _, _; split; [vm_compute; reflexivity|vm_compute; reflexivity]).
  destruct (merge_cells_marks_the_covered_cells _ _ _ _ _ _ _ _ _ _ _ _ _ _ _ _
              Hg Hmerge) as ((Hrows & Hcols & _) & (Hspan & _) & Hothers).
  exists g, g', cell. split; [exact Hg|]. split; [exact Hmerge|].
  split; [split; assumption|]. split; [exact Hspan|].
  split; [rewrite (Hothers 0 2) by lia; reflexivity|].
  split; [rewrite (Hothers 1 1) by lia; reflexivity|].
  split; [rewrite (Hothers 0 0) by lia; reflexivity|].
  rewrite (Hothers 2 2) by lia. reflexivity.
Defined.

(** X9 on cell (0,1) of a grid of two rows and two columns placed at
    (10%, 20%) with size 80% by 50% and padding 10: the caller's
    [x="1%"] is replaced by ["52.00%"], its [font_size] is kept, the
    alignment of the grid is added. *)
Lemma add_to_cell_keywords_witness :
  exists (g g' : Grid.t unit Scenario.Held) v w' kw,
    Grid.init tt (PosStr "10%") (PosStr "20%") (PosStr "80%") (PosStr "50%")
      2 2 (Float64.of_Z 10) (Some "center") = Ok g /\
    Grid.add_to_cell g 0 1 (Scenario.draw_at 7)
      {["x" := VStr "1%"; "font_size" := VInt 12]} [] = Ok (g', v, w') /\
    Scenario.draw_at 7 kw [] = (v, w') /\
    w' = [Some (VStr "52.00%")] /\
    kw !! "x" = Some (VStr "52.00%") /\
    kw !! "y" = Some (VStr "21.25%") /\
    kw !! "width" = Some (VStr "36.00%") /\
    kw !! "height" = Some (VStr "22.50%") /\
    kw !! "h_align" = Some (VStr "center") /\
    kw !! "font_size" = Some (VInt 12).
Proof.
  assert (exists (g g' : Grid.t unit Scenario.Held) v w',
            Grid.init tt (PosStr "10%") (PosStr "20%") (PosStr "80%") (PosStr "50%")
              2 2 (Float64.of_Z 10) (Some "center") = Ok g /\
            Grid.add_to_cell g 0 1 (Scenario.draw_at 7)
              {["x" := VStr "1%"; "font_size" := VInt 12]} [] = Ok (g', v, w') /\
            w' = [Some (VStr "52.00%")] /\
            Grid.h_align g = Some "center" /\
            Grid.get_cell g 0 1
            = Ok (GridSpec.fresh_cell 2 2 (Float64.of_Z 10) 0 1) /\
            Grid.cell_geometry g (GridSpec.fresh_cell 2 2 (Float64.of_Z 10) 0 1)
            = Ok (Float64.of_Z 52, Float64.of_decimal false 2125 (-2),
                  Float64.of_Z 36, Float64.of_decimal false 225 (-1)))
    as (g & g' & v & w' & Hg & Hadd & Hw & Halign & Hget' & Hgeo').
  { eexists _, _, _, _. split; [vm_compute; reflexivity|].
    split; [vm_compute; reflexivity|]. split; [reflexivity|].
    split; [reflexivity|]. split; [vm_compute; reflexivity|].
    vm_compute. reflexivity. }
  destruct (add_to_cell_keywords _ _ _ _ _ _ _ _ _ Hadd)
    as (cell & ax & ay & aw & ah & kw & Hget & Hgeo & Hf & (Hx & Hy & Hwd & Hh) & Ha & Hrest).
  assert (cell = GridSpec.fresh_cell 2 2 (Float64.of_Z 10) 0 1) as -> by congruence.
  rewrite Hgeo' in Hgeo. injection Hgeo as <- <- <- <-.
  exists g, g', v, w', kw. split; [exact Hg|]. split; [exact Hadd|].
  split; [exact Hf|]. split; [exact Hw|].
  split; [exact Hx|]. split; [exact Hy|]. split; [exact Hwd|]. split; [exact Hh|].
  split.
  - rewrite Ha, Halign. reflexivity.
  - rewrite Hrest; [reflexivity|].
    intros H. repeat (apply elem_of_cons in H as [H|H]; [discriminate|]).
    inversion H.
Defined.

(** X10 on a grid of one row and two columns: two drawings in cell (0,1),
    one after the other; the second stays, cell (0,0) is untouched. *)
Lemma add_to_cell_stores_the_content_witness :
  exists (g g1 g2 : Grid.t unit Scenario.Held) w1 w2 c00 c01,
    Grid.init tt (PosStr "0%") (PosStr "0%") (PosStr "100%") (PosStr "100%")
      1 2 Grid.default_padding (Some "center") = Ok g /\
    Grid.add_to_cell g 0 1 (Scenario.draw_at 1) ∅ [] = Ok (g1, Scenario.Drawing 1, w1) /\
    Grid.get_cell g1 0 0 = Grid.get_cell g 0 0 /\
    Grid.add_to_cell g1 0 1 (Scenario.draw_at 2) ∅ w1 = Ok (g2, Scenario.Drawing 2, w2) /\
    Grid.get_cell g2 0 1 = Ok c01 /\
    GridCell.content c01 = Some (Scenario.Drawing 2) /\
    Grid.get_cell g2 0 0 = Ok c00 /\ GridCell.content c00 = None.
Proof.
  assert (exists (g g1 g2 : Grid.t unit Scenario.Held) w1 w2 c00,
            Grid.init tt (PosStr "0%") (PosStr "0%") (PosStr "100%") (PosStr "100%")
              1 2 Grid.default_padding (Some "center") = Ok g /\
            Grid.add_to_cell g 0 1 (Scenario.draw_at 1) ∅ []
            = Ok (g1, Scenario.Drawing 1, w1) /\
            Grid.add_to_cell g1 0 1 (Scenario.draw_at 2) ∅ w1
            = Ok (g2, Scenario.Drawing 2, w2) /\
            Grid.get_cell g 0 0 = Ok c00 /\ GridCell.content c00 = None)
    as (g & g1 & g2 & w1 & w2 & c00 & Hg & Hadd1 & Hadd2 & Hget0 & Hc0).
  { eexists _, _, _, _, _, _. split; [vm_compute; reflexivity|].
    split; [vm_compute; reflexivity|]. split; [vm_compute; reflexivity|].
    split; [vm_compute; reflexivity|]. reflexivity. }
  destruct (add_to_cell_stores_the_content _ _ _ _ _ _ _ _ _ Hadd1)
    as (_ & Hframe1 & _ & _).
  destruct (add_to_cell_stores_the_content _ _ _ _ _ _ _ _ _ Hadd2)
    as ((c & _ & Hget2) & Hframe2 & _ & _).
  exists g, g1, g2, w1, w2, c00, (GridCell.set_content (Scenario.Drawing 2) c).
  split; [exact Hg|]. split; [exact Hadd1|].
  split; [apply Hframe1; lia|]. split; [exact Hadd2|]. split; [exact Hget2|].
  split; [reflexivity|]. split; [|exact Hc0].
  rewrite Hframe2 by lia. rewrite Hframe1 by lia. exact Hget0.
Defined.

(** X11 on a grid of 8 by 5 inches at (1, 1). *)
Lemma add_to_cell_needs_a_percent_size_witness :
  exists g : Grid.t unit Scenario.Held,
    Grid.init tt (PosFloat (Float64.of_Z 1)) (PosFloat (Float64.of_Z 1))
      (PosFloat (Float64.of_Z 8)) (PosFloat (Float64.of_Z 5))
      2 2 Grid.default_padding (Some "center") = Ok g /\
    Grid.add_to_cell g 0 0 (Scenario.draw_at 1) ∅ [] = Raise AttributeError /\
    Grid.add_grid_to_cell Scenario.Nested g 1 1 2 2 Grid.default_padding None
    = Raise AttributeError.
Proof.
  assert (exists g : Grid.t unit Scenario.Held,
            Grid.init tt (PosFloat (Float64.of_Z 1)) (PosFloat (Float64.of_Z 1))
              (PosFloat (Float64.of_Z 8)) (PosFloat (Float64.of_Z 5))
              2 2 Grid.default_padding (Some "center") = Ok g) as [g Hg]
    by (eexists; vm_compute; reflexivity).
  exists g. split; [exact Hg|]. split.
  - apply (add_to_cell_needs_a_percent_size Scenario.Nested _ _ _ _ _ _ _ _ _ _
             0 0 (Scenario.draw_at 1) ∅ [] Hg); try lia; try reflexivity.
    left. eexists. reflexivity.
  - apply (add_to_cell_needs_a_percent_size (World := list (option PyVal))
             Scenario.Nested _ _ _ _ _ _ _ _ _ _
             1 1 (Scenario.draw_at 1) ∅ [] Hg); try lia; try reflexivity.
    left. eexists. reflexivity.
Defined.

(** X12 after the merge of rows 0-1 and columns 0-1 in a grid of three
    rows and three columns. *)
Lemma covered_cells_refuse_content_and_merges_witness :
  exists (g g' : Grid.t unit Scenario.Held) cell,
    Grid.init tt (PosStr "0%") (PosStr "0%") (PosStr "100%") (PosStr "100%")
      3 3 Grid.default_padding (Some "center") = Ok g /\
    Grid.merge_cells g 0 0 1 1 = Ok (g', cell) /\
    Grid.add_to_cell g' 1 1 (Scenario.draw_at 1) ∅ [] = Raise CellMergeError /\
    Grid.add_grid_to_cell Scenario.Nested g' 0 1 2 2 Grid.default_padding None
    = Raise CellMergeError /\
    Grid.merge_cells g' 1 1 2 2 = Raise CellMergeError /\
    Grid.merge_cells g' 0 1 0 2 = Raise CellMergeError.
Proof.
  assert (exists (g g' : Grid.t unit Scenario.Held) cell,
            Grid.init tt (PosStr "0%") (PosStr "0%") (PosStr "100%") (PosStr "100%")
              3 3 Grid.default_padding (Some "center") = Ok g /\
            Grid.merge_cells g 0 0 1 1 = Ok (g', cell))
    as (g & g' & cell & Hg & Hmerge)
    by (eexists _, _, _; split; [vm_compute; reflexivity|vm_compute; reflexivity]).
  exists g, g', cell. split; [exact Hg|]. split; [exact Hmerge|].
  destruct (covered_cells_refuse_content_and_merges (World := list (option PyVal))
              Scenario.Nested _ _ _ _ _ _ _ _ _ _ _ _ _ _ _ _ 1 1 Hg Hmerge)
    as (Hadd & _ & Hm); [lia|lia|].
  destruct (covered_cells_refuse_content_and_merges (World := list (option PyVal))
              Scenario.Nested _ _ _ _ _ _ _ _ _ _ _ _ _ _ _ _ 0 1 Hg Hmerge)
    as (_ & Hnest & Hm'); [lia|lia|].
  split; [apply Hadd|]. split; [apply Hnest|].
  split; [apply Hm; lia|apply Hm'; lia].
Defined.

(** X13 for a nested grid of three rows in cell (0,1) of a grid of two
    rows and two columns placed at (10%, 20%) with size 80% by 50% and
    padding 10: it lies where a content function would be told to draw. *)
Lemma nested_grid_takes_the_place_of_the_cell_witness :
  exists (g g' nested g2 : Grid.t unit Scenario.Held) cell w2,
    Grid.init tt (PosStr "10%") (PosStr "20%") (PosStr "80%") (PosStr "50%")
      2 2 (Float64.of_Z 10) (Some "center") = Ok g /\
    Grid.add_grid_to_cell Scenario.Nested g 0 1 3 1 Grid.default_padding None
    = Ok (g', nested) /\
    (Grid.x nested = PosStr "52.00%" /\ Grid.y nested = PosStr "21.25%" /\
     Grid.width nested = PosStr "36.00%" /\ Grid.height nested = PosStr "22.50%") /\
    (Grid.rows nested = 3 /\ Grid.cols nested = 1 /\
     Grid.h_align nested = Some "center") /\
    Grid.get_cell g' 0 1 = Ok cell /\
    GridCell.content cell = Some (Scenario.Nested nested) /\
    Grid.add_to_cell g 0 1 (Scenario.draw_at 7) ∅ []
    = Ok (g2, Scenario.Drawing 7, w2) /\
    w2 = [Some (VStr "52.00%")].
Proof.
  assert (exists (g g' nested g2 : Grid.t unit Scenario.Held) w2,
            Grid.init tt (PosStr "10%") (PosStr "20%") (PosStr "80%") (PosStr "50%")
              2 2 (Float64.of_Z 10) (Some "center") = Ok g /\
            Grid.add_grid_to_cell Scenario.Nested g 0 1 3 1 Grid.default_padding None
            = Ok (g', nested) /\
            (Grid.x nested = PosStr "52.00%" /\ Grid.y nested = PosStr "21.25%" /\
             Grid.width nested = PosStr "36.00%" /\
             Grid.height nested = PosStr "22.50%") /\
            (Grid.rows nested = 3 /\ Grid.cols nested = 1 /\
             Grid.h_align nested = Some "center") /\
            Grid.add_to_cell g 0 1 (Scenario.draw_at 7) ∅ []
            = Ok (g2, Scenario.Drawing 7, w2))
    as (g & g' & nested & g2 & w2 & Hg & Hnest & Hgeo & Hdims & Hadd).
  { eexists _, _, _, _, _. split; [vm_compute; reflexivity|].
    split; [vm_compute; reflexivity|].
    split; [split; [reflexivity|split; [reflexivity|split; reflexivity]]|].
    split; [split; [reflexivity|split; reflexivity]|]. vm_compute. reflexivity. }
  destruct (nested_grid_takes_the_place_of_the_cell (World := list (option PyVal))
              Scenario.Nested _ _ _ _ _ _ _ _ _ Hnest)
    as (cell & sx & sy & sw & sh & (_ & Hget' & _) & (Hsx & _) & _ & Hsame).
  destruct (Hsame (Scenario.draw_at 7) ∅ [])
    as (g2' & v & w2' & kw & Hadd' & Hf & Hkx & _).
  rewrite Hadd in Hadd'. injection Hadd' as <- <- <-.
  unfold Scenario.draw_at in Hf. injection Hf as Hw2. rewrite Hkx in Hw2.
  destruct Hgeo as [Hx Hrest]. rewrite Hx in Hsx. injection Hsx as <-.
  exists g, g', nested, g2, (GridCell.set_content (Scenario.Nested nested) cell), w2.
  split; [exact Hg|]. split; [exact Hnest|].
  split; [split; [exact Hx|exact Hrest]|]. split; [exact Hdims|].
  split; [exact Hget'|]. split; [reflexivity|]. split; [exact Hadd|].
  symmetry. exact Hw2.
Defined.

(** X14 on the last cell of that nested grid. *)
Lemma nested_grid_accepts_content_witness :
  exists (g g' nested : Grid.t unit Scenario.Held),
    Grid.init tt (PosStr "10%") (PosStr "20%") (PosStr "80%") (PosStr "50%")
      2 2 (Float64.of_Z 10) (Some "center") = Ok g /\
    Grid.add_grid_to_cell Scenario.Nested g 0 1 3 1 Grid.default_padding None
    = Ok (g', nested) /\
    is_ok (Grid.add_to_cell nested 2 0 (Scenario.draw_at 1) ∅ []) = true /\
    is_ok (Grid.add_grid_to_cell Scenario.Nested nested 2 0 2 2
             Grid.default_padding None) = true.
Proof.
  assert (exists (g g' nested : Grid.t unit Scenario.Held),
            Grid.init tt (PosStr "10%") (PosStr "20%") (PosStr "80%") (PosStr "50%")
              2 2 (Float64.of_Z 10) (Some "center") = Ok g /\
            Grid.add_grid_to_cell Scenario.Nested g 0 1 3 1 Grid.default_padding None
            = Ok (g', nested))
    as (g & g' & nested & Hg & Hnest)
    by (eexists _, _, _; split; [vm_compute; reflexivity|vm_compute; reflexivity]).
  exists g, g', nested. split; [exact Hg|]. split; [exact Hnest|].
  destruct (nested_grid_accepts_content (World := list (option PyVal))
              Scenario.Nested _ _ _ _ _ _ _ _ _ 2 0 Hnest) as [Hadd Hnested];
    [lia|lia|].
  split; [apply Hadd|]. apply Hnested; split; (lia || reflexivity).
Defined.

(** X15 for five content functions: three columns give two rows, three
    rows give two columns; the last cell is empty in both grids. *)
Lemma autogrid_with_one_dimension_given_witness :
  (exists g,
     Grid.autogrid Scenario.add_nothing Scenario.sqrt_pow tt
       [Scenario.thunk 1; Scenario.thunk 2; Scenario.thunk 3;
        Scenario.thunk 4; Scenario.thunk 5]
       None (Some 3) (PosStr "5%") (PosStr "5%") (PosStr "90%") (PosStr "90%")
       Grid.default_padding (Some "center") None (PosStr "10%") []
     = Ok (g, [1; 2; 3; 4; 5]%nat) /\
     Grid.cols g = 3 /\ Grid.rows g = 2 /\
     (exists cell, Grid.get_cell g 1 1 = Ok cell /\ GridCell.content cell = Some 5%nat) /\
     (exists cell, Grid.get_cell g 1 2 = Ok cell /\ GridCell.content cell = None)) /\
  (exists g,
     Grid.autogrid Scenario.add_nothing Scenario.sqrt_pow tt
       [Scenario.thunk 1; Scenario.thunk 2; Scenario.thunk 3;
        Scenario.thunk 4; Scenario.thunk 5]
       (Some 3) None (PosStr "5%") (PosStr "5%") (PosStr "90%") (PosStr "90%")
       Grid.default_padding (Some "center") None (PosStr "10%") []
     = Ok (g, [1; 2; 3; 4; 5]%nat) /\
     Grid.rows g = 3 /\ Grid.cols g = 2 /\
     (exists cell, Grid.get_cell g 2 0 = Ok cell /\ GridCell.content cell = Some 5%nat) /\
     (exists cell, Grid.get_cell g 2 1 = Ok cell /\ GridCell.content cell = None)).
Proof.
  destruct (autogrid_with_one_dimension_given Scenario.add_nothing Scenario.sqrt_pow tt
              [Scenario.thunk 1; Scenario.thunk 2; Scenario.thunk 3;
               Scenario.thunk 4; Scenario.thunk 5] 3
              (PosStr "5%") (PosStr "5%") (PosStr "90%") (PosStr "90%")
              Grid.default_padding (Some "center") (PosStr "10%") [])
    as [(g & Hauto & Hcols & Hrows & _ & Hcells) (g' & Hauto' & Hrows' & Hcols' & _ & Hcells')].
  { simpl length. split; [lia|reflexivity]. }
  { split; [lia|reflexivity]. }
  { split; [|split; [|split]]; vm_compute; reflexivity. }
  assert (Grid.rows g = 2) as Hrows2 by (rewrite Hrows; reflexivity).
  assert (Grid.cols g' = 2) as Hcols2 by (rewrite Hcols'; reflexivity).
  split.
  - exists g. split; [exact Hauto|]. split; [exact Hcols|]. split; [exact Hrows2|].
    rewrite Hrows2 in Hcells. split; apply Hcells; lia.
  - exists g'. split; [exact Hauto'|]. split; [exact Hrows'|]. split; [exact Hcols2|].
    rewrite Hcols2 in Hcells'. split; apply Hcells'; lia.
Defined.

(** X16 for five content functions in a grid of one row and two columns:
    only the first two run. *)
Lemma autogrid_drops_the_functions_in_excess_witness :
  exists g,
    Grid.autogrid Scenario.add_nothing Scenario.sqrt_pow tt
      [Scenario.thunk 1; Scenario.thunk 2; Scenario.thunk 3;
       Scenario.thunk 4; Scenario.thunk 5]
      (Some 1) (Some 2) (PosStr "5%") (PosStr "5%") (PosStr "90%") (PosStr "90%")
      Grid.default_padding (Some "center") None (PosStr "10%") []
    = Ok (g, [1; 2]%nat) /\
    Grid.rows g = 1 /\ Grid.cols g = 2 /\
    (exists cell, Grid.get_cell g 0 0 = Ok cell /\ GridCell.content cell = Some 1%nat) /\
    (exists cell, Grid.get_cell g 0 1 = Ok cell /\ GridCell.content cell = Some 2%nat).
Proof.
  destruct (autogrid_drops_the_functions_in_excess Scenario.add_nothing Scenario.sqrt_pow tt
              [Scenario.thunk 1; Scenario.thunk 2; Scenario.thunk 3;
               Scenario.thunk 4; Scenario.thunk 5] 1 2
              (PosStr "5%") (PosStr "5%") (PosStr "90%") (PosStr "90%")
              Grid.default_padding (Some "center") (PosStr "10%") [])
    as (g & Hauto & Hrows & Hcols & Hcells).
  { discriminate. }
  { split; [lia|reflexivity]. }
  { split; [lia|reflexivity]. }
  { split; [|split; [|split]]; vm_compute; reflexivity. }
  exists g. split; [exact Hauto|]. split; [exact Hrows|]. split; [exact Hcols|].
  split; apply Hcells; lia.
Defined.

(** X17 for [y=1.0] and the title ["Sales"]. *)
Lemma autogrid_title_needs_a_percent_y_witness :
  (Grid.truthy (Some "Sales") = true /\
   Grid.is_percent_text (PosFloat (Float64.of_Z 1)) = None) /\
  Grid.autogrid Scenario.add_nothing Scenario.sqrt_pow tt [Scenario.thunk 1; Scenario.thunk 2]
    None None (PosStr "5%") (PosFloat (Float64.of_Z 1)) (PosStr "90%")
    (PosStr "90%") Grid.default_padding (Some "center") (Some "Sales")
    (PosStr "10%") []
  = Raise UnboundLocalError.
Proof.
  split; [split; reflexivity|].
  apply (autogrid_title_needs_a_percent_y Scenario.add_nothing Scenario.sqrt_pow tt
           [Scenario.thunk 1; Scenario.thunk 2] None None 2 1);
    try reflexivity; try discriminate; split; (lia || reflexivity).
Defined.

(** X18 with the default position and size: the title is drawn first (it
    records 0), the grid starts at [15.00%] and is [80.00%] high. *)
Lemma autogrid_puts_the_grid_under_its_title_witness :
  exists g,
    Grid.autogrid Scenario.add_title_log Scenario.sqrt_pow tt
      [Scenario.thunk 1; Scenario.thunk 2; Scenario.thunk 3]
      None None (PosStr "5%") (PosStr "5%") (PosStr "90%") (PosStr "90%")
      Grid.default_padding (Some "center") (Some "Sales") (PosStr "10%") []
    = Ok (g, [0; 1; 2; 3]%nat) /\
    Grid.y g = PosStr "15.00%" /\ Grid.height g = PosStr "80.00%" /\
    Grid.x g = PosStr "5%" /\ Grid.width g = PosStr "90%" /\
    Grid.rows g = 3 /\ Grid.cols g = 1.
Proof.
  destruct (autogrid_puts_the_grid_under_its_title Scenario.add_title_log Scenario.sqrt_pow tt
              [Scenario.thunk 1; Scenario.thunk 2; Scenario.thunk 3]
              None None 3 1 (PosStr "5%") (PosStr "90%") (PosStr "10%")
              "5%" "90%" "Sales" (Float64.of_Z 5) (Float64.of_Z 90)
              (Float64.of_Z 10) Grid.default_padding (Some "center") [])
    as [_ Hok]; try (vm_compute; reflexivity); try discriminate;
    try (split; (lia || reflexivity)).
  destruct (Hok 0%nat [0%nat] eq_refl)
    as (g & Hauto & (Hx & Hw & Hy & Hh & Hr & Hc) & _).
  exists g. split; [exact Hauto|].
  split; [rewrite Hy; vm_compute; reflexivity|].
  split; [rewrite Hh; vm_compute; reflexivity|].
  split; [exact Hx|]. split; [exact Hw|]. split; [exact Hr|exact Hc].
Defined.

(** X19 for three figures: three calls of [add_image], each with
    ["10%"], ["10%"], ["80%"], ["80%"]. *)
Lemma autogrid_pyplot_draws_every_figure_at_the_defaults_witness :
  exists g,
    Grid.autogrid_pyplot Scenario.add_text_silent Scenario.sqrt_pow Scenario.add_image_log tt
      ["a.png"; "b.png"; "c.png"] None None
      (PosStr "5%") (PosStr "5%") (PosStr "90%") (PosStr "90%")
      Grid.default_padding (Some "center") None (PosStr "10%") []
    = Ok (g, [("a.png", [VStr "10%"; VStr "10%"; VStr "80%"; VStr "80%"]);
              ("b.png", [VStr "10%"; VStr "10%"; VStr "80%"; VStr "80%"]);
              ("c.png", [VStr "10%"; VStr "10%"; VStr "80%"; VStr "80%"])]) /\
    Grid.rows g = 3 /\ Grid.cols g = 1 /\
    (exists cell, Grid.get_cell g 2 0 = Ok cell /\ GridCell.content cell = Some 2%nat).
Proof.
  destruct (autogrid_pyplot_draws_every_figure_at_the_defaults
              Scenario.add_text_silent Scenario.sqrt_pow Scenario.add_image_log tt
              ["a.png"; "b.png"; "c.png"] None None 3 1
              (PosStr "5%") (PosStr "5%") (PosStr "90%") (PosStr "90%")
              Grid.default_padding (Some "center") (PosStr "10%") [])
    as (g & Hauto & Hrows & Hcols & Hcells).
  { discriminate. }
  { vm_compute. reflexivity. }
  { split; [lia|reflexivity]. }
  { split; [lia|reflexivity]. }
  { split; [|split; [|split]]; vm_compute; reflexivity. }
  exists g. split; [exact Hauto|]. split; [exact Hrows|]. split; [exact Hcols|].
  apply Hcells; lia.
Defined.

(** X21 on a 4:3 slide, horizontal layout, padding 10, container at
    (10%, 20%) of 60% by 40%: a shape at x = 1.1 inches, a text at
    x = 3.1 inches, and for the item of type ["chart"] the text once
    more. *)
Lemma add_multiple_objects_lays_out_by_index_witness :
  exists created a b c,
    SlideLayout.add_multiple_objects Scenario.standard
      [{["type" := VStr "shape"]}; ∅; {["type" := VStr "chart"]}]
      "horizontal" (Float64.of_Z 10)
      (PosStr "10%") (PosStr "20%") (PosStr "60%") (PosStr "40%")
    = Ok created /\
    created = [a; b; c] /\
    (SlideLayout.kind a = SlideLayout.Shape /\
     Slide.x_emu (SlideLayout.geometry a) = 1005840 /\
     Slide.y_emu (SlideLayout.geometry a) = 1508760 /\
     Slide.width_emu (SlideLayout.geometry a) = Some 1645920) /\
    (SlideLayout.kind b = SlideLayout.Text /\
     Slide.x_emu (SlideLayout.geometry b) = 2834640) /\
    c = b.
Proof.
  assert (forall d, head [({["type" := VStr "shape"]} : Kwargs); ∅;
                          {["type" := VStr "chart"]}] = Some d ->
                    SlideLayoutSpec.kind_of d <> None) as Hhead.
  { intros d [= <-]. vm_compute. discriminate. }
  assert (forall j d k,
             [({["type" := VStr "shape"]} : Kwargs); ∅;
              {["type" := VStr "chart"]}] !! j = Some d ->
             SlideLayoutSpec.kind_of d = Some k ->
             is_ok (SlideLayoutSpec.object_at
                      (Float64.of_Z 1) (Float64.of_decimal false 15 (-1))
                      (Float64.div (Float64.of_Z 6) (Float64.of_Z 3))
                      (Float64.div (Float64.of_Z 3) (Float64.of_Z 1))
                      (Float64.div (Float64.of_Z 10) Float64.f100) 3 k
                      (Z.of_nat j)) = true) as Hconv.
  { intros [|[|[|j]]] d k Hj Hk; [| | |discriminate Hj];
      injection Hj as <-; vm_compute in Hk;
      [injection Hk as <-|injection Hk as <-|discriminate Hk];
      vm_compute; reflexivity. }
  destruct (add_multiple_objects_lays_out_by_index Scenario.standard
              [{["type" := VStr "shape"]}; ∅; {["type" := VStr "chart"]}]
              "horizontal" (Float64.of_Z 10)
              (PosStr "10%") (PosStr "20%") (PosStr "60%") (PosStr "40%")
              (Float64.of_Z 1) (Float64.of_decimal false 15 (-1))
              (Float64.of_Z 6) (Float64.of_Z 3) 3 1)
    as [Hok _];
    [vm_compute; reflexivity|vm_compute; reflexivity|vm_compute; reflexivity
    |vm_compute; reflexivity|vm_compute; reflexivity
    |split; [lia|reflexivity]|split; [lia|reflexivity]|reflexivity|].
  destruct (Hok Hhead Hconv) as (created & Hadd & Hlen & Hall).
  assert (exists a b c,
             SlideLayout.add_multiple_objects Scenario.standard
               [{["type" := VStr "shape"]}; ∅; {["type" := VStr "chart"]}]
               "horizontal" (Float64.of_Z 10)
               (PosStr "10%") (PosStr "20%") (PosStr "60%") (PosStr "40%")
             = Ok [a; b; c]) as (a & b & c & Hval)
    by (do 3 eexists; vm_compute; reflexivity).
  rewrite Hval in Hadd. injection Hadd as <-.
  exists [a; b; c], a, b, c. split; [exact Hval|]. split; [reflexivity|].
  pose proof (Hall 0%nat _ eq_refl) as Ha.
  pose proof (Hall 1%nat _ eq_refl) as Hb.
  pose proof (Hall 2%nat _ eq_refl) as Hc.
  change (SlideLayoutSpec.kind_of {["type" := VStr "shape"]})
    with (Some SlideLayout.Shape) in Ha.
  change (SlideLayoutSpec.kind_of ∅) with (Some SlideLayout.Text) in Hb.
  destruct Ha as (oa & Hoa & Ha). destruct Hb as (ob & Hob & Hb).
  vm_compute in Hoa, Hob. injection Hoa as <-. injection Hob as <-.
  injection Ha as ->. injection Hb as ->.
  split; [repeat split|]. split; [repeat split|].
  change (SlideLayoutSpec.kind_of {["type" := VStr "chart"]}) with (@None SlideLayout.Kind) in Hc.
  destruct Hc as [_ Hc]. cbn in Hc. congruence.
Defined.

(** X22 for a first item of type ["chart"]. *)
Lemma add_multiple_objects_of_an_unknown_first_type_witness :
  SlideLayoutSpec.kind_of {["type" := VStr "chart"]} = None /\
  SlideLayout.add_multiple_objects Scenario.standard
    [{["type" := VStr "chart"]}; ∅] "vertical" (Float64.of_Z 5)
    (PosStr "5%") (PosStr "5%") (PosStr "90%") (PosStr "90%")
  = Raise UnboundLocalError.
Proof.
  split; [vm_compute; reflexivity|].
  apply (add_multiple_objects_of_an_unknown_first_type Scenario.standard
           {["type" := VStr "chart"]} [∅] "vertical" (Float64.of_Z 5)
           (PosStr "5%") (PosStr "5%") (PosStr "90%") (PosStr "90%") 1 2);
    try (vm_compute; reflexivity); vm_compute; split; congruence.
Defined.

(** X23 for two rows of three cells at (1.0, 1.5) inches: a table of
    2 by 3, 6.0 inches wide and 1.0 inch high, in EMU. *)
Lemma table_add_checks_the_shape_of_the_data_witness :
  Table.add (Table.mk (Slide.init Scenario.bare_slide))
    [[1; 2; 3]; [4; 5; 6]]
    (PosFloat (Float64.of_Z 1)) (PosFloat (Float64.of_decimal false 15 (-1)))
    None None
  = Ok (2, 3, Slide.mkGeometry 914400 1371600 (Some 5486400) (Some 914400)).
Proof.
  destruct (table_add_checks_the_shape_of_the_data
              (Table.mk (Slide.init Scenario.bare_slide))
              [[1; 2; 3]; [4; 5; 6]]
              (PosFloat (Float64.of_Z 1))
              (PosFloat (Float64.of_decimal false 15 (-1))) None None)
    as (_ & _ & Hrect).
  destruct (Hrect [1; 2; 3] [[4; 5; 6]] (Float64.of_Z 1)
              (Float64.of_decimal false 15 (-1)) eq_refl) as [Heq _].
  { intros row Hin. rewrite !elem_of_cons in Hin.
    destruct Hin as [->|[->|Hin]]; [reflexivity|reflexivity|].
    apply elem_of_nil in Hin. contradiction. }
  { reflexivity. }
  { reflexivity. }
  rewrite Heq. vm_compute. reflexivity.
Defined.

(** X24: on such a slide ["40%"] of the width is 4 inches, and 3.5 inches
    when centred. *)
Lemma slide_without_dimensions_is_4_by_3_witness :
  (Slide.slide_width Scenario.bare_slide = None /\
   Slide.slide_height Scenario.bare_slide = None) /\
  Slide.cached (Slide.init Scenario.bare_slide) = Slide.mk 9144000 6858000 /\
  Slide._convert_position (Slide.cached (Slide.init Scenario.bare_slide))
    (PosStr "40%") 9144000 true None = Ok (Float64.of_Z 4) /\
  Slide._convert_position (Slide.cached (Slide.init Scenario.bare_slide))
    (PosStr "40%") 9144000 true (Some "center")
  = Ok (Float64.of_decimal false 35 (-1)).
Proof.
  split; [split; reflexivity|].
  destruct (slide_without_dimensions_is_4_by_3 Scenario.bare_slide "40%"
              (Float64.of_Z 40) 9144000 eq_refl eq_refl eq_refl eq_refl)
    as [Hcached Hcentre].
  split; [exact Hcached|]. split; [vm_compute; reflexivity|].
  rewrite Hcentre by (vm_compute; reflexivity). vm_compute. reflexivity.
Defined.
